(** * Attendance marking and active-course tracking of [server.py]

    A shallow embedding of the Flask handlers that make up the core of
    the application: [set_course], [get_course] and [mark_attendance],
    together with the SQLite tables they read and write and the string
    helpers they rely on; then of the handlers around them
    ([clear_course], [delete_history], [delete_record],
    [history_by_date], [my_attendance], [generate_qr]) and of the user
    accounts ([initialize_db], [login], [change_password]).

    Conventions.
    - A character is a code point below 256 (the Latin-1 block of
      Unicode), carried by [ascii]; a text is a [string] of them.  The
      fixed messages of the replies are kept as the source writes them.
    - Python's [str.strip] and [str.lower] and SQLite's [TRIM] and
      [LOWER] are four different functions and are kept apart:
      SQLite's [TRIM] removes the space character only and its built-in
      [LOWER] folds the 26 letters A-Z only, whereas Python strips every
      white-space character and folds every cased letter.
    - A table is the list of its rows in insertion order, with the
      largest row id handed out so far (SQLite's [sqlite_sequence] for an
      [AUTOINCREMENT] key).
    - A handler runs on a connection: statements act on the connection's
      view, [commit] publishes the view, and closing the connection drops
      what was not committed (so does the [rollback] that [set_course]
      runs just before it closes).  Every statement, commit and socket emit can
      raise; which ones do is given by a fault plan. *)

From Stdlib Require Import List String Ascii Bool Arith PeanoNat Lia.
Import ListNotations.
Local Open Scope string_scope.
Local Open Scope list_scope.
Local Open Scope nat_scope.

(** ** Texts *)

Module Text.

Definition code (c : ascii) : nat := nat_of_ascii c.

(** [str.isspace] on the code points below 256. *)
Definition py_isspace (c : ascii) : bool :=
  let n := code c in
  ((9 <=? n) && (n <=? 13)) || ((28 <=? n) && (n <=? 32))
  || (n =? 133) || (n =? 160).

(** SQLite's [TRIM(X)] removes spaces only. *)
Definition sql_isspace (c : ascii) : bool := code c =? 32.

Definition ascii_upper (c : ascii) : bool :=
  let n := code c in (65 <=? n) && (n <=? 90).

(** Upper-case letters of the Latin-1 supplement: U+00C0 to U+00DE
    without the multiplication sign U+00D7. *)
Definition latin1_upper (c : ascii) : bool :=
  let n := code c in (192 <=? n) && (n <=? 222) && negb (n =? 215).

Definition shift32 (c : ascii) : ascii := ascii_of_nat (code c + 32).

Definition py_lower_char (c : ascii) : ascii :=
  if ascii_upper c || latin1_upper c then shift32 c else c.

Definition sql_lower_char (c : ascii) : ascii :=
  if ascii_upper c then shift32 c else c.

Fixpoint map_chars (f : ascii -> ascii) (s : string) : string :=
  match s with
  | EmptyString => EmptyString
  | String c r => String (f c) (map_chars f r)
  end.

Fixpoint lstrip_with (p : ascii -> bool) (s : string) : string :=
  match s with
  | EmptyString => EmptyString
  | String c r => if p c then lstrip_with p r else s
  end.

Fixpoint rstrip_with (p : ascii -> bool) (s : string) : string :=
  match s with
  | EmptyString => EmptyString
  | String c r =>
      match rstrip_with p r with
      | EmptyString => if p c then EmptyString else String c EmptyString
      | r' => String c r'
      end
  end.

Definition strip_with (p : ascii -> bool) (s : string) : string :=
  rstrip_with p (lstrip_with p s).

(** [s.strip()] and [s.lower()] of Python. *)
Definition py_strip : string -> string := strip_with py_isspace.
Definition py_lower : string -> string := map_chars py_lower_char.

(** [TRIM(s)] and [LOWER(s)] of SQLite. *)
Definition sql_trim : string -> string := strip_with sql_isspace.
Definition sql_lower : string -> string := map_chars sql_lower_char.

Definition bar : ascii := "|"%char.

(** ['|' in s] *)
Fixpoint has_bar (s : string) : bool :=
  match s with
  | EmptyString => false
  | String c r => Ascii.eqb c bar || has_bar r
  end.

(** [s.split('|', 1)] when [s] holds a bar: the text before the first
    bar and the text after it. *)
Fixpoint split_bar (s : string) : string * string :=
  match s with
  | EmptyString => (EmptyString, EmptyString)
  | String c r =>
      if Ascii.eqb c bar then (EmptyString, r)
      else let '(a, b) := split_bar r in (String c a, b)
  end.

(** [x or d] for a JSON field that is absent, null or a text. *)
Definition or_default (x : option string) (d : string) : string :=
  match x with
  | None => d
  | Some EmptyString => d
  | Some s => s
  end.

(** The course name as Python formats it between quotes. *)
Definition quoted (s : string) : string := ("'" ++ s ++ "'")%string.

End Text.

(** [norm_id] and [id_matches] of the helper section of the source. *)
Definition norm_id (s : option string) : string :=
  match s with
  | Some s => Text.py_lower (Text.py_strip s)
  | None => EmptyString
  end.

Definition id_matches (stored_id scanned_id : option string) : bool :=
  String.eqb (norm_id stored_id) (norm_id scanned_id).

(** [LOWER(TRIM(x))] as the queries write it. *)
Definition sql_norm (s : string) : string := Text.sql_lower (Text.sql_trim s).

(** ** The SQLite store *)

Module Store.

(** [courses (id, course_name UNIQUE NOT NULL)] *)
Record course_row := { courses_id : nat; course_name : string }.

(** [active_course (id, course_id, active_date)] *)
Record active_row :=
  { active_id : nat; active_course_id : nat; active_date : string }.

(** [attendance (id, student_id, name, date, time, course)]; the
    [course] column is the only one that may hold NULL. *)
Record attendance_row :=
  { attendance_id : nat;
    student_id : string;
    name : string;
    date : string;
    time : string;
    course : option string }.

Record table (R : Type) := { rows : list R; seq : nat }.
Arguments rows {R} _.
Arguments seq {R} _.

Definition empty_table {R : Type} : table R := {| rows := []; seq := 0 |}.

(** An [INSERT] into a table with an [AUTOINCREMENT] key: the row gets
    the next id and goes last; the id is [cur.lastrowid]. *)
Definition lastrowid {R : Type} (t : table R) : nat := S (seq t).

Definition insert_row {R : Type} (mk : nat -> R) (t : table R) : table R :=
  {| rows := rows t ++ [mk (lastrowid t)]; seq := lastrowid t |}.

Definition delete_where {R : Type} (p : R -> bool) (t : table R) : table R :=
  {| rows := filter (fun r => negb (p r)) (rows t); seq := seq t |}.

Record db :=
  { courses : table course_row;
    active_course : table active_row;
    attendance : table attendance_row }.

Definition empty_db : db :=
  {| courses := empty_table;
     active_course := empty_table;
     attendance := empty_table |}.

(** *** Statements on [courses] *)

(** [SELECT id FROM courses WHERE LOWER(TRIM(course_name)) = ?] and
    [fetchone]. *)
Definition select_course_id (key : string) (d : db) : option nat :=
  option_map courses_id
    (find (fun c => String.eqb (sql_norm (course_name c)) key)
          (rows (courses d))).

Definition unique_courses_error : string :=
  "UNIQUE constraint failed: courses.course_name".

(** [INSERT INTO courses (course_name) VALUES (?)]: refused when the
    same name is stored already (the column is [UNIQUE]). *)
Definition insert_course (nm : string) (d : db) : string + (nat * db) :=
  if existsb (fun c => String.eqb (course_name c) nm) (rows (courses d))
  then inl unique_courses_error
  else inr (lastrowid (courses d),
            {| courses :=
                 insert_row (fun i => {| courses_id := i; course_name := nm |})
                            (courses d);
               active_course := active_course d;
               attendance := attendance d |}).

(** *** Statements on [active_course] *)

(** [SELECT 1 FROM active_course WHERE course_id = ? AND active_date = ?
    LIMIT 1] and [fetchone]. *)
Definition active_exists (cid : nat) (day : string) (d : db) : bool :=
  existsb (fun a => (active_course_id a =? cid)
                    && String.eqb (active_date a) day)
          (rows (active_course d)).

(** [INSERT INTO active_course (course_id, active_date) VALUES (?, ?)] *)
Definition insert_active (cid : nat) (day : string) (d : db) : db :=
  {| courses := courses d;
     active_course :=
       insert_row (fun i => {| active_id := i;
                               active_course_id := cid;
                               active_date := day |})
                  (active_course d);
     attendance := attendance d |}.

(** [DELETE FROM active_course WHERE active_date = ?] *)
Definition delete_active (day : string) (d : db) : db :=
  {| courses := courses d;
     active_course :=
       delete_where (fun a => String.eqb (active_date a) day)
                    (active_course d);
     attendance := attendance d |}.

(** [... FROM active_course a JOIN courses c ON c.id = a.course_id
    WHERE a.active_date = ?]: the joined rows, in table order. *)
Definition joined_on (day : string) (d : db)
  : list (active_row * course_row) :=
  flat_map
    (fun a =>
       map (fun c => (a, c))
           (filter (fun c => courses_id c =? active_course_id a)
                   (rows (courses d))))
    (filter (fun a => String.eqb (active_date a) day)
            (rows (active_course d))).

(** [ORDER BY a.id DESC LIMIT 1]: the joined row with the largest
    [active_course.id]. *)
Fixpoint latest (l : list (active_row * course_row))
  : option (active_row * course_row) :=
  match l with
  | [] => None
  | x :: r =>
      match latest r with
      | Some y => if active_id (fst x) <? active_id (fst y)
                  then Some y else Some x
      | None => Some x
      end
  end.

(** The query shared by [get_course] and [mark_attendance]; the answer
    is the pair [(course_id, course_name)]. *)
Definition select_active (day : string) (d : db) : option (nat * string) :=
  option_map (fun ac => (active_course_id (fst ac), course_name (snd ac)))
             (latest (joined_on day d)).

(** *** Statements on [attendance] *)

(** [LOWER(TRIM(course))], NULL when the column is NULL. *)
Definition sql_norm_null (c : option string) : option string :=
  option_map sql_norm c.

Definition null_eqb (c : option string) (key : string) : bool :=
  match c with
  | Some s => String.eqb s key
  | None => false
  end.

(** The [WHERE] clause of the two existence checks. *)
Definition matches (day sid crs : string) (r : attendance_row) : bool :=
  String.eqb (date r) day
  && String.eqb (sql_norm (student_id r)) sid
  && null_eqb (sql_norm_null (course r)) crs.

(** [SELECT 1 FROM attendance WHERE date = ? AND
    LOWER(TRIM(student_id)) = ? AND LOWER(TRIM(course)) = ? LIMIT 1],
    then [fetchone() is not None]. *)
Definition attendance_exists (day sid crs : string) (d : db) : bool :=
  existsb (matches day sid crs) (rows (attendance d)).

(** [INSERT INTO attendance (student_id, name, date, time, course)
    VALUES (?, ?, ?, ?, ?)] *)
Definition insert_attendance (sid nm day tm crs : string) (d : db) : db :=
  {| courses := courses d;
     active_course := active_course d;
     attendance :=
       insert_row (fun i => {| attendance_id := i;
                               student_id := sid;
                               name := nm;
                               date := day;
                               time := tm;
                               course := Some crs |})
                  (attendance d) |}.

(** [SELECT COUNT(DISTINCT student_id) FROM attendance WHERE date = ?
    AND LOWER(TRIM(course)) = ?] *)
Definition count_students (day crs : string) (d : db) : nat :=
  List.length
    (nodup string_dec
       (map student_id
            (filter (fun r => String.eqb (date r) day
                              && null_eqb (sql_norm_null (course r)) crs)
                    (rows (attendance d))))).

End Store.

(** ** Connections, faults and notifications *)

Module Conn.
Import Store.

(** The places of the three handlers where a storage statement, a
    commit or a socket emit is run, named after the handler
    ([MA] for [mark_attendance], [SC] for [set_course], [GC] for
    [get_course]). *)
Inductive op :=
| MA_emit_update
| MA_select_active
| MA_select_general
| MA_insert_general
| MA_commit_general
| MA_select_course
| MA_insert_course
| MA_commit_course
| MA_emit_new (i : nat)
| MA_select_count
| MA_emit_count
| SC_select_course
| SC_insert_course
| SC_select_active
| SC_insert_active
| SC_delete_active
| SC_commit
| SC_emit
| GC_select.

(** A fault plan: the exception text raised at a place, if any. *)
Definition faults := op -> option string.
Definition no_faults : faults := fun _ => None.

(** The dictionary appended to [inserted_records]. *)
Record scan_record :=
  { ID : string; Name : string; Date : string; Time : string;
    Course : string }.

(** What [socketio.emit] sends. *)
Inductive event :=
| attendance_update (status : string)
| new_attendance (rec : scan_record)
| attendance_count (course : string) (count : nat) (date : string)
| course_changed (course mode timestamp : string).

(** A connection: [store] is the committed database every reader
    sees, [view] is what this connection sees (the store plus its own
    uncommitted writes), [sent] the events emitted so far. *)
Record conn := { store : db; view : db; sent : list event }.

Definition connect (d : db) : conn :=
  {| store := d; view := d; sent := [] |}.

Inductive outcome (A : Type) :=
| Raised (e : string)
| Done (a : A).
Arguments Raised {A} e.
Arguments Done {A} a.

Definition M (A : Type) : Type := conn -> outcome A * conn.

Definition ret {A : Type} (a : A) : M A := fun c => (Done a, c).

Definition bind {A B : Type} (m : M A) (k : A -> M B) : M B :=
  fun c =>
    match m c with
    | (Raised e, c') => (Raised e, c')
    | (Done a, c') => k a c'
    end.

(** [try: m except Exception as e: h e] *)
Definition catch {A : Type} (m : M A) (h : string -> M A) : M A :=
  fun c =>
    match m c with
    | (Raised e, c') => h e c'
    | r => r
    end.

(** [cur.execute] of a reading statement. *)
Definition query {A : Type} (f : faults) (o : op) (q : db -> A) : M A :=
  fun c =>
    match f o with
    | Some e => (Raised e, c)
    | None => (Done (q (view c)), c)
    end.

(** [cur.execute] of a writing statement, which the database itself
    may refuse; a statement that raises changes nothing. *)
Definition execute {A : Type} (f : faults) (o : op)
           (w : db -> string + (A * db)) : M A :=
  fun c =>
    match f o with
    | Some e => (Raised e, c)
    | None =>
        match w (view c) with
        | inl e => (Raised e, c)
        | inr (a, d) =>
            (Done a, {| store := store c; view := d; sent := sent c |})
        end
    end.

Definition write (w : db -> db) : db -> string + (unit * db) :=
  fun d => inr (tt, w d).

(** [conn.commit()] *)
Definition commit (f : faults) (o : op) : M unit :=
  fun c =>
    match f o with
    | Some e => (Raised e, c)
    | None =>
        (Done tt, {| store := view c; view := view c; sent := sent c |})
    end.

(** [socketio.emit(...)] *)
Definition emit (f : faults) (o : op) (e : event) : M unit :=
  fun c =>
    match f o with
    | Some x => (Raised x, c)
    | None =>
        (Done tt,
         {| store := store c; view := view c; sent := sent c ++ [e] |})
    end.

(** What a request leaves behind once [conn.close()] has run: the
    reply, the committed database and the events sent. *)
Record result (R : Type) :=
  { reply : R; final : db; events : list event }.
Arguments reply {R} _.
Arguments final {R} _.
Arguments events {R} _.

(** Run a handler body that catches its own exceptions; closing the
    connection drops whatever was not committed. *)
Definition serve {R : Type} (m : M R) (crash : string -> R) (d : db)
  : result R :=
  match m (connect d) with
  | (Done r, c) => {| reply := r; final := store c; events := sent c |}
  | (Raised e, c) =>
      {| reply := crash e; final := store c; events := sent c |}
  end.

End Conn.

Declare Scope handler_scope.
Delimit Scope handler_scope with handler.
Notation "x <- m ;; k" := (Conn.bind m (fun x => k))
  (at level 61, m at next level, right associativity) : handler_scope.
Notation "m ;;; k" := (Conn.bind m (fun _ => k))
  (at level 61, right associativity) : handler_scope.

(** ** The handlers *)

Module Handlers.
Import Store Conn.
Local Open Scope handler_scope.

(** *** [/mark_attendance] *)

(** The JSON bodies [mark_attendance] returns. *)
Inductive mark_body :=
| Rejected (message : string) (error : option string)
| Marked (messages : list string) (inserted : list scan_record).


Definition general_recorded : string :=
  "✅ General attendance recorded.".
Definition general_already : string :=
  "⚠️ General attendance already recorded today.".
Definition course_recorded (course_name : string) : string :=
  ("✅ Course attendance recorded for " ++ Text.quoted course_name ++ ".")%string.
Definition course_already (course_name : string) : string :=
  ("⚠️ Course attendance already recorded for "
     ++ Text.quoted course_name ++ ".")%string.

Definition record_of (student_id name date_today time_now crs : string)
  : scan_record :=
  {| ID := student_id; Name := name; Date := date_today;
     Time := time_now; Course := crs |}.

(** The general attendance check: the messages and inserted records it
    leaves. *)
Definition general_check (f : faults)
           (student_id name date_today time_now : string)
  : M (list string * list scan_record) :=
  general_exists <-
    query f MA_select_general
      (attendance_exists date_today (norm_id (Some student_id)) "general") ;;
  if negb general_exists then
    execute f MA_insert_general
      (write (insert_attendance student_id name date_today time_now
                                "General")) ;;;
    commit f MA_commit_general ;;;
    ret ([general_recorded],
         [record_of student_id name date_today time_now "General"])
  else
    ret ([general_already], []).

(** The course attendance check, run when a course is active; it
    appends to the messages and records of the general check. *)
Definition course_check (f : faults)
           (student_id name date_today time_now course_name : string)
           (messages : list string) (inserted_records : list scan_record)
  : M (list string * list scan_record) :=
  course_exists <-
    query f MA_select_course
      (attendance_exists date_today (norm_id (Some student_id))
                         (Text.py_lower course_name)) ;;
  if negb course_exists then
    execute f MA_insert_course
      (write (insert_attendance student_id name date_today time_now
                                course_name)) ;;;
    commit f MA_commit_course ;;;
    ret (messages ++ [course_recorded course_name],
         inserted_records
           ++ [record_of student_id name date_today time_now course_name])
  else
    ret (messages ++ [course_already course_name], inserted_records).

(** [for rec in inserted_records: socketio.emit('new_attendance', rec)] *)
Fixpoint emit_new (f : faults) (i : nat) (recs : list scan_record)
  : M unit :=
  match recs with
  | [] => ret tt
  | r :: rs => emit f (MA_emit_new i) (new_attendance r) ;;;
               emit_new f (S i) rs
  end.

(** The notification block; whatever it raises is logged and dropped. *)
Definition notify (f : faults) (course_mode : bool)
           (date_today course_name : string)
           (inserted_records : list scan_record) : M unit :=
  catch
    (emit_new f 0 inserted_records ;;;
     if course_mode then
       count <- query f MA_select_count
                  (count_students date_today (Text.py_lower course_name)) ;;
       emit f MA_emit_count
            (attendance_count course_name count date_today)
     else ret tt)
    (fun _ => ret tt).

(** The body of the second [try] of [mark_attendance]. *)
Definition mark_valid (f : faults)
           (student_id name date_today time_now : string)
  : M (nat * mark_body) :=
  active <- query f MA_select_active (select_active date_today) ;;
  let course_mode := match active with Some _ => true | None => false end in
  let course_name :=
    match active with Some (_, cn) => cn | None => "General" end in
  gen <- general_check f student_id name date_today time_now ;;
  done <-
    (if course_mode then
       course_check f student_id name date_today time_now course_name
                    (fst gen) (snd gen)
     else ret gen) ;;
  notify f course_mode date_today course_name (snd done) ;;;
  ret (200, Marked (fst done) (snd done)).

Definition mark_failed (e : string) : nat * mark_body :=
  (500, Rejected "Failed to mark attendance" (Some e)).

(** [mark_attendance]: [data] is the [data] field of the JSON body
    (absent, null or a text), [now] the date and time of
    [now_lagos()]. *)
Definition mark_attendance (f : faults) (data : option string)
           (now : string * string) (d : db) : result (nat * mark_body) :=
  let payload := Text.py_strip (Text.or_default data "") in
  if negb (Text.has_bar payload) then
    match f MA_emit_update with
    | None =>
        {| reply := (400, Rejected "Invalid QR content (expected 'id|name')"
                                   None);
           final := d;
           events := [attendance_update "new record added"] |}
    | Some e =>
        {| reply := (400, Rejected "Invalid QR content" (Some e));
           final := d;
           events := [] |}
    end
  else
    let student_id := Text.py_strip (fst (Text.split_bar payload)) in
    let name := Text.py_strip (snd (Text.split_bar payload)) in
    serve (mark_valid f student_id name (fst now) (snd now)) mark_failed d.

(** *** [/set_course] *)

(** The Flask session: the [user] and [role] keys, when set. *)
Record session := { user : option string; role : option string }.

Definition is_admin (s : session) : bool :=
  match user s, role s with
  | Some _, Some r => String.eqb r "admin"
  | _, _ => false
  end.

(** The JSON body of a [/set_course] request. *)
Record course_request :=
  { req_course : option string; req_mode : option string }.

Definition course_of (info : course_request) : string :=
  Text.py_strip (Text.or_default (req_course info) "").

Definition mode_of (info : course_request) : string :=
  Text.py_strip (Text.or_default (req_mode info) "general").

Inductive course_body :=
| Message (message : string)
| Failed (message error : string)
| Updated (message course mode : string).

(** The branch [mode == 'course'] once a course name is given. *)
Definition activate (f : faults) (course today : string) : M unit :=
  r <- query f SC_select_course
         (select_course_id (Text.py_strip (Text.py_lower course))) ;;
  course_id <-
    match r with
    | Some i => ret i
    | None => execute f SC_insert_course (insert_course course)
    end ;;
  present <- query f SC_select_active (active_exists course_id today) ;;
  if negb present then
    execute f SC_insert_active (write (insert_active course_id today))
  else ret tt.

(** The commit, the broadcast (failures dropped) and the reply. *)
Definition publish (f : faults) (course mode utcnow : string)
  : M (nat * course_body) :=
  commit f SC_commit ;;;
  catch
    (emit f SC_emit
          (course_changed (if String.eqb mode "course" then course else "")
                          mode utcnow))
    (fun _ => ret tt) ;;;
  ret (200, Updated "Course and mode updated" course mode).

Definition set_course_body (f : faults) (course mode today utcnow : string)
  : M (nat * course_body) :=
  if String.eqb mode "course" then
    if String.eqb course "" then
      ret (400, Message "Course required for course mode")
    else
      activate f course today ;;;
      publish f course mode utcnow
  else
    execute f SC_delete_active (write (delete_active today)) ;;;
    publish f course mode utcnow.

(** [set_course]: [today] is [datetime.now()] as a date, [utcnow] the
    time stamp of the broadcast. *)
Definition set_course (f : faults) (s : session) (info : course_request)
           (today utcnow : string) (d : db) : result (nat * course_body) :=
  if negb (is_admin s) then
    {| reply := (403, Message "Unauthorized"); final := d; events := [] |}
  else
    serve (set_course_body f (course_of info) (mode_of info) today utcnow)
          (fun e => (500, Failed "Failed" e))
          d.

(** *** [/get_course] *)

Record active_body :=
  { active : bool; course : string; mode : string;
    course_id : option nat }.

Definition no_active : active_body :=
  {| active := false; course := ""; mode := "general";
     course_id := None |}.

Definition get_course (f : faults) (today : string) (d : db)
  : result (nat * active_body) :=
  serve
    (r <- query f GC_select (select_active today) ;;
     match r with
     | None => ret (200, no_active)
     | Some (i, cn) =>
         ret (200, {| active := true; course := cn; mode := "course";
                      course_id := Some i |})
     end)
    (fun _ => (200, no_active))
    d.

End Handlers.

Import Store Conn Handlers.

(** ** Vocabulary of the statements *)


(** The course row a course id joins with (the id is the primary key). *)
Definition course_of_id (cid : nat) (c : course_row) (d : db) : Prop :=
  filter (fun c' => courses_id c' =? cid) (rows (courses d)) = [c].


(** The student id and the name [mark_attendance] reads from a payload
    that holds a separator. *)
Definition scanned_id (data : option string) : string :=
  Text.py_strip
    (fst (Text.split_bar (Text.py_strip (Text.or_default data "")))).

Definition scanned_name (data : option string) : string :=
  Text.py_strip
    (snd (Text.split_bar (Text.py_strip (Text.or_default data "")))).

(** An attendance row as [mark_attendance] writes it, whatever its id. *)
Definition row_for (sid nm day tm crs : string) (x : attendance_row) : Prop :=
  student_id x = sid /\ name x = nm /\ date x = day /\ time x = tm
  /\ Store.course x = Some crs.

(** The outcomes of the general attendance check on a connection whose
    view is the committed database [d]: what the check returns, and the
    committed database it leaves. *)
Inductive general_outcome (f : faults) (sid nm day tm : string) (d : db)
  : outcome (list string * list scan_record) -> db -> Prop :=
| general_select_raised e :
    f MA_select_general = Some e ->
    general_outcome f sid nm day tm d (Raised e) d
| general_insert_raised e :
    f MA_select_general = None ->
    attendance_exists day (norm_id (Some sid)) "general" d = false ->
    f MA_insert_general = Some e ->
    general_outcome f sid nm day tm d (Raised e) d
| general_commit_raised e :
    f MA_select_general = None ->
    attendance_exists day (norm_id (Some sid)) "general" d = false ->
    f MA_insert_general = None ->
    f MA_commit_general = Some e ->
    general_outcome f sid nm day tm d (Raised e) d
| general_found :
    f MA_select_general = None ->
    attendance_exists day (norm_id (Some sid)) "general" d = true ->
    general_outcome f sid nm day tm d (Done ([general_already], [])) d
| general_inserted :
    f MA_select_general = None ->
    attendance_exists day (norm_id (Some sid)) "general" d = false ->
    f MA_insert_general = None ->
    f MA_commit_general = None ->
    general_outcome f sid nm day tm d
      (Done ([general_recorded], [record_of sid nm day tm "General"]))
      (insert_attendance sid nm day tm "General" d).

(** The outcomes of the course attendance check for the active course
    [cn], run after a general check that left [msgs] and [recs]. *)
Inductive course_outcome (f : faults) (sid nm day tm cn : string)
          (msgs : list string) (recs : list scan_record) (d : db)
  : outcome (list string * list scan_record) -> db -> Prop :=
| course_select_raised e :
    f MA_select_course = Some e ->
    course_outcome f sid nm day tm cn msgs recs d (Raised e) d
| course_insert_raised e :
    f MA_select_course = None ->
    attendance_exists day (norm_id (Some sid)) (Text.py_lower cn) d = false ->
    f MA_insert_course = Some e ->
    course_outcome f sid nm day tm cn msgs recs d (Raised e) d
| course_commit_raised e :
    f MA_select_course = None ->
    attendance_exists day (norm_id (Some sid)) (Text.py_lower cn) d = false ->
    f MA_insert_course = None ->
    f MA_commit_course = Some e ->
    course_outcome f sid nm day tm cn msgs recs d (Raised e) d
| course_found :
    f MA_select_course = None ->
    attendance_exists day (norm_id (Some sid)) (Text.py_lower cn) d = true ->
    course_outcome f sid nm day tm cn msgs recs d
      (Done (msgs ++ [course_already cn], recs)) d
| course_inserted :
    f MA_select_course = None ->
    attendance_exists day (norm_id (Some sid)) (Text.py_lower cn) d = false ->
    f MA_insert_course = None ->
    f MA_commit_course = None ->
    course_outcome f sid nm day tm cn msgs recs d
      (Done (msgs ++ [course_recorded cn],
             recs ++ [record_of sid nm day tm cn]))
      (insert_attendance sid nm day tm cn d).

(** The outcomes of a scan with a well-formed payload: the reply and the
    committed database once the connection is closed. *)
Inductive scan_outcome (f : faults) (sid nm day tm : string) (d : db)
  : nat * mark_body -> db -> Prop :=
| scan_session_raised e :
    f MA_select_active = Some e ->
    scan_outcome f sid nm day tm d (mark_failed e) d
| scan_general_raised e :
    f MA_select_active = None ->
    general_outcome f sid nm day tm d (Raised e) d ->
    scan_outcome f sid nm day tm d (mark_failed e) d
| scan_general_mode msgs recs d1 :
    f MA_select_active = None ->
    select_active day d = None ->
    general_outcome f sid nm day tm d (Done (msgs, recs)) d1 ->
    scan_outcome f sid nm day tm d (200, Marked msgs recs) d1
| scan_course_raised cid cn msgs recs d1 e :
    f MA_select_active = None ->
    select_active day d = Some (cid, cn) ->
    general_outcome f sid nm day tm d (Done (msgs, recs)) d1 ->
    course_outcome f sid nm day tm cn msgs recs d1 (Raised e) d1 ->
    scan_outcome f sid nm day tm d (mark_failed e) d1
| scan_course_mode cid cn msgs recs d1 msgs' recs' d2 :
    f MA_select_active = None ->
    select_active day d = Some (cid, cn) ->
    general_outcome f sid nm day tm d (Done (msgs, recs)) d1 ->
    course_outcome f sid nm day tm cn msgs recs d1 (Done (msgs', recs')) d2 ->
    scan_outcome f sid nm day tm d (200, Marked msgs' recs') d2.

(** The dictionary [mark_attendance] reports for a row it inserted. *)
Definition record_of_row (x : attendance_row) : scan_record :=
  {| ID := student_id x; Name := name x; Date := date x; Time := time x;
     Course := match Store.course x with Some c => c | None => "" end |}.

(** What a scan with a well-formed payload may leave: [gs] and [cs] are
    the rows the general and the course check added to the ledger [d],
    [r] is the reply. *)
Definition scan_shape (sid nm day tm : string) (d : db)
           (r : nat * mark_body) (d' : db)
           (gs cs : list attendance_row) : Prop :=
  rows (attendance d') = rows (attendance d) ++ gs ++ cs
  /\ List.length gs <= 1
  /\ List.length cs <= 1
  /\ (forall g, In g gs -> row_for sid nm day tm "General" g)
  /\ (forall c, In c cs ->
        exists cid cn, select_active day d = Some (cid, cn)
                       /\ row_for sid nm day tm cn c)
  /\ (fst r = 200 ->
      exists gmsg cmsgs,
        snd r = Marked (gmsg :: cmsgs) (map record_of_row (gs ++ cs))
        /\ ((attendance_exists day (norm_id (Some sid)) "general" d = true
             /\ gmsg = general_already /\ gs = [])
            \/ (attendance_exists day (norm_id (Some sid)) "general" d = false
                /\ gmsg = general_recorded /\ List.length gs = 1))
        /\ match select_active day d with
           | None => cmsgs = [] /\ cs = []
           | Some (_, cn) =>
               (cmsgs = [course_already cn] /\ cs = [])
               \/ (cmsgs = [course_recorded cn] /\ List.length cs = 1)
           end).

(** The statements and commits of [mark_attendance] that its outer
    [try] guards: the session query and the two checks. *)
Definition guarded_steps : list op :=
  [MA_select_active; MA_select_general; MA_insert_general;
   MA_commit_general; MA_select_course; MA_insert_course; MA_commit_course].

(** The steps of the course check. *)
Definition course_steps : list op :=
  [MA_select_course; MA_insert_course; MA_commit_course].

(** The general attendance check as the specification words it (step 2):
    look for a record of the day, the student and the course "General";
    without one insert it and report "recorded", with one report
    "already recorded".  The result is the messages, the reported
    records and the ledger the check leaves. *)
Definition spec_general_check (sid nm day tm : string) (d : db)
  : (list string * list scan_record) * db :=
  if attendance_exists day (norm_id (Some sid)) "general" d
  then (([general_already], []), d)
  else (([general_recorded], [record_of sid nm day tm "General"]),
        insert_attendance sid nm day tm "General" d).

(** The course attendance check as the specification words it (step 3),
    for the active course [cn], after a general check that left [msgs],
    [recs] and the ledger [d]. *)
Definition spec_course_check (sid nm day tm cn : string)
           (msgs : list string) (recs : list scan_record) (d : db)
  : (list string * list scan_record) * db :=
  if attendance_exists day (norm_id (Some sid)) (Text.py_lower cn) d
  then ((msgs ++ [course_already cn], recs), d)
  else ((msgs ++ [course_recorded cn],
         recs ++ [record_of sid nm day tm cn]),
        insert_attendance sid nm day tm cn d).

(** Steps 1 to 3 of the specification: the general check in either
    mode, then the course check when a course is active. *)
Definition spec_scan (sid nm day tm : string) (d : db)
  : (list string * list scan_record) * db :=
  match select_active day d with
  | None => spec_general_check sid nm day tm d
  | Some (_, cn) =>
      spec_course_check sid nm day tm cn
        (fst (fst (spec_general_check sid nm day tm d)))
        (snd (fst (spec_general_check sid nm day tm d)))
        (snd (spec_general_check sid nm day tm d))
  end.

(** The guarded statements a scan runs on the database [d] when none of
    them raises, in the order it runs them: an insert and its commit are
    run only when the existence query found nothing, the course check
    only when a course is active. *)
Definition reached_steps (sid nm day tm : string) (d : db) : list op :=
  [MA_select_active; MA_select_general]
  ++ (if attendance_exists day (norm_id (Some sid)) "general" d
      then [] else [MA_insert_general; MA_commit_general])
  ++ match select_active day d with
     | None => []
     | Some (_, cn) =>
         MA_select_course
         :: (if attendance_exists day (norm_id (Some sid)) (Text.py_lower cn)
                                  (snd (spec_general_check sid nm day tm d))
             then [] else [MA_insert_course; MA_commit_course])
     end.

(** The first statement of a list that raises under a fault plan, with
    the text it raises. *)
Fixpoint first_fault (f : faults) (steps : list op) : option (op * string) :=
  match steps with
  | [] => None
  | o :: rest =>
      match f o with
      | Some e => Some (o, e)
      | None => first_fault f rest
      end
  end.

Definition is_course_step (o : op) : bool :=
  match o with
  | MA_select_course | MA_insert_course | MA_commit_course => true
  | _ => false
  end.

(** Sample data of the statements below. *)
Definition day1 : string := "2024-03-01".
Definition admin_session : session :=
  {| user := Some "admin"; role := Some "admin" |}.
Definition cs101 : course_row := {| courses_id := 1; course_name := "CS101" |}.

(** A database where course CS101 is active on [day1] and nobody has
    been marked yet. *)
Definition db_cs101 : db :=
  {| courses := {| rows := [cs101]; seq := 1 |};
     active_course :=
       {| rows := [{| active_id := 1; active_course_id := 1;
                      active_date := day1 |}];
          seq := 1 |};
     attendance := empty_table |}.

(** A plan where only the existence query of the course check raises. *)
Definition course_query_down : faults :=
  fun o => match o with
           | MA_select_course => Some "disk I/O error"
           | _ => None
           end.


(** A request whose mode is the word course between two spaces. *)
Definition padded_course_request : course_request :=
  {| req_course := Some "MTH201"; req_mode := Some " course " |}.

(** The letters U+00C9 and U+00E9 (E with acute accent, upper and lower
    case). *)
Definition E_acute : ascii := ascii_of_nat 201.
Definition e_acute : ascii := ascii_of_nat 233.

(** Scans of the student ids "É1" and "é1". *)
Definition scan_upper : option string := Some (String E_acute "1|Jane").
Definition scan_lower : option string := Some (String e_acute "1|Jane").

(** A request that activates the course "ÉCO". *)
Definition eco_request : course_request :=
  {| req_course := Some (String E_acute "CO"); req_mode := Some "course" |}.

(** No letter of the text is an upper-case letter outside ASCII: on such
    texts [str.lower] and SQLite's [LOWER] agree. *)
Fixpoint plain_case (s : string) : bool :=
  match s with
  | EmptyString => true
  | String c r => negb (Text.latin1_upper c) && plain_case r
  end.

(** The number of [active_course] rows of a course on a day. *)
Definition count_active (cid : nat) (day : string) (d : db) : nat :=
  List.length
    (filter (fun a => (active_course_id a =? cid)
                      && String.eqb (active_date a) day)
            (rows (active_course d))).

(** Requests that activate CS101 and MTH201. *)
Definition cs101_request : course_request :=
  {| req_course := Some "CS101"; req_mode := Some "course" |}.
Definition mth201_request : course_request :=
  {| req_course := Some "MTH201"; req_mode := Some "course" |}.

(** [db_cs101] after the scan of student S100 at nine: a General row and
    a CS101 row. *)
Definition db_scanned : db :=
  final (mark_attendance no_faults (Some "S100|Jane Doe")
                         (day1, "09:00:00") db_cs101).

(** [db_scanned] after the scan of student S200 five minutes later: four
    rows, two for each student. *)
Definition db_two_students : db :=
  final (mark_attendance no_faults (Some "S200|John Roe")
                         (day1, "09:05:00") db_scanned).

(** The database after an admin has activated CS101, then MTH201, then
    CS101 again, all on [day1]. *)
Definition db_switched_back : db :=
  final (set_course no_faults admin_session cs101_request day1 "t3"
    (final (set_course no_faults admin_session mth201_request day1 "t2"
      (final (set_course no_faults admin_session cs101_request day1 "t1"
                         empty_db))))).

(** ** The other handlers of the active session and the ledger *)

Module Ledger.
Import Store Conn Handlers.
Local Open Scope handler_scope.

(** The places of these handlers where a statement, a commit, a connect
    or an emit is run ([CC] for [clear_course], [DH] for
    [delete_history], [DR] for [delete_record], [HD] for
    [history_by_date], [MY] for [my_attendance]). *)
Inductive step :=
| CC_delete
| CC_commit
| CC_emit
| DH_delete
| DH_commit
| DR_connect
| DR_delete
| DR_commit
| HD_select
| MY_select.

Definition plan := step -> option string.
Definition no_plan : plan := fun _ => None.

(** Run [m] unless the place raises. *)
Definition guarded {A : Type} (x : option string) (m : M A) : M A :=
  fun c =>
    match x with
    | Some e => (Raised e, c)
    | None => m c
    end.

Definition run_select {A : Type} (x : option string) (q : db -> A) : M A :=
  guarded x (fun c => (Done (q (view c)), c)).

Definition run_write (x : option string) (w : db -> db) : M unit :=
  guarded x (fun c => (Done tt, {| store := store c; view := w (view c);
                                   sent := sent c |})).

Definition run_commit (x : option string) : M unit :=
  guarded x (fun c => (Done tt, {| store := view c; view := view c;
                                   sent := sent c |})).

Definition run_emit (x : option string) (e : event) : M unit :=
  guarded x (fun c => (Done tt, {| store := store c; view := view c;
                                   sent := sent c ++ [e] |})).

(** *** [/clear_course] *)

Definition clear_course (p : plan) (s : session) (today utcnow : string)
           (d : db) : result (nat * course_body) :=
  if negb (is_admin s) then
    {| reply := (403, Message "Unauthorized"); final := d; events := [] |}
  else
    serve
      (run_write (p CC_delete) (delete_active today) ;;;
       run_commit (p CC_commit) ;;;
       catch (run_emit (p CC_emit) (course_changed "" "general" utcnow))
             (fun _ => ret tt) ;;;
       ret (200, Message "Session cleared (no active course)"))
      (fun e => (500, Failed "Failed" e))
      d.

(** *** [/delete_history] *)

(** [DELETE FROM attendance] *)
Definition delete_all_attendance (d : db) : db :=
  {| courses := courses d;
     active_course := active_course d;
     attendance := delete_where (fun _ => true) (attendance d) |}.

Definition delete_history (p : plan) (s : session) (d : db)
  : result (nat * course_body) :=
  if negb (is_admin s) then
    {| reply := (403, Message "Unauthorized"); final := d; events := [] |}
  else
    serve
      (run_write (p DH_delete) delete_all_attendance ;;;
       run_commit (p DH_commit) ;;;
       ret (200, Message "All attendance history deleted."))
      (fun e => (500, Failed "Failed to delete history" e))
      d.

(** *** [/delete_record] *)

(** The JSON body of a [/delete_record] request: each key is absent,
    null or a text. *)
Record delete_request :=
  { del_ID : option string; del_Date : option string;
    del_Time : option string }.

(** [column = ?]: a NULL parameter equals nothing. *)
Definition sql_eq (column : string) (param : option string) : bool :=
  match param with
  | Some v => String.eqb column v
  | None => false
  end.

Definition record_matches (q : delete_request) (r : attendance_row) : bool :=
  sql_eq (student_id r) (del_ID q)
  && sql_eq (date r) (del_Date q)
  && sql_eq (time r) (del_Time q).

(** [DELETE FROM attendance WHERE student_id=? AND date=? AND time=?] *)
Definition delete_matching (q : delete_request) (d : db) : db :=
  {| courses := courses d;
     active_course := active_course d;
     attendance := delete_where (record_matches q) (attendance d) |}.

(** [delete_record]: [q] is the JSON object of the body (without one,
    [data.get] raises before the [try] and the handler gives no reply of
    its own).  The reply is the [success] flag, with status 200 either
    way. *)
Definition delete_record (p : plan) (q : delete_request) (d : db)
  : result (nat * option bool) :=
  serve
    (guarded (p DR_connect)
       (run_write (p DR_delete) (delete_matching q) ;;;
        run_commit (p DR_commit) ;;;
        ret (200, Some true)))
    (fun _ => (200, Some false))
    d.

(** *** [/history_by_date] *)

Module History.
(** A row as the queries alias its columns. *)
Record record :=
  { ID : string; Name : string; Date : string; Time : string;
    Course : option string }.
End History.

Definition history_of (r : attendance_row) : History.record :=
  {| History.ID := student_id r; History.Name := name r;
     History.Date := date r; History.Time := time r;
     History.Course := Store.course r |}.

(** The order of [ORDER BY date DESC, time DESC] on two rows, texts
    being compared code point by code point. *)
Definition key_compare (x y : attendance_row) : comparison :=
  match String.compare (date x) (date y) with
  | Eq => String.compare (time x) (time y)
  | c => c
  end.

(** [x] may stand before [y]: its date and time are not smaller. *)
Definition not_before (x y : attendance_row) : bool :=
  match key_compare x y with
  | Lt => false
  | _ => true
  end.

Fixpoint insert_desc (x : attendance_row) (l : list attendance_row)
  : list attendance_row :=
  match l with
  | [] => [x]
  | y :: r => if not_before x y then x :: l else y :: insert_desc x r
  end.

(** [ORDER BY date DESC, time DESC]; rows with the same date and time,
    whose order SQLite leaves open, stay in table order. *)
Fixpoint order_desc (l : list attendance_row) : list attendance_row :=
  match l with
  | [] => []
  | x :: r => insert_desc x (order_desc r)
  end.

(** The [WHERE] clause [history_by_date] builds: a filter applies only
    when its parameter is not empty. *)
Definition history_filter (qdate qcourse : string) (r : attendance_row)
  : bool :=
  (String.eqb qdate "" || String.eqb (date r) qdate)
  && (String.eqb qcourse ""
      || null_eqb (sql_norm_null (Store.course r)) qcourse).

Definition select_history (qdate qcourse : string) (d : db)
  : list History.record :=
  map history_of
      (order_desc (filter (history_filter qdate qcourse)
                          (rows (attendance d)))).

(** [history_by_date]: [date] and [course] are the query parameters,
    absent or a text. *)
Definition history_by_date (p : plan) (s : session)
           (date course : option string) (d : db)
  : result (nat * list History.record) :=
  match user s with
  | None => {| reply := (401, []); final := d; events := [] |}
  | Some _ =>
      let qdate := Text.py_strip (Text.or_default date "") in
      let qcourse :=
        Text.py_lower (Text.py_strip (Text.or_default course "")) in
      serve
        (records <- run_select (p HD_select) (select_history qdate qcourse) ;;
         ret (200, records))
        (fun _ => (200, []))
        d
  end.

(** *** [/my_attendance] *)

(** [SELECT ... FROM attendance ORDER BY date DESC, time DESC], then the
    rows whose id matches the query under [id_matches]. *)
Definition select_mine (query_id : string) (d : db) : list History.record :=
  map history_of
      (filter (fun r => id_matches (Some (student_id r)) (Some query_id))
              (order_desc (rows (attendance d)))).

(** [my_attendance]: [post] tells a POST from a GET, [id] is the form
    field.  The result is what the template is rendered with: the
    records and the query id. *)
Definition my_attendance (p : plan) (post : bool) (id : option string)
           (d : db) : result (list History.record * string) :=
  let query_id :=
    if post then Text.py_strip (Text.or_default id "") else "" in
  if String.eqb query_id "" then
    {| reply := ([], query_id); final := d; events := [] |}
  else
    serve
      (records <- run_select (p MY_select) (select_mine query_id) ;;
       ret (records, query_id))
      (fun _ => ([], query_id))
      d.

End Ledger.

(** ** The QR generator *)

Module Qr.
Import Store.

(** [s.replace(a, b)] for one-character texts. *)
Definition replace_char (a b : ascii) (s : string) : string :=
  Text.map_chars (fun c => if Ascii.eqb c a then b else c) s.

Definition slash : ascii := "/"%char.
Definition backslash : ascii := "\"%char.
Definition space : ascii := " "%char.
Definition underscore : ascii := "_"%char.

(** [safe_filename] *)
Definition safe_filename (s : string) : string :=
  replace_char space underscore
    (replace_char backslash underscore
       (replace_char slash underscore s)).

(** [c in s] for a character. *)
Fixpoint has_char (a : ascii) (s : string) : bool :=
  match s with
  | EmptyString => false
  | String c r => Ascii.eqb c a || has_char a r
  end.

(** [os.path.join(a, b)] on POSIX for a directory [a] that does not end
    with a slash: an absolute [b] replaces [a]. *)
Definition path_join (a b : string) : string :=
  match b with
  | String c _ => if Ascii.eqb c slash then b else (a ++ "/" ++ b)%string
  | EmptyString => (a ++ "/")%string
  end.

Definition QR_FOLDER : string := "static/qr".

(** [qr_codes (id, name, matric_number, qr_path, status, created_at)] *)
Record qr_row :=
  { qr_id : nat; qr_name : string; matric_number : string;
    qr_path : string; status : string; created_at : string }.

(** What [generate_qr] acts on: the [qr_codes] table and the image
    files written so far, each with the text its QR code encodes. *)
Record world :=
  { qr_codes : table qr_row; files : list (string * string) }.

(** The JSON body of a [/generate_qr] request. *)
Record qr_request := { req_id : option string; req_name : option string }.

Inductive qr_body :=
| Required (message : string)
| Generated (message qr_path : string)
| QrFailed (message error : string).

(** The places of [generate_qr] that may raise: making and saving the
    image, the insert and the commit. *)
Inductive qr_step := QR_save | QR_insert | QR_commit.

Definition qr_plan := qr_step -> option string.
Definition no_qr_faults : qr_plan := fun _ => None.

Definition qr_data (student_id name : string) : string :=
  (student_id ++ "|" ++ name)%string.

Definition qr_filename (student_id timestamp unique : string) : string :=
  (safe_filename student_id ++ "_" ++ timestamp ++ "_" ++ unique
     ++ ".png")%string.

Definition qr_failed (e : string) : nat * qr_body :=
  (500, QrFailed "Failed to generate QR" e).

(** [generate_qr]: [timestamp] is the UTC time as digits, [unique] the
    first eight digits of a fresh UUID, [now] the UTC time in ISO
    format. *)
(** The id and the name [generate_qr] reads from the body. *)
Definition id_of (info : qr_request) : string :=
  Text.py_strip (Text.or_default (req_id info) "").

Definition name_of (info : qr_request) : string :=
  Text.py_strip (Text.or_default (req_name info) "").

Definition generate_qr (p : qr_plan) (info : qr_request)
           (timestamp unique now : string) (w : world)
  : (nat * qr_body) * world :=
  let student_id := id_of info in
  let name := name_of info in
  if String.eqb student_id "" || String.eqb name "" then
    ((400, Required "Name and Matric number are required"), w)
  else
    let filename := qr_filename student_id timestamp unique in
    let filepath := path_join QR_FOLDER filename in
    match p QR_save with
    | Some e => (qr_failed e, w)
    | None =>
        let saved :=
          {| qr_codes := qr_codes w;
             files := files w ++ [(filepath, qr_data student_id name)] |} in
        let path := ("/static/qr/" ++ filename)%string in
        match p QR_insert with
        | Some e => (qr_failed e, saved)
        | None =>
            match p QR_commit with
            | Some e => (qr_failed e, saved)
            | None =>
                ((200, Generated "QR Code generated!" path),
                 {| qr_codes :=
                      insert_row
                        (fun i => {| qr_id := i; qr_name := name;
                                     matric_number := student_id;
                                     qr_path := path;
                                     status := "pending";
                                     created_at := now |})
                        (qr_codes w);
                    files := files saved |})
            end
        end
    end.

End Qr.

(** ** User accounts *)

Module Users.
Import Store Conn Handlers.

(** [users (id, username UNIQUE, password, role)] *)
Record user_row :=
  { user_id : nat; username : string; password : string;
    user_role : string }.

(** [get_user]: [x] is what the query raises, if anything; the function
    has no handler of its own, so the exception goes to the caller. *)
Definition get_user (x : option string) (name : option string)
           (t : table user_row) : outcome (option user_row) :=
  match name with
  | None => Done None
  | Some EmptyString => Done None
  | Some n =>
      match x with
      | Some e => Raised e
      | None =>
          Done (find (fun r => String.eqb (username r) n) (rows t))
      end
  end.

(** [UPDATE users SET password = ? WHERE username = ?] *)
Definition set_password (name hash : string) (t : table user_row)
  : table user_row :=
  {| rows :=
       map (fun r => if String.eqb (username r) name
                     then {| user_id := user_id r; username := username r;
                             password := hash; user_role := user_role r |}
                     else r)
           (rows t);
     seq := seq t |}.

(** [update_password]: the update and its commit; [x] is what they
    raise, if anything. *)
Definition update_password (x : option string) (name hash : string)
           (t : table user_row) : outcome (table user_row) :=
  match x with
  | Some e => Raised e
  | None => Done (set_password name hash t)
  end.

(** What the account handlers answer with. *)
Inductive page :=
| Redirect (endpoint : string)
| LoginPage (error : option string)
| ChangePasswordPage (message : string).

Definition incorrect : string := "❌ Current password is incorrect.".
Definition empty_new : string := "⚠️ New password cannot be empty.".
Definition mismatch : string := "⚠️ Passwords do not match.".
Definition changed : string := "✅ Password changed successfully.".

Section Hashing.

(** werkzeug's [generate_password_hash], as a function of the salt it
    draws and the password, and its [check_password_hash]. *)
Variable generate_password_hash : string -> string -> string.
Variable check_password_hash : string -> string -> bool.

(** One of the two "ensure default user" blocks of [initialize_db]. *)
Definition ensure_user (name pw role salt : string) (t : table user_row)
  : table user_row :=
  match find (fun r => String.eqb (username r) name) (rows t) with
  | Some _ => t
  | None =>
      insert_row (fun i => {| user_id := i; username := name;
                              password := generate_password_hash salt pw;
                              user_role := role |})
                 t
  end.

(** [initialize_db] on the [users] table (its [CREATE TABLE IF NOT
    EXISTS] statements leave existing tables alone). *)
Definition initialize_db (salt_admin salt_student : string)
           (t : table user_row) : table user_row :=
  ensure_user "student" "student123" "student" salt_student
    (ensure_user "admin" "admin123" "admin" salt_admin t).

(** [login]: [post] tells a POST from a GET; the result is the page and
    the session afterwards. *)
Definition login (x : option string) (post : bool)
           (form_username form_password : option string)
           (s : session) (t : table user_row) : outcome (page * session) :=
  if post then
    let name := Text.py_strip (Text.or_default form_username "") in
    let pw := Text.py_strip (Text.or_default form_password "") in
    match get_user x (Some name) t with
    | Raised e => Raised e
    | Done (Some u) =>
        if check_password_hash (password u) pw then
          Done (Redirect "home",
                {| user := Some name; role := Some (user_role u) |})
        else Done (LoginPage (Some "Invalid username or password"), s)
    | Done None =>
        Done (LoginPage (Some "Invalid username or password"), s)
    end
  else Done (LoginPage None, s).

(** [logout] *)
Definition logout (s : session) : page * session :=
  (Redirect "login", {| user := None; role := None |}).

(** [change_password]: [x_get] and [x_update] are what the query and
    the update raise, if anything; [salt] is the salt of the new hash.
    The result is the page and the [users] table afterwards. *)
Definition change_password (x_get x_update : option string) (post : bool)
           (current_password new_password confirm_password : option string)
           (salt : string) (s : session) (t : table user_row)
  : outcome (page * table user_row) :=
  match user s with
  | None => Done (Redirect "login", t)
  | Some name =>
      if post then
        let current_pw := Text.py_strip (Text.or_default current_password "") in
        let new_pw := Text.py_strip (Text.or_default new_password "") in
        let confirm_pw := Text.py_strip (Text.or_default confirm_password "") in
        match get_user x_get (Some name) t with
        | Raised e => Raised e
        | Done u =>
            if match u with
               | Some r => negb (check_password_hash (password r) current_pw)
               | None => true
               end
            then Done (ChangePasswordPage incorrect, t)
            else if String.eqb new_pw "" then
                   Done (ChangePasswordPage empty_new, t)
            else if negb (String.eqb new_pw confirm_pw) then
                   Done (ChangePasswordPage mismatch, t)
            else
              match update_password x_update name
                      (generate_password_hash salt new_pw) t with
              | Raised e => Raised e
              | Done t' => Done (ChangePasswordPage changed, t')
              end
        end
      else Done (ChangePasswordPage "", t)
  end.

End Hashing.

End Users.

(** A stand-in for the password hashing of werkzeug in examples: the
    hash is the password itself. *)
Definition plain_hash (salt pw : string) : string := pw.
Definition plain_check (hash pw : string) : bool := String.eqb hash pw.

(** The [users] table right after [initialize_db] on an empty one. *)
Definition default_users : table Users.user_row :=
  Users.initialize_db plain_hash "s1" "s2" empty_table.

(** ** Invariants of the store *)

(** The ids of a table are pairwise distinct and were all handed out by
    its sequence. *)
Definition keyed {R : Type} (id : R -> nat) (t : table R) : Prop :=
  NoDup (map id (rows t)) /\ forall r, In r (rows t) -> id r <= seq t.

(** What the schema and the handlers keep true of the three tables:
    primary keys, the UNIQUE course names, and a course row behind every
    [active_course] row. *)
Definition well_formed (d : db) : Prop :=
  keyed courses_id (courses d)
  /\ NoDup (map course_name (rows (courses d)))
  /\ keyed active_id (active_course d)
  /\ keyed attendance_id (attendance d)
  /\ (forall a, In a (rows (active_course d)) ->
        exists c, In c (rows (courses d))
                  /\ courses_id c = active_course_id a).

(** The databases the writing handlers can produce from the empty one,
    whatever the requests, the sessions, the clocks and the faults. *)
Inductive reachable : db -> Prop :=
| reach_empty : reachable empty_db
| reach_set_course f s info today utcnow d :
    reachable d -> reachable (final (set_course f s info today utcnow d))
| reach_clear_course p s today utcnow d :
    reachable d -> reachable (final (Ledger.clear_course p s today utcnow d))
| reach_mark_attendance f data now d :
    reachable d -> reachable (final (mark_attendance f data now d))
| reach_delete_history p s d :
    reachable d -> reachable (final (Ledger.delete_history p s d))
| reach_delete_record p q d :
    reachable d -> reachable (final (Ledger.delete_record p q d)).

(** The text is stripped and holds no upper-case letter outside ASCII;
    on such a text [LOWER(TRIM(x))] of SQLite and [norm_id] agree. *)
Definition plain_text (s : string) : bool :=
  String.eqb (Text.py_strip s) s && plain_case s.

(** The row is the record of a date, a normalised student id and a
    normalised course, both normalised as [norm_id] does. *)
Definition has_key (day k c : string) (r : attendance_row) : bool :=
  String.eqb (date r) day
  && String.eqb (norm_id (Some (student_id r))) k
  && String.eqb (norm_id (Store.course r)) c.

(** At most one attendance row for a date, a normalised student id and
    a normalised course. *)
Definition ledger_unique (d : db) : Prop :=
  forall day k c,
    List.length (filter (has_key day k c) (rows (attendance d))) <= 1.

(** Every row of the ledger holds a plain student id and a plain
    course. *)
Definition ledger_plain (d : db) : Prop :=
  forall r, In r (rows (attendance d)) ->
    plain_text (student_id r) = true
    /\ exists c, Store.course r = Some c /\ plain_text c = true.

(** The key [set_course] looks a course up by. *)
Definition course_key (info : course_request) : string :=
  Text.py_strip (Text.py_lower (course_of info)).

(** ** Facts about texts *)

Section TextFacts.
Variable p : ascii -> bool.



End TextFacts.

(** ** Stripping twice *)

Section StripFacts.
Variable p : ascii -> bool.

Lemma lstrip_idem (s : string) :
  Text.lstrip_with p (Text.lstrip_with p s) = Text.lstrip_with p s.
Proof.
  induction s as [|c r IH]; simpl; auto.
  destruct (p c) eqn:P; auto. simpl. rewrite P. reflexivity.
Qed.

Lemma rstrip_idem (s : string) :
  Text.rstrip_with p (Text.rstrip_with p s) = Text.rstrip_with p s.
Proof.
  induction s as [|c r IH]; simpl; auto.
  destruct (Text.rstrip_with p r) as [|c' r'] eqn:E.
  - destruct (p c) eqn:P; simpl; auto. rewrite P. reflexivity.
  - change (Text.rstrip_with p (String c (String c' r')))
      with (match Text.rstrip_with p (String c' r') with
            | EmptyString =>
                if p c then EmptyString else String c EmptyString
            | r'' => String c r''
            end).
    rewrite IH. reflexivity.
Qed.

(** The first character survives [rstrip] unless everything goes. *)
Lemma rstrip_head (c : ascii) (r : string) :
  Text.rstrip_with p (String c r) = EmptyString
  \/ exists r', Text.rstrip_with p (String c r) = String c r'.
Proof.
  simpl. destruct (Text.rstrip_with p r) as [|c' r'].
  - destruct (p c); eauto.
  - eauto.
Qed.

Lemma lstrip_rstrip (s : string) :
  Text.lstrip_with p s = s ->
  Text.lstrip_with p (Text.rstrip_with p s) = Text.rstrip_with p s.
Proof.
  destruct s as [|c r]; auto.
  intro H. simpl in H. destruct (p c) eqn:P.
  - exfalso.
    assert (L : String.length (Text.lstrip_with p r) <= String.length r).
    { clear. induction r as [|c r IH]; simpl; auto.
      destruct (p c); simpl; lia. }
    rewrite H in L. simpl in L. lia.
  - destruct (rstrip_head c r) as [E|[r' E]]; rewrite E; simpl; auto.
    rewrite P. reflexivity.
Qed.

Lemma strip_idem (s : string) :
  Text.strip_with p (Text.strip_with p s) = Text.strip_with p s.
Proof.
  unfold Text.strip_with.
  rewrite (lstrip_rstrip _ (lstrip_idem s)). apply rstrip_idem.
Qed.

(** A weaker notion of white space strips nothing more. *)
Variable q : ascii -> bool.
Hypothesis q_le_p : forall c, q c = true -> p c = true.

Lemma lstrip_weaker (s : string) :
  Text.lstrip_with p s = s -> Text.lstrip_with q s = s.
Proof.
  destruct s as [|c r]; auto. simpl.
  destruct (p c) eqn:P.
  - intro H. exfalso.
    assert (L : String.length (Text.lstrip_with p r) <= String.length r).
    { clear. induction r as [|c r IH]; simpl; auto.
      destruct (p c); simpl; lia. }
    rewrite H in L. simpl in L. lia.
  - destruct (q c) eqn:Q; auto.
    rewrite (q_le_p c Q) in P. discriminate.
Qed.

Lemma rstrip_weaker (s : string) :
  Text.rstrip_with p s = s -> Text.rstrip_with q s = s.
Proof.
  induction s as [|c r IH]; auto. simpl.
  destruct (Text.rstrip_with p r) as [|c' r'] eqn:E.
  - destruct (p c) eqn:P; [discriminate|].
    intro H. inversion H; subst r. simpl.
    destruct (q c) eqn:Q; auto.
    rewrite (q_le_p c Q) in P. discriminate.
  - intro H. inversion H as [H']. specialize (IH H').
    rewrite <- H' in IH. rewrite IH. reflexivity.
Qed.

Lemma strip_weaker (s : string) :
  Text.strip_with q (Text.strip_with p s) = Text.strip_with p s.
Proof.
  unfold Text.strip_with at 1.
  rewrite lstrip_weaker.
  - apply rstrip_weaker. apply rstrip_idem.
  - unfold Text.strip_with. apply lstrip_rstrip, lstrip_idem.
Qed.
End StripFacts.

Lemma py_strip_idem (s : string) :
  Text.py_strip (Text.py_strip s) = Text.py_strip s.
Proof. apply strip_idem. Qed.

Lemma sql_trim_py_strip (s : string) :
  Text.sql_trim (Text.py_strip s) = Text.py_strip s.
Proof.
  apply strip_weaker. intros c H.
  unfold Text.sql_isspace in H. apply Nat.eqb_eq in H.
  unfold Text.py_isspace. rewrite H. reflexivity.
Qed.

Lemma plain_case_lower (s : string) :
  plain_case s = true -> Text.sql_lower s = Text.py_lower s.
Proof.
  induction s as [|c r IH]; simpl; auto.
  intro H. apply andb_true_iff in H. destruct H as [H1 H2].
  unfold Text.sql_lower, Text.py_lower in *. simpl. rewrite (IH H2).
  unfold Text.py_lower_char, Text.sql_lower_char.
  apply negb_true_iff in H1. rewrite H1, orb_false_r. reflexivity.
Qed.

(** On a stripped text without upper-case letters outside ASCII the
    normalisation of SQLite and the one of Python agree. *)
Lemma plain_case_norm (s : string) :
  plain_case (Text.py_strip s) = true ->
  sql_norm (Text.py_strip s) = norm_id (Some (Text.py_strip s)).
Proof.
  intro H. unfold sql_norm, norm_id.
  rewrite sql_trim_py_strip, py_strip_idem. apply plain_case_lower, H.
Qed.

Section StripMap.
Variable p : ascii -> bool.
Variable g : ascii -> ascii.
Hypothesis g_keeps : forall c, p (g c) = p c.

Lemma lstrip_map (s : string) :
  Text.lstrip_with p (Text.map_chars g s)
  = Text.map_chars g (Text.lstrip_with p s).
Proof.
  induction s as [|c r IH]; simpl; auto.
  rewrite g_keeps. destruct (p c); auto.
Qed.

Lemma rstrip_map (s : string) :
  Text.rstrip_with p (Text.map_chars g s)
  = Text.map_chars g (Text.rstrip_with p s).
Proof.
  induction s as [|c r IH]; simpl; auto.
  rewrite IH, g_keeps.
  destruct (Text.rstrip_with p r); simpl; auto.
  destruct (p c); auto.
Qed.

Lemma strip_map (s : string) :
  Text.strip_with p (Text.map_chars g s)
  = Text.map_chars g (Text.strip_with p s).
Proof.
  unfold Text.strip_with. rewrite lstrip_map, rstrip_map. reflexivity.
Qed.
End StripMap.

Lemma py_lower_char_keeps_space (c : ascii) :
  Text.py_isspace (Text.py_lower_char c) = Text.py_isspace c.
Proof.
  destruct c as [[] [] [] [] [] [] [] []]; reflexivity.
Qed.

Lemma py_strip_lower (s : string) :
  Text.py_strip (Text.py_lower s) = Text.py_lower (Text.py_strip s).
Proof. apply strip_map, py_lower_char_keeps_space. Qed.

(** The key [set_course] looks a stripped course name up by is the
    normalisation of SQLite when the name has no upper-case letter
    outside ASCII. *)
Lemma plain_case_key (s : string) :
  plain_case (Text.py_strip s) = true ->
  sql_norm (Text.py_strip s)
  = Text.py_strip (Text.py_lower (Text.py_strip s)).
Proof.
  intro H. rewrite py_strip_lower, py_strip_idem.
  unfold sql_norm. rewrite sql_trim_py_strip. apply plain_case_lower, H.
Qed.

(** ** Facts about the latest active row *)

Lemma latest_In (l : list (active_row * course_row)) x :
  latest l = Some x -> In x l.
Proof.
  revert x. induction l as [|y r IH]; simpl; intros x H; [discriminate|].
  destruct (latest r) as [z|].
  - destruct (active_id (fst y) <? active_id (fst z)); inversion H; subst; auto.
  - inversion H; auto.
Qed.

Lemma latest_nil (l : list (active_row * course_row)) :
  latest l = None -> l = [].
Proof.
  destruct l as [|y r]; simpl; auto.
  destruct (latest r) as [z|]; [|discriminate].
  destruct (active_id (fst y) <? active_id (fst z)); discriminate.
Qed.

Lemma latest_max (l : list (active_row * course_row)) x :
  In x l ->
  (forall y, In y l -> y = x \/ active_id (fst y) < active_id (fst x)) ->
  latest l = Some x.
Proof.
  induction l as [|y r IH]; simpl; intros Hin Hmax; [contradiction|].
  assert (Hr : forall z, In z r ->
                         z = x \/ active_id (fst z) < active_id (fst x))
    by (intros z Hz; apply Hmax; auto).
  destruct (latest r) as [z|] eqn:E.
  - pose proof (latest_In _ _ E) as Hz.
    destruct (Nat.ltb_spec (active_id (fst y)) (active_id (fst z))) as [Hlt|Hge].
    + destruct Hin as [->|Hin].
      * destruct (Hr z Hz) as [->|Hlt']; [lia|lia].
      * apply IH; auto.
    + destruct Hin as [->|Hin]; auto.
      pose proof (IH Hin Hr) as E'. inversion E'; subst z.
      destruct (Hmax y (or_introl eq_refl)) as [->|Hlt]; [reflexivity|lia].
  - destruct Hin as [->|Hin]; auto.
    apply latest_nil in E. subst r. contradiction.
Qed.

Lemma select_active_latest (today : string) (d : db) (a : active_row)
      (c : course_row) :
  In a (rows (active_course d)) ->
  active_date a = today ->
  (forall a', In a' (rows (active_course d)) -> active_date a' = today ->
              a' = a \/ active_id a' < active_id a) ->
  course_of_id (active_course_id a) c d ->
  select_active today d = Some (active_course_id a, course_name c).
Proof.
  intros Hin Hday Hmax Hc. unfold select_active.
  rewrite (latest_max (joined_on today d) (a, c)); [reflexivity| |].
  - unfold joined_on. apply in_flat_map. exists a. split.
    + apply filter_In. split; auto. apply String.eqb_eq; auto.
    + rewrite Hc. simpl; auto.
  - intros [a' c'] Hy. unfold joined_on in Hy.
    apply in_flat_map in Hy. destruct Hy as [a'' [Ha'' Hy]].
    apply filter_In in Ha''. destruct Ha'' as [Ha'' Hd].
    apply String.eqb_eq in Hd.
    apply in_map_iff in Hy. destruct Hy as [c'' [Heq Hc'']].
    inversion Heq; subst a'' c''. simpl.
    destruct (Hmax a' Ha'' Hd) as [->|Hlt]; auto.
    rewrite Hc in Hc''. destruct Hc'' as [->|[]]. auto.
Qed.

Lemma select_active_none (today : string) (d : db) :
  (forall a, In a (rows (active_course d)) -> active_date a <> today) ->
  select_active today d = None.
Proof.
  intro H. unfold select_active, joined_on.
  replace (filter (fun a => String.eqb (active_date a) today)
                  (rows (active_course d))) with (@nil active_row);
    [reflexivity|].
  symmetry. induction (rows (active_course d)) as [|a r IH]; simpl; auto.
  destruct (String.eqb_spec (active_date a) today) as [E|E].
  - exfalso. apply (H a); simpl; auto.
  - apply IH. intros a' Ha'. apply H. simpl; auto.
Qed.

Lemma get_course_unfold (f : faults) (today : string) (d : db) :
  f GC_select = None ->
  reply (get_course f today d)
  = match select_active today d with
    | None => (200, no_active)
    | Some (i, cn) =>
        (200, {| active := true; course := cn; mode := "course";
                 course_id := Some i |})
    end.
Proof.
  intro Hf. unfold get_course, serve, bind, query. rewrite Hf. simpl.
  destruct (select_active today d) as [[i cn]|]; reflexivity.
Qed.

Lemma insert_active_rows (cid : nat) (day : string) (d : db) :
  rows (active_course (insert_active cid day d))
  = rows (active_course d)
         ++ [{| active_id := S (seq (active_course d));
                active_course_id := cid; active_date := day |}].
Proof. reflexivity. Qed.

Section BarFacts.
Variable p : ascii -> bool.
Hypothesis bar_kept : p Text.bar = false.

Lemma lstrip_keeps_bar (s : string) :
  Text.has_bar s = true -> Text.has_bar (Text.lstrip_with p s) = true.
Proof.
  induction s as [|c r IH]; simpl; auto.
  destruct (p c) eqn:P; simpl; auto.
  destruct (Ascii.eqb_spec c Text.bar) as [->|_]; simpl; auto.
  congruence.
Qed.

Lemma rstrip_keeps_bar (s : string) :
  Text.has_bar s = true -> Text.has_bar (Text.rstrip_with p s) = true.
Proof.
  induction s as [|c r IH]; simpl; auto.
  destruct (Ascii.eqb_spec c Text.bar) as [->|N]; simpl.
  - intros _. rewrite bar_kept.
    destruct (Text.rstrip_with p r); simpl; auto.
  - intro H. specialize (IH H).
    destruct (Text.rstrip_with p r) as [|c' r']; simpl in *;
      [discriminate|].
    destruct (Ascii.eqb c Text.bar); simpl; auto.
Qed.

Lemma strip_keeps_bar (s : string) :
  Text.has_bar s = true -> Text.has_bar (Text.strip_with p s) = true.
Proof.
  intro H. apply rstrip_keeps_bar, lstrip_keeps_bar, H.
Qed.
End BarFacts.

Lemma py_strip_keeps_bar (s : string) :
  Text.has_bar s = true -> Text.has_bar (Text.py_strip s) = true.
Proof. apply strip_keeps_bar. reflexivity. Qed.

Lemma insert_attendance_rows (sid nm day tm crs : string) (d : db) :
  rows (attendance (insert_attendance sid nm day tm crs d))
  = rows (attendance d)
         ++ [{| attendance_id := S (seq (attendance d));
                student_id := sid; name := nm; date := day; time := tm;
                Store.course := Some crs |}].
Proof. reflexivity. Qed.

Lemma insert_attendance_select_active (sid nm day tm crs day' : string)
      (d : db) :
  select_active day' (insert_attendance sid nm day tm crs d)
  = select_active day' d.
Proof. reflexivity. Qed.

(** ** The steps of [mark_attendance] *)

Lemma emit_new_keeps_store (f : faults) (recs : list scan_record) :
  forall (i : nat) (c : conn),
  exists o evs,
    emit_new f i recs c
    = (o, {| store := store c; view := view c; sent := sent c ++ evs |}).
Proof.
  induction recs as [|r rs IH]; intros i c; simpl.
  - exists (Done tt), []. unfold ret. rewrite app_nil_r.
    destruct c; reflexivity.
  - unfold bind, emit. destruct (f (MA_emit_new i)) as [e|].
    + exists (Raised e), []. rewrite app_nil_r. destruct c; reflexivity.
    + destruct (IH (S i)
                   {| store := store c; view := view c;
                      sent := sent c ++ [new_attendance r] |})
        as [o [evs H]].
      rewrite H. simpl. exists o, (new_attendance r :: evs).
      rewrite <- app_assoc. reflexivity.
Qed.

(** The notification block never raises and never touches the store. *)
Lemma notify_keeps_store (f : faults) (course_mode : bool)
      (day cn : string) (recs : list scan_record) (c : conn) :
  exists evs,
    notify f course_mode day cn recs c
    = (Done tt, {| store := store c; view := view c; sent := sent c ++ evs |}).
Proof.
  unfold notify, catch, bind.
  destruct (emit_new_keeps_store f recs 0 c) as [o [evs H]]. rewrite H.
  destruct o as [e|[]].
  - exists evs. reflexivity.
  - destruct course_mode.
    + unfold query, emit. simpl.
      destruct (f MA_select_count) as [e|]; simpl.
      * exists evs. reflexivity.
      * destruct (f MA_emit_count) as [e|]; simpl.
        -- exists evs. reflexivity.
        -- eexists (evs ++ [_]). rewrite app_assoc. reflexivity.
    + exists evs. reflexivity.
Qed.

Lemma general_check_outcome (f : faults) (sid nm day tm : string)
      (d : db) (ev : list event) :
  exists o d' v',
    general_check f sid nm day tm {| store := d; view := d; sent := ev |}
    = (o, {| store := d'; view := v'; sent := ev |})
    /\ general_outcome f sid nm day tm d o d'
    /\ (forall a, o = Done a -> v' = d').
Proof.
  remember (norm_id (Some sid)) as n eqn:Hn.
  unfold general_check, bind, query, execute, commit, write, ret.
  rewrite <- Hn. simpl.
  destruct (f MA_select_general) as [e|] eqn:F1.
  { exists (Raised e), d, d. repeat split; try discriminate.
    now apply general_select_raised. }
  destruct (attendance_exists day n "general" d) eqn:X; simpl.
  { eexists _, d, d. repeat split. subst n. now apply general_found. }
  destruct (f MA_insert_general) as [e|] eqn:F2.
  { exists (Raised e), d, d. repeat split; try discriminate.
    subst n. now apply general_insert_raised. }
  simpl. destruct (f MA_commit_general) as [e|] eqn:F3.
  { eexists (Raised e), d, _. repeat split; try discriminate.
    subst n. now apply general_commit_raised. }
  eexists _, _, _. repeat split. subst n. now apply general_inserted.
Qed.

Lemma course_check_outcome (f : faults) (sid nm day tm cn : string)
      (msgs : list string) (recs : list scan_record)
      (d : db) (ev : list event) :
  exists o d' v',
    course_check f sid nm day tm cn msgs recs
                 {| store := d; view := d; sent := ev |}
    = (o, {| store := d'; view := v'; sent := ev |})
    /\ course_outcome f sid nm day tm cn msgs recs d o d'
    /\ (forall a, o = Done a -> v' = d').
Proof.
  remember (norm_id (Some sid)) as n eqn:Hn.
  remember (Text.py_lower cn) as k eqn:Hk.
  unfold course_check, bind, query, execute, commit, write, ret.
  rewrite <- Hn, <- Hk. simpl.
  destruct (f MA_select_course) as [e|] eqn:F1.
  { exists (Raised e), d, d. repeat split; try discriminate.
    now apply course_select_raised. }
  destruct (attendance_exists day n k d) eqn:X; simpl.
  { eexists _, d, d. repeat split. subst n k. now apply course_found. }
  destruct (f MA_insert_course) as [e|] eqn:F2.
  { exists (Raised e), d, d. repeat split; try discriminate.
    subst n k. now apply course_insert_raised. }
  simpl. destruct (f MA_commit_course) as [e|] eqn:F3.
  { eexists (Raised e), d, _. repeat split; try discriminate.
    subst n k. now apply course_commit_raised. }
  eexists _, _, _. repeat split. subst n k. now apply course_inserted.
Qed.

Lemma mark_valid_run (f : faults) (sid nm day tm : string) (d : db) :
  exists r d' ev,
    serve (mark_valid f sid nm day tm) mark_failed d
    = {| reply := r; final := d'; events := ev |}
    /\ scan_outcome f sid nm day tm d r d'.
Proof.
  unfold serve, mark_valid, connect.
  unfold bind at 1. unfold query at 1. cbn [view].
  destruct (f MA_select_active) as [e|] eqn:F0.
  { eexists _, _, _. split; [reflexivity|]. now apply scan_session_raised. }
  unfold bind at 1.
  destruct (general_check_outcome f sid nm day tm d [])
    as [o [d1 [v1 [Hg [Og Hv]]]]].
  rewrite Hg. destruct o as [e|[msgs recs]].
  { eexists _, _, _. split; [reflexivity|].
    inversion Og; subst; apply scan_general_raised; auto. }
  rewrite (Hv _ eq_refl). clear Hg Hv v1.
  destruct (select_active day d) as [[cid cn]|] eqn:A.
  - unfold bind at 1. cbn [fst snd].
    destruct (course_check_outcome f sid nm day tm cn msgs recs d1 [])
      as [o [d2 [v2 [Hc [Oc Hv]]]]].
    rewrite Hc. destruct o as [e|[msgs' recs']].
    { eexists _, _, _. split; [reflexivity|].
      inversion Oc; subst; eapply scan_course_raised; eauto. }
    rewrite (Hv _ eq_refl). unfold bind at 1.
    destruct (notify_keeps_store f true day cn recs'
                {| store := d2; view := d2; sent := [] |}) as [evs Hn].
    cbn [fst snd]. rewrite Hn. eexists _, _, _. split; [reflexivity|].
    eapply scan_course_mode; eauto.
  - unfold bind at 1. unfold ret at 1. unfold bind at 1.
    destruct (notify_keeps_store f false day "General" recs
                {| store := d1; view := d1; sent := [] |}) as [evs Hn].
    cbn [fst snd]. rewrite Hn. eexists _, _, _. split; [reflexivity|].
    eapply scan_general_mode; eauto.
Qed.

Lemma mark_valid_outcome (f : faults) (sid nm day tm : string) (d : db) :
  scan_outcome f sid nm day tm d
    (reply (serve (mark_valid f sid nm day tm) mark_failed d))
    (final (serve (mark_valid f sid nm day tm) mark_failed d)).
Proof.
  destruct (mark_valid_run f sid nm day tm d) as [r [d' [ev [H O]]]].
  rewrite H. exact O.
Qed.

Lemma mark_attendance_outcome (f : faults) (data : option string)
      (now : string * string) (d : db) :
  Text.has_bar (Text.py_strip (Text.or_default data "")) = true ->
  scan_outcome f (scanned_id data) (scanned_name data) (fst now) (snd now) d
    (reply (mark_attendance f data now d))
    (final (mark_attendance f data now d)).
Proof.
  intro H. unfold mark_attendance. rewrite H. simpl negb. cbv iota.
  apply mark_valid_outcome.
Qed.



Ltac shape_rows :=
  let x := fresh "x" in
  let Hx := fresh "Hx" in
  intros x Hx; simpl in Hx;
  first [contradiction | destruct Hx as [<-|[]]; repeat split].

Ltac shape_course :=
  let x := fresh "x" in
  let Hx := fresh "Hx" in
  intros x Hx; simpl in Hx;
  first [contradiction
        | destruct Hx as [<-|[]]; eexists _, _;
          split; [eassumption|repeat split]].

Ltac shape_reply A :=
  let Hs := fresh "Hs" in
  intro Hs; simpl in Hs;
  first [discriminate Hs
        | eexists _, _; split; [reflexivity|]; rewrite ?A; simpl; auto 8].

Ltac shape A :=
  rewrite ?insert_attendance_rows, <- ?app_assoc, ?app_nil_r;
  split; [reflexivity|];
  split; [simpl; lia|];
  split; [simpl; lia|];
  split; [shape_rows|];
  split; [shape_course|];
  shape_reply A.

Lemma scan_outcome_shape (f : faults) (sid nm day tm : string) (d : db)
      (r : nat * mark_body) (d' : db) :
  scan_outcome f sid nm day tm d r d' ->
  exists gs cs, scan_shape sid nm day tm d r d' gs cs.
Proof.
  intro O. unfold scan_shape.
  inversion O as [e F0 | e F0 G | msgs recs d1 F0 A G
                  | cid cn msgs recs d1 e F0 A G C
                  | cid cn msgs recs d1 msgs' recs' d2 F0 A G C]; subst.
  - exists [], []. shape F0.
  - exists [], []. shape F0.
  - inversion G; subst.
    + exists [], []. shape A.
    + eexists [_], []. shape A.
  - inversion G; subst.
    + exists [], []. shape A.
    + eexists [_], []. shape A.
  - inversion G; subst; inversion C; subst.
    + exists [], []. shape A.
    + eexists [], [_]. shape A.
    + eexists [_], []. shape A.
    + eexists [_], [_]. shape A.
Qed.

(** ** A scan against the specification's steps *)

Lemma first_fault_none (f : faults) (steps : list op) :
  first_fault f steps = None <-> forall o, In o steps -> f o = None.
Proof.
  induction steps as [|o r IH]; simpl.
  - split; [intros _ o []|reflexivity].
  - destruct (f o) as [e|] eqn:F.
    + split; [discriminate|]. intro H. rewrite (H o) in F; [discriminate|auto].
    + rewrite IH. split.
      * intros H o' [<-|Ho]; auto.
      * intros H o' Ho. auto.
Qed.

Ltac scan_facts :=
  repeat (match goal with
          | H : _ _ = Some _ |- _ => rewrite H
          | H : _ _ = None |- _ => rewrite H
          | H : attendance_exists _ _ _ _ = _ |- _ => rewrite H
          end;
          cbn [first_fault app fst snd is_course_step]).

(** The reply and the committed database of a scan, read off the first
    reached statement that raises: a failure carrying its text, with the
    General row kept when the statement belongs to the course check, or
    else what the specification's steps give. *)
Lemma scan_outcome_exact (f : faults) (sid nm day tm : string) (d : db)
      (r : nat * mark_body) (d' : db) :
  scan_outcome f sid nm day tm d r d' ->
  match first_fault f (reached_steps sid nm day tm d) with
  | Some (o, e) =>
      r = mark_failed e
      /\ d' = (if is_course_step o
               then snd (spec_general_check sid nm day tm d) else d)
  | None =>
      r = (200, Marked (fst (fst (spec_scan sid nm day tm d)))
                       (snd (fst (spec_scan sid nm day tm d))))
      /\ d' = snd (spec_scan sid nm day tm d)
  end.
Proof.
  intro O.
  unfold reached_steps, spec_scan, spec_general_check, spec_course_check.
  cbn [first_fault app].
  inversion O as [e F0 | e F0 G | msgs recs d1 F0 A G
                  | cid cn msgs recs d1 e F0 A G C
                  | cid cn msgs recs d1 msgs' recs' d2 F0 A G C]; subst.
  - rewrite F0. split; reflexivity.
  - inversion G; subst; scan_facts; split; reflexivity.
  - inversion G; subst; scan_facts; split; reflexivity.
  - inversion G; subst; inversion C; subst; scan_facts; split; reflexivity.
  - inversion G; subst; inversion C; subst; scan_facts; split; reflexivity.
Qed.

Lemma mark_attendance_exact (f : faults) (data : option string)
      (now : string * string) (d : db) :
  Text.has_bar (Text.or_default data "") = true ->
  match first_fault f (reached_steps (scanned_id data) (scanned_name data)
                                     (fst now) (snd now) d) with
  | Some (o, e) =>
      reply (mark_attendance f data now d) = mark_failed e
      /\ final (mark_attendance f data now d)
         = (if is_course_step o
            then snd (spec_general_check (scanned_id data) (scanned_name data)
                                         (fst now) (snd now) d)
            else d)
  | None =>
      reply (mark_attendance f data now d)
      = (200, Marked (fst (fst (spec_scan (scanned_id data)
                                          (scanned_name data)
                                          (fst now) (snd now) d)))
                     (snd (fst (spec_scan (scanned_id data)
                                          (scanned_name data)
                                          (fst now) (snd now) d))))
      /\ final (mark_attendance f data now d)
         = snd (spec_scan (scanned_id data) (scanned_name data)
                          (fst now) (snd now) d)
  end.
Proof.
  intro H. apply scan_outcome_exact, mark_attendance_outcome.
  apply py_strip_keeps_bar, H.
Qed.

(** ** Scanning again *)

Lemma attendance_exists_insert (day k c sid nm day' tm crs : string) (d : db) :
  attendance_exists day k c (insert_attendance sid nm day' tm crs d)
  = attendance_exists day k c d
    || (String.eqb day' day && String.eqb (sql_norm sid) k
        && String.eqb (sql_norm crs) c).
Proof.
  unfold attendance_exists. rewrite insert_attendance_rows, existsb_app.
  simpl. rewrite orb_false_r. reflexivity.
Qed.

Lemma sql_norm_General : sql_norm "General" = "general".
Proof. reflexivity. Qed.

(** What a scan that met no fault leaves in the ledger, for a student id
    and a course name on which the normalisation of Python and the one
    of SQLite agree. *)
Lemma scan_leaves_records (sid nm day tm : string) (d : db)
      (r : nat * mark_body) (d' : db) :
  scan_outcome no_faults sid nm day tm d r d' ->
  sql_norm sid = norm_id (Some sid) ->
  select_active day d' = select_active day d
  /\ attendance_exists day (norm_id (Some sid)) "general" d' = true
  /\ (forall cid cn,
         select_active day d = Some (cid, cn) ->
         sql_norm cn = Text.py_lower cn ->
         attendance_exists day (norm_id (Some sid)) (Text.py_lower cn) d'
         = true).
Proof.
  intros O Hs.
  assert (G1 : forall d0 o d1,
             general_outcome no_faults sid nm day tm d0 o d1 ->
             forall a, o = Done a ->
             select_active day d1 = select_active day d0
             /\ attendance_exists day (norm_id (Some sid)) "general" d1 = true
             /\ (forall k, attendance_exists day (norm_id (Some sid)) k d0
                           = true ->
                           attendance_exists day (norm_id (Some sid)) k d1
                           = true)).
  { intros d0 o d1 G a Ho. inversion G; subst; try discriminate.
    - auto.
    - split; [reflexivity|]. split.
      + rewrite attendance_exists_insert, Hs, sql_norm_General,
          !String.eqb_refl. apply orb_true_r.
      + intros k Hk. rewrite attendance_exists_insert, Hk. reflexivity. }
  assert (C1 : forall cn msgs recs d0 o d1,
             course_outcome no_faults sid nm day tm cn msgs recs d0 o d1 ->
             forall a, o = Done a ->
             sql_norm cn = Text.py_lower cn ->
             attendance_exists day (norm_id (Some sid)) (Text.py_lower cn) d1
             = true).
  { intros cn msgs recs d0 o d1 C a Ho Hc.
    inversion C; subst; try discriminate; auto.
    rewrite attendance_exists_insert, Hs, Hc, !String.eqb_refl.
    apply orb_true_r. }
  assert (C2 : forall cn msgs recs d0 o d1,
             course_outcome no_faults sid nm day tm cn msgs recs d0 o d1 ->
             select_active day d1 = select_active day d0
             /\ (forall k, attendance_exists day (norm_id (Some sid)) k d0
                           = true ->
                           attendance_exists day (norm_id (Some sid)) k d1
                           = true)).
  { intros cn msgs recs d0 o d1 C.
    inversion C; subst; auto.
    split; [reflexivity|]. intros k Hk.
    rewrite attendance_exists_insert, Hk. reflexivity. }
  inversion O as [e F0 | e F0 G | msgs recs d1 F0 A G
                  | cid cn msgs recs d1 e F0 A G C
                  | cid cn msgs recs d1 msgs' recs' d2 F0 A G C]; subst;
    try discriminate.
  - inversion G; discriminate.
  - destruct (G1 _ _ _ G _ eq_refl) as [S1 [X1 _]].
    split; [exact S1|]. split; [exact X1|].
    intros cid cn A'. congruence.
  - inversion C; discriminate.
  - destruct (G1 _ _ _ G _ eq_refl) as [S1 [X1 _]].
    destruct (C2 _ _ _ _ _ _ C) as [S2 M2].
    split; [congruence|]. split; [auto|].
    intros cid' cn' A' Hc. rewrite A in A'. inversion A'; subst.
    apply (C1 _ _ _ _ _ _ C _ eq_refl Hc).
Qed.

(** A scan that meets no fault and finds both records changes nothing. *)
Lemma scan_finds_records (sid nm day tm : string) (d : db)
      (r : nat * mark_body) (d' : db) :
  scan_outcome no_faults sid nm day tm d r d' ->
  attendance_exists day (norm_id (Some sid)) "general" d = true ->
  (forall cid cn,
      select_active day d = Some (cid, cn) ->
      attendance_exists day (norm_id (Some sid)) (Text.py_lower cn) d = true) ->
  d' = d
  /\ r = (200,
          Marked (general_already
                    :: match select_active day d with
                       | Some (_, cn) => [course_already cn]
                       | None => []
                       end)
                 []).
Proof.
  intros O Xg Xc.
  inversion O as [e F0 | e F0 G | msgs recs d1 F0 A G
                  | cid cn msgs recs d1 e F0 A G C
                  | cid cn msgs recs d1 msgs' recs' d2 F0 A G C]; subst;
    try discriminate.
  - inversion G; discriminate.
  - inversion G; subst; try congruence. rewrite A. auto.
  - inversion C; discriminate.
  - inversion G; subst; try congruence.
    specialize (Xc _ _ A).
    inversion C; subst; try congruence. rewrite A. auto.
Qed.

(** Idempotence where the two normalisations agree: after a scan that
    met no fault, a scan of an id with the same [norm_id] on the same
    day inserts nothing and reports both records as already there. *)
Lemma rescan_inserts_nothing (data data' : option string)
      (day tm tm' : string) (d : db) :
  Text.has_bar (Text.or_default data "") = true ->
  Text.has_bar (Text.or_default data' "") = true ->
  sql_norm (scanned_id data) = norm_id (Some (scanned_id data)) ->
  norm_id (Some (scanned_id data')) = norm_id (Some (scanned_id data)) ->
  (forall cid cn, select_active day d = Some (cid, cn) ->
                  sql_norm cn = Text.py_lower cn) ->
  final (mark_attendance no_faults data' (day, tm')
           (final (mark_attendance no_faults data (day, tm) d)))
  = final (mark_attendance no_faults data (day, tm) d)
  /\ reply (mark_attendance no_faults data' (day, tm')
              (final (mark_attendance no_faults data (day, tm) d)))
     = (200,
        Marked (general_already
                  :: match select_active day d with
                     | Some (_, cn) => [course_already cn]
                     | None => []
                     end)
               []).
Proof.
  intros H H' Hs Hn Hc.
  pose proof (mark_attendance_outcome no_faults data (day, tm) d
                (py_strip_keeps_bar _ H)) as O1.
  destruct (scan_leaves_records _ _ _ _ _ _ _ O1 Hs) as [S1 [Xg Xc]].
  pose proof (mark_attendance_outcome no_faults data' (day, tm')
                (final (mark_attendance no_faults data (day, tm) d))
                (py_strip_keeps_bar _ H')) as O2.
  cbn [fst snd] in *.
  destruct (scan_finds_records _ _ _ _ _ _ _ O2) as [E1 E2].
  - rewrite Hn. exact Xg.
  - intros cid cn A. rewrite Hn. rewrite S1 in A. eauto.
  - rewrite S1 in E2. auto.
Qed.

(** The same for two identical scans of an id without upper-case
    letters outside ASCII. *)
Lemma rescan_plain_id (data : option string) (day tm tm' : string) (d : db) :
  Text.has_bar (Text.or_default data "") = true ->
  plain_case (scanned_id data) = true ->
  (forall cid cn, select_active day d = Some (cid, cn) ->
                  sql_norm cn = Text.py_lower cn) ->
  final (mark_attendance no_faults data (day, tm')
           (final (mark_attendance no_faults data (day, tm) d)))
  = final (mark_attendance no_faults data (day, tm) d)
  /\ reply (mark_attendance no_faults data (day, tm')
              (final (mark_attendance no_faults data (day, tm) d)))
     = (200,
        Marked (general_already
                  :: match select_active day d with
                     | Some (_, cn) => [course_already cn]
                     | None => []
                     end)
               []).
Proof.
  intros H P Hc. apply rescan_inserts_nothing; auto.
  apply plain_case_norm, P.
Qed.

(** ** Activating a course *)

Lemma find_last {A : Type} (p : A -> bool) (l : list A) (x : A) :
  find p (l ++ [x])
  = match find p l with
    | Some y => Some y
    | None => if p x then Some x else None
    end.
Proof.
  induction l as [|a l IH]; simpl; auto.
  destruct (p a); auto.
Qed.

Lemma select_course_none_fresh (key c : string) (d : db) :
  select_course_id key d = None ->
  sql_norm c = key ->
  existsb (fun r => String.eqb (course_name r) c) (rows (courses d)) = false.
Proof.
  unfold select_course_id. intros H K.
  destruct (find (fun r => String.eqb (sql_norm (course_name r)) key)
                 (rows (courses d))) as [y|] eqn:F; [discriminate|].
  destruct (existsb (fun r => String.eqb (course_name r) c)
                    (rows (courses d))) eqn:X; auto.
  apply existsb_exists in X. destruct X as [x [Hin Hx]].
  apply String.eqb_eq in Hx.
  pose proof (find_none _ _ F x Hin) as N. simpl in N.
  rewrite Hx, K, String.eqb_refl in N. discriminate.
Qed.



(** The effect of a course-mode request that meets no fault, for a
    course name on which the lookup key of Python and the normalisation
    of SQLite agree: the course is found or created, and the
    [active_course] row of the day is there, inserted only when it was
    missing. *)
Lemma set_course_activates (s : session) (info : course_request)
      (today utcnow : string) (d : db) :
  is_admin s = true ->
  mode_of info = "course" ->
  course_of info <> "" ->
  sql_norm (course_of info)
  = Text.py_strip (Text.py_lower (course_of info)) ->
  exists cid,
    reply (set_course no_faults s info today utcnow d)
    = (200, Updated "Course and mode updated" (course_of info) "course")
    /\ select_course_id (Text.py_strip (Text.py_lower (course_of info)))
                        (final (set_course no_faults s info today utcnow d))
       = Some cid
    /\ ((select_course_id (Text.py_strip (Text.py_lower (course_of info))) d
         = Some cid
         /\ courses (final (set_course no_faults s info today utcnow d))
            = courses d)
        \/ (select_course_id (Text.py_strip (Text.py_lower (course_of info))) d
            = None
            /\ cid = lastrowid (courses d)
            /\ courses (final (set_course no_faults s info today utcnow d))
               = insert_row (fun i => {| courses_id := i;
                                         course_name := course_of info |})
                            (courses d)))
    /\ active_course (final (set_course no_faults s info today utcnow d))
       = (if active_exists cid today d then active_course d
          else active_course (insert_active cid today d))
    /\ attendance (final (set_course no_faults s info today utcnow d))
       = attendance d.
Proof.
  intros Ha Hm Hc Hk.
  unfold set_course, set_course_body. rewrite Ha, Hm. simpl negb.
  cbv iota. rewrite String.eqb_refl.
  apply String.eqb_neq in Hc. rewrite Hc.
  remember (course_of info) as c eqn:Ec.
  remember (Text.py_strip (Text.py_lower c)) as key eqn:Ek.
  unfold serve, activate, publish, bind, query, execute, commit, catch, emit,
    write, ret, connect, no_faults. rewrite <- Ek. cbn [view store sent].
  destruct (select_course_id key d) as [i|] eqn:S.
  - cbn [view store sent].
    destruct (active_exists i today d) eqn:X; cbn [view store sent negb];
      exists i; cbn; rewrite ?S, ?X;
      (split; [reflexivity|]; split; [first [reflexivity|exact S]|];
       split; [left; split; reflexivity|split; reflexivity]).
  - unfold insert_course. cbn [view store sent].
    rewrite (select_course_none_fresh key c d S Hk).
    cbn [view store sent].
    set (d1 := {| courses := _; active_course := active_course d;
                  attendance := attendance d |}).
    assert (S1 : select_course_id key d1 = Some (lastrowid (courses d))).
    { unfold select_course_id, d1. cbn [courses rows insert_row].
      rewrite find_last. unfold select_course_id in S.
      destruct (find (fun c0 => String.eqb (sql_norm (course_name c0)) key)
                     (rows (courses d))); [discriminate|].
      cbn [course_name]. rewrite Hk, String.eqb_refl. reflexivity. }
    assert (X1 : active_exists (lastrowid (courses d)) today d1
                 = active_exists (lastrowid (courses d)) today d)
      by reflexivity.
    rewrite X1.
    destruct (active_exists (lastrowid (courses d)) today d) eqn:X;
      cbn [view store sent negb];
      exists (lastrowid (courses d)); cbn [reply final fst snd];
      rewrite ?X;
      (split; [reflexivity|]; split; [exact S1|];
       split; [right; split; [reflexivity|split; reflexivity]
              |split; reflexivity]).
Qed.


Lemma active_exists_count (cid : nat) (day : string) (d : db) :
  active_exists cid day d = true <-> 0 < count_active cid day d.
Proof.
  unfold active_exists, count_active.
  induction (rows (active_course d)) as [|a l IH]; simpl.
  - split; [discriminate|lia].
  - destruct ((active_course_id a =? cid) && String.eqb (active_date a) day);
      simpl; [split; auto; lia|exact IH].
Qed.

Lemma count_active_insert (cid : nat) (day : string) (d : db) :
  count_active cid day (insert_active cid day d)
  = S (count_active cid day d).
Proof.
  unfold count_active. rewrite insert_active_rows, filter_app, length_app.
  simpl. rewrite Nat.eqb_refl, String.eqb_refl. simpl. lia.
Qed.

Lemma db_ext (d1 d2 : db) :
  courses d1 = courses d2 ->
  active_course d1 = active_course d2 ->
  attendance d1 = attendance d2 ->
  d1 = d2.
Proof. destruct d1, d2; simpl; intros; subst; reflexivity. Qed.

(** Where the lookup finds the course again, a course-mode request that
    meets no fault leaves exactly one [active_course] row of the course
    for the day, provided there was at most one, and repeating the
    request changes nothing. *)
Lemma set_course_once (s : session) (info : course_request)
      (today utcnow utcnow' : string) (d : db) :
  is_admin s = true ->
  mode_of info = "course" ->
  course_of info <> "" ->
  sql_norm (course_of info)
  = Text.py_strip (Text.py_lower (course_of info)) ->
  exists cid,
    select_course_id (Text.py_strip (Text.py_lower (course_of info)))
                     (final (set_course no_faults s info today utcnow d))
    = Some cid
    /\ (count_active cid today d <= 1 ->
        count_active cid today
                     (final (set_course no_faults s info today utcnow d)) = 1)
    /\ final (set_course no_faults s info today utcnow'
                         (final (set_course no_faults s info today utcnow d)))
       = final (set_course no_faults s info today utcnow d)
    /\ fst (reply (set_course no_faults s info today utcnow'
                     (final (set_course no_faults s info today utcnow d))))
       = 200.
Proof.
  intros Ha Hm Hc Hk.
  destruct (set_course_activates s info today utcnow d Ha Hm Hc Hk)
    as [cid [R1 [S1 [_ [A1 T1]]]]].
  set (d1 := final (set_course no_faults s info today utcnow d)) in *.
  assert (C1 : count_active cid today d <= 1 -> count_active cid today d1 = 1).
  { intro Le. destruct (active_exists cid today d) eqn:X.
    - apply active_exists_count in X.
      unfold count_active in *. rewrite A1. lia.
    - assert (Z : count_active cid today d = 0).
      { destruct (count_active cid today d) eqn:E; auto.
        assert (P : 0 < count_active cid today d) by lia.
        apply active_exists_count in P. congruence. }
      pose proof (count_active_insert cid today d) as I.
      unfold count_active in *. rewrite A1. lia. }
  assert (X1 : active_exists cid today d1 = true).
  { destruct (active_exists cid today d) eqn:X.
    - unfold active_exists in *. rewrite A1. exact X.
    - apply active_exists_count.
      pose proof (count_active_insert cid today d) as I.
      unfold count_active in *. rewrite A1. lia. }
  destruct (set_course_activates s info today utcnow' d1 Ha Hm Hc Hk)
    as [cid' [R2 [S2 [P2 [A2 T2]]]]].
  exists cid. split; [exact S1|]. split; [exact C1|]. split.
  - destruct P2 as [[P2 Q2]|[P2 _]]; [|congruence].
    assert (cid' = cid) by congruence. subst cid'.
    rewrite X1 in A2. apply db_ext; auto.
  - rewrite R2. reflexivity.
Qed.

(** The same for a course name without upper-case letters outside
    ASCII. *)
Lemma set_course_once_plain (s : session) (info : course_request)
      (today utcnow utcnow' : string) (d : db) :
  is_admin s = true ->
  mode_of info = "course" ->
  course_of info <> "" ->
  plain_case (course_of info) = true ->
  exists cid,
    select_course_id (Text.py_strip (Text.py_lower (course_of info)))
                     (final (set_course no_faults s info today utcnow d))
    = Some cid
    /\ (count_active cid today d <= 1 ->
        count_active cid today
                     (final (set_course no_faults s info today utcnow d)) = 1)
    /\ final (set_course no_faults s info today utcnow'
                         (final (set_course no_faults s info today utcnow d)))
       = final (set_course no_faults s info today utcnow d)
    /\ fst (reply (set_course no_faults s info today utcnow'
                     (final (set_course no_faults s info today utcnow d))))
       = 200.
Proof.
  intros Ha Hm Hc P. apply set_course_once; auto.
  apply plain_case_key, P.
Qed.

(** ** The active session as [/get_course] reports it *)



(** C10: when the query of [get_course] raises, the reply is status 200
    with the body of "no active session", the same reply a database
    without any active row for the date gets; the database is left as it
    was. *)
Theorem get_course_masks_query_failure
        (f : faults) (today e : string) (d : db) :
  f GC_select = Some e ->
  reply (get_course f today d) = (200, no_active)
  /\ final (get_course f today d) = d
  /\ forall d0,
      (forall a, In a (rows (active_course d0)) -> active_date a <> today) ->
      reply (get_course no_faults today d0) = reply (get_course f today d).
Proof.
  intro Hf.
  assert (H : reply (get_course f today d) = (200, no_active)
              /\ final (get_course f today d) = d).
  { unfold get_course, serve, bind, query. rewrite Hf. simpl. auto. }
  destruct H as [H1 H2]. repeat split; auto.
  intros d0 Hnone. rewrite H1.
  rewrite (get_course_unfold no_faults today d0 eq_refl).
  rewrite (select_active_none today d0 Hnone). reflexivity.
Qed.

Lemma get_course_masks_query_failure_witness :
  reply (get_course (fun _ => Some "database is locked") "2024-03-01"
                    empty_db)
  = (200, no_active).
Proof.
  apply (get_course_masks_query_failure
           (fun _ => Some "database is locked") "2024-03-01"
           "database is locked" empty_db eq_refl).
Defined.

(** ** Requests refused before any statement runs *)




(** C8: an admin request in course mode whose course name is empty,
    missing or blank is answered with status 400 and the message
    "Course required for course mode"; nothing is written and nothing is
    sent.  The outcome is the same under every fault plan: the refusal
    comes before any statement could run or fail. *)
Theorem set_course_requires_course_name
        (f : faults) (s : session) (info : course_request)
        (today utcnow : string) (d : db) :
  is_admin s = true ->
  mode_of info = "course" ->
  course_of info = "" ->
  set_course f s info today utcnow d
  = {| reply := (400, Message "Course required for course mode");
       final := d;
       events := [] |}.
Proof.
  intros Ha Hm Hc. unfold set_course, set_course_body.
  rewrite Ha, Hm, Hc. reflexivity.
Qed.

Lemma set_course_requires_course_name_witness :
  set_course (fun _ => Some "disk I/O error")
             {| user := Some "admin"; role := Some "admin" |}
             {| req_course := None; req_mode := Some "course" |}
             "2024-03-01" "2024-03-01T08:00:00" empty_db
  = {| reply := (400, Message "Course required for course mode");
       final := empty_db;
       events := [] |}.
Proof.
  apply set_course_requires_course_name; reflexivity.
Defined.

(** ** What one scan writes *)

(** C3: for a payload that holds a separator, whatever the fault plan,
    the ledger after the call is the ledger before followed by at most
    one row of the general check (course "General") and at most one row
    of the course check (the active course, so only in course mode),
    both for the scanned student and date; when the call succeeds, the
    first message is the outcome of the general check, in either mode,
    which inserted its row exactly when none was found, in course mode a
    second message gives the outcome of the course check, and
    [inserted] lists the new rows.  When none of the statements the call
    reaches raises, the reply is the success carrying the messages and
    records of the specification's steps (the general check in either
    mode, then the course check when a course is active, each inserting
    exactly when its existence query finds nothing) and the ledger is
    the one these steps leave.  The call succeeds in no other case. *)
Theorem mark_attendance_general_then_course
        (f : faults) (data : option string) (now : string * string) (d : db) :
  Text.has_bar (Text.or_default data "") = true ->
  (exists gs cs,
    rows (attendance (final (mark_attendance f data now d)))
    = rows (attendance d) ++ gs ++ cs
    /\ List.length gs <= 1
    /\ List.length cs <= 1
    /\ (forall g, In g gs ->
          row_for (scanned_id data) (scanned_name data) (fst now) (snd now)
                  "General" g)
    /\ (forall c, In c cs ->
          exists cid cn,
            select_active (fst now) d = Some (cid, cn)
            /\ row_for (scanned_id data) (scanned_name data) (fst now)
                       (snd now) cn c)
    /\ (fst (reply (mark_attendance f data now d)) = 200 ->
        exists gmsg cmsgs,
          snd (reply (mark_attendance f data now d))
          = Marked (gmsg :: cmsgs) (map record_of_row (gs ++ cs))
          /\ ((attendance_exists (fst now) (norm_id (Some (scanned_id data)))
                                 "general" d = true
               /\ gmsg = general_already /\ gs = [])
              \/ (attendance_exists (fst now)
                                    (norm_id (Some (scanned_id data)))
                                    "general" d = false
                  /\ gmsg = general_recorded /\ List.length gs = 1))
          /\ match select_active (fst now) d with
             | None => cmsgs = [] /\ cs = []
             | Some (_, cn) =>
                 (cmsgs = [course_already cn] /\ cs = [])
                 \/ (cmsgs = [course_recorded cn] /\ List.length cs = 1)
             end))
  /\ ((forall o,
         In o (reached_steps (scanned_id data) (scanned_name data)
                             (fst now) (snd now) d) ->
         f o = None) ->
      reply (mark_attendance f data now d)
      = (200, Marked (fst (fst (spec_scan (scanned_id data)
                                          (scanned_name data)
                                          (fst now) (snd now) d)))
                     (snd (fst (spec_scan (scanned_id data)
                                          (scanned_name data)
                                          (fst now) (snd now) d))))
      /\ final (mark_attendance f data now d)
         = snd (spec_scan (scanned_id data) (scanned_name data)
                          (fst now) (snd now) d))
  /\ (fst (reply (mark_attendance f data now d)) = 200 ->
      forall o,
        In o (reached_steps (scanned_id data) (scanned_name data)
                            (fst now) (snd now) d) ->
        f o = None).
Proof.
  intro H. split; [|split].
  - destruct (scan_outcome_shape _ _ _ _ _ _ _ _
                (mark_attendance_outcome f data now d
                   (py_strip_keeps_bar _ H)))
      as [gs [cs S]].
    exists gs, cs. exact S.
  - intro N. apply first_fault_none in N.
    pose proof (mark_attendance_exact f data now d H) as E.
    rewrite N in E. exact E.
  - intro S. apply first_fault_none.
    pose proof (mark_attendance_exact f data now d H) as E.
    destruct (first_fault f _) as [[o e]|]; [|reflexivity].
    destruct E as [E _]. rewrite E in S. discriminate S.
Qed.

Lemma mark_attendance_general_then_course_witness :
  reply (mark_attendance no_faults (Some "S100|Jane Doe")
                         (day1, "09:00:00") db_cs101)
  = (200,
     Marked [general_recorded; course_recorded "CS101"]
            [record_of "S100" "Jane Doe" day1 "09:00:00" "General";
             record_of "S100" "Jane Doe" day1 "09:00:00" "CS101"])
  /\ rows (attendance
             (final (mark_attendance no_faults (Some "S100|Jane Doe")
                                     (day1, "09:00:00") db_cs101)))
     = [{| attendance_id := 1; student_id := "S100"; name := "Jane Doe";
           date := day1; time := "09:00:00";
           Store.course := Some "General" |};
        {| attendance_id := 2; student_id := "S100"; name := "Jane Doe";
           date := day1; time := "09:00:00";
           Store.course := Some "CS101" |}].
Proof.
  destruct (mark_attendance_general_then_course
              no_faults (Some "S100|Jane Doe") (day1, "09:00:00") db_cs101
              eq_refl) as [_ [S _]].
  destruct (S (fun o _ => eq_refl)) as [R F].
  split; [exact R|]. rewrite F. reflexivity.
Defined.

(** ** Failures while marking *)

(** C2, counterexample: CS101 is active and the existence query of the
    course check raises.  The reply is the generic failure with the
    raised text, yet the General row inserted earlier in the same call
    was committed before the failure and stays in the ledger. *)
Lemma mark_attendance_keeps_general_row_on_failure :
  reply (mark_attendance course_query_down (Some "S100|Jane Doe")
                         (day1, "09:00:00") db_cs101)
  = (500, Rejected "Failed to mark attendance" (Some "disk I/O error"))
  /\ rows (attendance db_cs101) = []
  /\ rows (attendance
             (final (mark_attendance course_query_down
                                     (Some "S100|Jane Doe")
                                     (day1, "09:00:00") db_cs101)))
     = [{| attendance_id := 1; student_id := "S100"; name := "Jane Doe";
           date := day1; time := "09:00:00";
           Store.course := Some "General" |}]
  /\ final (mark_attendance course_query_down (Some "S100|Jane Doe")
                            (day1, "09:00:00") db_cs101)
     <> db_cs101.
Proof.
  repeat split; try reflexivity.
  vm_compute. discriminate.
Qed.

(** C2, amended: each insert of a scan is committed on its own.  A call
    replies 200 or 500.  A reply 500 is the generic failure carrying the
    text raised by one of the guarded statements; the insert of the
    failing check is not in the ledger, but a General row committed
    before a failure of the course check stays: the ledger is the one
    before the call, or that one plus the General row.  When none of the
    guarded statements raises the call succeeds, whatever the count
    query and the emits do.  And whenever a guarded statement the call
    reaches raises, the reply is the generic failure with status 500
    carrying the text of the first such statement; the ledger is then
    the one before the call when that statement is the session query or
    belongs to the general check, and the one the general check left
    (with the General row, if it inserted one) when it belongs to the
    course check. *)
Theorem mark_attendance_failure_semantics
        (f : faults) (data : option string) (now : string * string) (d : db) :
  Text.has_bar (Text.or_default data "") = true ->
  (fst (reply (mark_attendance f data now d)) = 200
   \/ fst (reply (mark_attendance f data now d)) = 500)
  /\ (fst (reply (mark_attendance f data now d)) = 500 ->
      exists e o,
        reply (mark_attendance f data now d)
        = (500, Rejected "Failed to mark attendance" (Some e))
        /\ In o guarded_steps /\ f o = Some e
        /\ (final (mark_attendance f data now d) = d
            \/ (final (mark_attendance f data now d)
                = insert_attendance (scanned_id data) (scanned_name data)
                                    (fst now) (snd now) "General" d
                /\ In o course_steps)))
  /\ ((forall o, In o guarded_steps -> f o = None) ->
      fst (reply (mark_attendance f data now d)) = 200)
  /\ (forall o e,
         first_fault f (reached_steps (scanned_id data) (scanned_name data)
                                      (fst now) (snd now) d)
         = Some (o, e) ->
         reply (mark_attendance f data now d)
         = (500, Rejected "Failed to mark attendance" (Some e))
         /\ final (mark_attendance f data now d)
            = (if is_course_step o
               then snd (spec_general_check (scanned_id data)
                                            (scanned_name data)
                                            (fst now) (snd now) d)
               else d)).
Proof.
  intro H.
  pose proof (mark_attendance_exact f data now d H) as X.
  pose proof (mark_attendance_outcome f data now d (py_strip_keeps_bar _ H))
    as O.
  remember (reply (mark_attendance f data now d)) as r eqn:Hr.
  remember (final (mark_attendance f data now d)) as d' eqn:Hd.
  clear Hr Hd H.
  assert (L : forall o e,
             first_fault f (reached_steps (scanned_id data)
                                          (scanned_name data)
                                          (fst now) (snd now) d)
             = Some (o, e) ->
             r = (500, Rejected "Failed to mark attendance" (Some e))
             /\ d' = (if is_course_step o
                      then snd (spec_general_check (scanned_id data)
                                                   (scanned_name data)
                                                   (fst now) (snd now) d)
                      else d)).
  { intros o e E. rewrite E in X. exact X. }
  clear X. revert L. unfold guarded_steps, course_steps.
  inversion O as [e F0 | e F0 G | msgs recs d1 F0 A G
                  | cid cn msgs recs d1 e F0 A G C
                  | cid cn msgs recs d1 msgs' recs' d2 F0 A G C]; subst;
    simpl fst; intro L.
  - split; [auto|]. split; [|split; [|exact L]].
    + intros _. exists e, MA_select_active. simpl. auto 10.
    + intro N. rewrite (N MA_select_active) in F0; [discriminate|].
      simpl; auto.
  - split; [auto|]. split; [|split; [|exact L]].
    + intros _. inversion G; subst.
      * exists e, MA_select_general. simpl. auto 10.
      * exists e, MA_insert_general. simpl. auto 10.
      * exists e, MA_commit_general. simpl. auto 10.
    + intro N. inversion G; subst;
        match goal with
        | F : f ?o = Some _ |- _ =>
            rewrite (N o) in F; [discriminate|simpl; auto 10]
        end.
  - split; [auto|]. split; [discriminate|split; [auto|exact L]].
  - split; [auto|]. split; [|split; [|exact L]].
    + intros _.
      assert (Hd1 : d' = d
                    \/ d' = insert_attendance (scanned_id data)
                                              (scanned_name data)
                                              (fst now) (snd now)
                                              "General" d)
        by (inversion G; subst; auto).
      inversion C; subst.
      * exists e, MA_select_course. simpl.
        destruct Hd1 as [->| ->]; auto 12.
      * exists e, MA_insert_course. simpl.
        destruct Hd1 as [->| ->]; auto 12.
      * exists e, MA_commit_course. simpl.
        destruct Hd1 as [->| ->]; auto 12.
    + intro N. inversion C; subst;
        match goal with
        | F : f ?o = Some _ |- _ =>
            rewrite (N o) in F; [discriminate|simpl; auto 10]
        end.
  - split; [auto|]. split; [discriminate|split; [auto|exact L]].
Qed.

Lemma mark_attendance_failure_semantics_witness :
  reply (mark_attendance course_query_down (Some "S100|Jane Doe")
                         (day1, "09:00:00") db_cs101)
  = (500, Rejected "Failed to mark attendance" (Some "disk I/O error"))
  /\ final (mark_attendance course_query_down (Some "S100|Jane Doe")
                            (day1, "09:00:00") db_cs101)
     = insert_attendance "S100" "Jane Doe" day1 "09:00:00" "General"
                         db_cs101.
Proof.
  destruct (mark_attendance_failure_semantics
              course_query_down (Some "S100|Jane Doe") (day1, "09:00:00")
              db_cs101 eq_refl) as [_ [_ [_ L]]].
  exact (L MA_select_course "disk I/O error" eq_refl).
Defined.

(** ** Switching to general mode *)

Lemma delete_active_clears (today : string) (d : db) (a : active_row) :
  In a (rows (active_course (delete_active today d))) ->
  In a (rows (active_course d)) /\ active_date a <> today.
Proof.
  simpl. intro H. apply filter_In in H. destruct H as [H1 H2].
  split; auto. intro E. rewrite E, String.eqb_refl in H2. discriminate.
Qed.

(** C9, counterexample: the mode " course " is not the text "course",
    yet the handler strips it and runs course mode: the course is
    created and activated, and the row of CS101 for the day is not
    deleted. *)
Lemma set_course_padded_mode_is_course_mode :
  req_mode padded_course_request <> Some "course"
  /\ reply (set_course no_faults admin_session padded_course_request
                       day1 "2024-03-01T08:00:00" db_cs101)
     = (200, Updated "Course and mode updated" "MTH201" "course")
  /\ rows (active_course
             (final (set_course no_faults admin_session padded_course_request
                                day1 "2024-03-01T08:00:00" db_cs101)))
     = [{| active_id := 1; active_course_id := 1; active_date := day1 |};
        {| active_id := 2; active_course_id := 2; active_date := day1 |}].
Proof.
  split; [discriminate|]. split; reflexivity.
Qed.

(** C9, amended: for an admin request whose mode, once defaulted to
    "general" when absent or empty and stripped of surrounding white
    space, is not "course", and with the delete and the commit not
    raising: the reply is the success reply whatever the course field
    holds, every [active_course] row of the day is deleted, and nothing
    else changes. *)
Theorem set_course_other_modes_clear_the_day
        (f : faults) (s : session) (info : course_request)
        (today utcnow : string) (d : db) :
  is_admin s = true ->
  mode_of info <> "course" ->
  f SC_delete_active = None ->
  f SC_commit = None ->
  reply (set_course f s info today utcnow d)
  = (200, Updated "Course and mode updated" (course_of info) (mode_of info))
  /\ final (set_course f s info today utcnow d) = delete_active today d
  /\ (forall a,
         In a (rows (active_course (final (set_course f s info today utcnow d)))) ->
         active_date a <> today)
  /\ (forall a,
         In a (rows (active_course d)) -> active_date a <> today ->
         In a (rows (active_course (final (set_course f s info today utcnow d)))))
  /\ courses (final (set_course f s info today utcnow d)) = courses d
  /\ attendance (final (set_course f s info today utcnow d)) = attendance d.
Proof.
  intros Ha Hm Fd Fc.
  assert (E : reply (set_course f s info today utcnow d)
              = (200, Updated "Course and mode updated" (course_of info)
                              (mode_of info))
              /\ final (set_course f s info today utcnow d)
                 = delete_active today d).
  { unfold set_course, set_course_body. rewrite Ha. simpl negb. cbv iota.
    apply String.eqb_neq in Hm. rewrite Hm.
    unfold serve, publish, bind, execute, commit, catch, emit, write, ret,
      connect. rewrite Fd. cbn [view store sent]. rewrite Fc.
    cbn [view store sent]. destruct (f SC_emit); auto. }
  destruct E as [E1 E2]. rewrite E1, E2.
  split; [reflexivity|]. split; [reflexivity|].
  split; [|split; [|split; reflexivity]].
  - intros a Hin. apply (delete_active_clears today d a Hin).
  - intros a Hin Hday. simpl. apply filter_In. split; auto.
    apply String.eqb_neq in Hday. rewrite Hday. reflexivity.
Qed.

Lemma set_course_other_modes_clear_the_day_witness :
  final (set_course no_faults admin_session
                    {| req_course := Some "CS101"; req_mode := None |}
                    day1 "2024-03-01T08:00:00" db_cs101)
  = delete_active day1 db_cs101.
Proof.
  apply (set_course_other_modes_clear_the_day
           no_faults admin_session
           {| req_course := Some "CS101"; req_mode := None |}
           day1 "2024-03-01T08:00:00" db_cs101);
    [reflexivity | discriminate | reflexivity | reflexivity].
Defined.

(** ** Letters outside ASCII *)

(** C1, at a failing input: the payload "É1|Jane" scanned twice on the
    same day in general mode.  [norm_id] gives "é1" for the scanned id,
    SQLite's [LOWER(TRIM(student_id))] gives "É1" for the stored one, so
    the second scan does not find the record of the first although
    [id_matches] relates the two ids: it inserts a second General row
    and reports it as recorded. *)
Theorem mark_attendance_rescan_duplicates_accented_id :
  norm_id (Some (scanned_id scan_upper)) = String e_acute "1"
  /\ sql_norm (scanned_id scan_upper) = String E_acute "1"
  /\ id_matches (Some (String E_acute "1")) (Some (scanned_id scan_upper))
     = true
  /\ rows (attendance
             (final (mark_attendance no_faults scan_upper (day1, "09:00:00")
                                     empty_db)))
     = [{| attendance_id := 1; student_id := String E_acute "1";
           name := "Jane"; date := day1; time := "09:00:00";
           Store.course := Some "General" |}]
  /\ reply (mark_attendance no_faults scan_upper (day1, "09:05:00")
              (final (mark_attendance no_faults scan_upper (day1, "09:00:00")
                                      empty_db)))
     = (200,
        Marked [general_recorded]
               [record_of (String E_acute "1") "Jane" day1 "09:05:00"
                          "General"])
  /\ List.length
       (rows (attendance
                (final (mark_attendance no_faults scan_upper
                          (day1, "09:05:00")
                          (final (mark_attendance no_faults scan_upper
                                    (day1, "09:00:00") empty_db))))))
     = 2.
Proof.
  repeat split; reflexivity.
Qed.

(** C7, at a failing input: "É1|Jane" then "é1|Jane" on the same day.
    The two ids differ in letter case only ([norm_id] maps both to
    "é1"), but the stored "É1" is compared through SQLite's [LOWER],
    which leaves it as it is: the second scan finds no record and
    inserts a second General row. *)
Theorem mark_attendance_case_variant_not_found :
  norm_id (Some (scanned_id scan_upper)) = norm_id (Some (scanned_id scan_lower))
  /\ attendance_exists day1 (norm_id (Some (scanned_id scan_lower))) "general"
       (final (mark_attendance no_faults scan_upper (day1, "09:00:00")
                               empty_db))
     = false
  /\ snd (reply (mark_attendance no_faults scan_lower (day1, "09:05:00")
                   (final (mark_attendance no_faults scan_upper
                             (day1, "09:00:00") empty_db))))
     = Marked [general_recorded]
              [record_of (String e_acute "1") "Jane" day1 "09:05:00"
                         "General"]
  /\ map student_id
       (rows (attendance
                (final (mark_attendance no_faults scan_lower
                          (day1, "09:05:00")
                          (final (mark_attendance no_faults scan_upper
                                    (day1, "09:00:00") empty_db))))))
     = [String E_acute "1"; String e_acute "1"].
Proof.
  repeat split; reflexivity.
Qed.

(** C6, at a failing input: an admin activates the course "ÉCO" twice
    on the same day.  The first call creates the course.  The second
    looks it up by the key "éco" of Python while SQLite normalises the
    stored name to "Éco": the lookup misses, the insert of the same name
    breaks the UNIQUE constraint and the call replies 500. *)
Theorem set_course_repeat_fails_on_accented_name :
  reply (set_course no_faults admin_session eco_request day1
                    "2024-03-01T08:00:00" empty_db)
  = (200, Updated "Course and mode updated" (String E_acute "CO") "course")
  /\ rows (courses (final (set_course no_faults admin_session eco_request
                                      day1 "2024-03-01T08:00:00" empty_db)))
     = [{| courses_id := 1; course_name := String E_acute "CO" |}]
  /\ select_course_id
       (Text.py_strip (Text.py_lower (course_of eco_request)))
       (final (set_course no_faults admin_session eco_request day1
                          "2024-03-01T08:00:00" empty_db))
     = None
  /\ reply (set_course no_faults admin_session eco_request day1
              "2024-03-01T08:05:00"
              (final (set_course no_faults admin_session eco_request day1
                                 "2024-03-01T08:00:00" empty_db)))
     = (500, Failed "Failed" unique_courses_error).
Proof.
  repeat split; reflexivity.
Qed.

(** ** Scenarios *)

(** No active course: one scan leaves one General row and one message. *)
Example scan_in_general_mode :
  mark_attendance no_faults (Some "S100|Jane Doe") (day1, "09:00:00") empty_db
  = {| reply := (200,
                 Marked [general_recorded]
                        [record_of "S100" "Jane Doe" day1 "09:00:00"
                                   "General"]);
       final :=
         insert_attendance "S100" "Jane Doe" day1 "09:00:00" "General"
                           empty_db;
       events := [new_attendance
                    (record_of "S100" "Jane Doe" day1 "09:00:00"
                               "General")] |}.
Proof. reflexivity. Qed.

(** CS101 active: the first scan inserts two rows, and a later scan of
    the same student written " s100 " inserts none. *)
Example scan_twice_in_course_mode :
  map Store.course
      (rows (attendance
               (final (mark_attendance no_faults (Some "S100|Jane Doe")
                                       (day1, "09:00:00") db_cs101))))
  = [Some "General"; Some "CS101"]
  /\ reply (mark_attendance no_faults (Some " s100 |Jane Doe")
              (day1, "09:05:00")
              (final (mark_attendance no_faults (Some "S100|Jane Doe")
                                      (day1, "09:00:00") db_cs101)))
     = (200, Marked [general_already; course_already "CS101"] []).
Proof. split; reflexivity. Qed.

(** Activating a course that already has a row for the day inserts no
    row, so the row inserted last stays the one [get_course] reports:
    after CS101, MTH201, CS101 the active course is MTH201. *)
Example reactivation_keeps_latest_row :
  map active_course_id (rows (active_course db_switched_back)) = [1; 2]
  /\ reply (get_course no_faults day1 db_switched_back)
     = (200, {| active := true; course := "MTH201"; mode := "course";
                course_id := Some 2 |}).
Proof. split; reflexivity. Qed.

(** ** Keys and sequences *)

Lemma keyed_insert {R : Type} (id : R -> nat) (mk : nat -> R) (t : table R) :
  (forall i, id (mk i) = i) ->
  keyed id t -> keyed id (insert_row mk t).
Proof.
  intros Hmk [Hn Hb]. unfold keyed, insert_row, lastrowid. simpl. split.
  - rewrite map_app. simpl. rewrite Hmk.
    apply NoDup_app; [exact Hn|repeat constructor; simpl; tauto|].
    intros i Hi [<-|[]]. apply in_map_iff in Hi.
    destruct Hi as [r [E Hr]]. specialize (Hb r Hr). lia.
  - intros r Hr. apply in_app_or in Hr. destruct Hr as [Hr|[<-|[]]].
    + specialize (Hb r Hr). lia.
    + rewrite Hmk. lia.
Qed.

Lemma NoDup_map_filter {R A : Type} (g : R -> A) (p : R -> bool)
      (l : list R) :
  NoDup (map g l) -> NoDup (map g (filter p l)).
Proof.
  induction l as [|x l IH]; simpl; auto.
  intro H. inversion H as [|y m Hnin Hnd]; subst.
  destruct (p x); simpl; auto. constructor; auto.
  intro Hin. apply Hnin. apply in_map_iff in Hin.
  destruct Hin as [r [E Hr]]. apply filter_In in Hr.
  apply in_map_iff. exists r. tauto.
Qed.

Lemma keyed_delete {R : Type} (id : R -> nat) (p : R -> bool) (t : table R) :
  keyed id t -> keyed id (delete_where p t).
Proof.
  intros [Hn Hb]. unfold keyed, delete_where. simpl. split.
  - apply NoDup_map_filter, Hn.
  - intros r Hr. apply filter_In in Hr. apply Hb. tauto.
Qed.

Lemma well_formed_empty : well_formed empty_db.
Proof.
  unfold well_formed, keyed. simpl.
  repeat split; try constructor; try contradiction.
Qed.

Lemma well_formed_insert_attendance (sid nm day tm crs : string) (d : db) :
  well_formed d -> well_formed (insert_attendance sid nm day tm crs d).
Proof.
  intros [H1 [H2 [H3 [H4 H5]]]]. unfold well_formed. simpl.
  repeat split; try apply H1; try apply H3; auto.
  - apply (keyed_insert attendance_id); auto.
  - apply (keyed_insert attendance_id); auto.
Qed.

Lemma well_formed_delete_active (day : string) (d : db) :
  well_formed d -> well_formed (delete_active day d).
Proof.
  intros [H1 [H2 [H3 [H4 H5]]]]. unfold well_formed. simpl.
  split; [exact H1|]. split; [exact H2|].
  split; [apply (keyed_delete active_id), H3|]. split; [exact H4|].
  intros a Ha. apply filter_In in Ha. apply H5. tauto.
Qed.

Lemma well_formed_insert_active (cid : nat) (day : string) (d : db) :
  well_formed d ->
  (exists c, In c (rows (courses d)) /\ courses_id c = cid) ->
  well_formed (insert_active cid day d).
Proof.
  intros [H1 [H2 [H3 [H4 H5]]]] Hc. unfold well_formed. simpl.
  split; [exact H1|]. split; [exact H2|].
  split; [apply (keyed_insert active_id); auto|]. split; [exact H4|].
  intros a Ha. apply in_app_or in Ha. destruct Ha as [Ha|[<-|[]]]; auto.
Qed.

Lemma well_formed_insert_course (nm : string) (d d1 : db) (cid : nat) :
  well_formed d ->
  insert_course nm d = inr (cid, d1) ->
  well_formed d1
  /\ In {| courses_id := cid; course_name := nm |} (rows (courses d1)).
Proof.
  intros [H1 [H2 [H3 [H4 H5]]]] Hi. unfold insert_course in Hi.
  destruct (existsb (fun c => String.eqb (course_name c) nm)
                    (rows (courses d))) eqn:X; [discriminate|].
  inversion Hi; subst. clear Hi. unfold well_formed. simpl. split.
  - split; [apply (keyed_insert courses_id); auto|].
    split.
    + rewrite map_app. simpl.
      apply NoDup_app; [exact H2|repeat constructor; simpl; tauto|].
      intros n Hn [<-|[]]. apply in_map_iff in Hn.
      destruct Hn as [c [E Hc]].
      assert (T : existsb (fun c => String.eqb (course_name c) nm)
                          (rows (courses d)) = true).
      { apply existsb_exists. exists c. split; auto.
        apply String.eqb_eq. exact E. }
      congruence.
    + split; [exact H3|]. split; [exact H4|].
      intros a Ha. destruct (H5 a Ha) as [c [Hc E]].
      exists c. split; auto. apply in_or_app. auto.
  - apply in_or_app. right. simpl. auto.
Qed.

(** ** [set_course] under any fault plan *)

Ltac refused :=
  intros ->; left; cbn; (split; [tauto|split; reflexivity]).

Lemma set_course_cases (f : faults) (s : session) (info : course_request)
      (today utcnow : string) (d : db) :
  (In (fst (reply (set_course f s info today utcnow d))) [400; 403; 500]
   /\ final (set_course f s info today utcnow d) = d
   /\ events (set_course f s info today utcnow d) = [])
  \/ (fst (reply (set_course f s info today utcnow d)) = 200
      /\ mode_of info <> "course"
      /\ final (set_course f s info today utcnow d) = delete_active today d)
  \/ (fst (reply (set_course f s info today utcnow d)) = 200
      /\ mode_of info = "course"
      /\ exists cid d1,
          ((select_course_id (course_key info) d = Some cid /\ d1 = d)
           \/ (select_course_id (course_key info) d = None
               /\ insert_course (course_of info) d = inr (cid, d1)))
          /\ final (set_course f s info today utcnow d)
             = if active_exists cid today d1 then d1
               else insert_active cid today d1).
Proof.
  remember (set_course f s info today utcnow d) as r eqn:Hr.
  revert Hr. unfold set_course, set_course_body, course_key.
  destruct (is_admin s); simpl negb; cbv iota; [|refused].
  destruct (String.eqb_spec (mode_of info) "course") as [Hm|Hm].
  - destruct (String.eqb_spec (course_of info) "") as [Hc|Hc]; [refused|].
    unfold serve, activate, publish, bind, query, execute, commit, catch,
      emit, write, ret, connect.
    cbn [view store sent].
    destruct (f SC_select_course) eqn:F1; [refused|].
    destruct (select_course_id
                (Text.py_strip (Text.py_lower (course_of info))) d)
      as [cid|] eqn:S.
    + cbn [view store sent].
      destruct (f SC_select_active) eqn:F2; [refused|].
      destruct (active_exists cid today d) eqn:X; cbn [negb view store sent].
      * destruct (f SC_commit) eqn:F3; [refused|].
        cbn [view store sent].
        destruct (f SC_emit); intros ->; right; right; cbn;
          (split; [reflexivity|]; split; [assumption|];
           exists cid, d; rewrite X; auto).
      * destruct (f SC_insert_active) eqn:F4; [refused|].
        cbn [view store sent].
        destruct (f SC_commit) eqn:F3; [refused|].
        cbn [view store sent].
        destruct (f SC_emit); intros ->; right; right; cbn;
          (split; [reflexivity|]; split; [assumption|];
           exists cid, d; rewrite X; auto).
    + destruct (f SC_insert_course) eqn:F5; [refused|].
      cbn [view store sent].
      destruct (insert_course (course_of info) d) as [e|[cid d1]] eqn:I;
        [refused|].
      cbn [view store sent].
      destruct (f SC_select_active) eqn:F2; [refused|].
      destruct (active_exists cid today d1) eqn:X; cbn [negb view store sent].
      * destruct (f SC_commit) eqn:F3; [refused|].
        cbn [view store sent].
        destruct (f SC_emit); intros ->; right; right; cbn;
          (split; [reflexivity|]; split; [assumption|];
           exists cid, d1; rewrite X; auto).
      * destruct (f SC_insert_active) eqn:F4; [refused|].
        cbn [view store sent].
        destruct (f SC_commit) eqn:F3; [refused|].
        cbn [view store sent].
        destruct (f SC_emit); intros ->; right; right; cbn;
          (split; [reflexivity|]; split; [assumption|];
           exists cid, d1; rewrite X; auto).
  - unfold serve, publish, bind, execute, commit, catch, emit, write, ret,
      connect. cbn [view store sent].
    destruct (f SC_delete_active) eqn:F1; [refused|].
    cbn [view store sent].
    destruct (f SC_commit) eqn:F3; [refused|].
    cbn [view store sent].
    destruct (f SC_emit); intros ->; right; left; cbn; auto.
Qed.

Lemma select_course_id_In (key : string) (d : db) (cid : nat) :
  select_course_id key d = Some cid ->
  exists c, In c (rows (courses d)) /\ courses_id c = cid
            /\ sql_norm (course_name c) = key.
Proof.
  unfold select_course_id. intro H.
  destruct (find (fun c => String.eqb (sql_norm (course_name c)) key)
                 (rows (courses d))) as [c|] eqn:F; [|discriminate].
  inversion H; subst. apply find_some in F. destruct F as [Hin Hk].
  apply String.eqb_eq in Hk. eauto.
Qed.

Lemma set_course_keeps_well_formed (f : faults) (s : session)
      (info : course_request) (today utcnow : string) (d : db) :
  well_formed d -> well_formed (final (set_course f s info today utcnow d)).
Proof.
  intro W.
  destruct (set_course_cases f s info today utcnow d)
    as [[_ [E _]]|[[_ [_ E]]|[_ [_ [cid [d1 [Hd1 E]]]]]]]; rewrite E; auto.
  - apply well_formed_delete_active, W.
  - assert (W1 : well_formed d1
                 /\ exists c, In c (rows (courses d1))
                              /\ courses_id c = cid).
    { destruct Hd1 as [[S ->]|[_ I]].
      - split; auto. destruct (select_course_id_In _ _ _ S) as [c [H1 [H2 _]]].
        eauto.
      - destruct (well_formed_insert_course _ _ _ _ W I) as [W1 Hin].
        split; auto. eexists. split; [exact Hin|reflexivity]. }
    destruct W1 as [W1 Hc].
    destruct (active_exists cid today d1); auto.
    apply well_formed_insert_active; auto.
Qed.

Lemma filter_unique_id (l : list course_row) (c : course_row) :
  NoDup (map courses_id l) ->
  In c l ->
  filter (fun c' => courses_id c' =? courses_id c) l = [c].
Proof.
  induction l as [|x l IH]; simpl; [contradiction|].
  intros N Hin. inversion N as [|y m Hnin Hnd]; subst.
  assert (Z : forall c0, ~ In (courses_id c0) (map courses_id l) ->
                         filter (fun c' => courses_id c' =? courses_id c0) l
                         = []).
  { intros c0 H. clear -H. induction l as [|z l IH]; simpl in *; auto.
    destruct (Nat.eqb_spec (courses_id z) (courses_id c0)) as [E|E].
    - exfalso. apply H. auto.
    - apply IH. tauto. }
  destruct Hin as [->|Hin].
  - rewrite Nat.eqb_refl, (Z c Hnin). reflexivity.
  - destruct (Nat.eqb_spec (courses_id x) (courses_id c)) as [E|E].
    + exfalso. apply Hnin. rewrite E. apply in_map, Hin.
    + apply IH; auto.
Qed.

Lemma well_formed_joins (d : db) (a : active_row) :
  well_formed d ->
  In a (rows (active_course d)) ->
  exists c, In c (rows (courses d))
            /\ course_of_id (active_course_id a) c d.
Proof.
  intros [[N _] [_ [_ [_ R]]]] Ha.
  destruct (R a Ha) as [c [Hc E]]. exists c. split; auto.
  unfold course_of_id. rewrite <- E. apply filter_unique_id; auto.
Qed.

Lemma select_active_some_iff (today : string) (d : db) :
  well_formed d ->
  (select_active today d <> None
   <-> exists a, In a (rows (active_course d)) /\ active_date a = today).
Proof.
  intro W. split.
  - intro H. unfold select_active in H.
    destruct (latest (joined_on today d)) as [[a c]|] eqn:L;
      [|exfalso; apply H; reflexivity].
    apply latest_In in L. unfold joined_on in L.
    apply in_flat_map in L. destruct L as [a' [Ha' L]].
    apply filter_In in Ha'. destruct Ha' as [Ha' Hd].
    apply String.eqb_eq in Hd. eauto.
  - intros [a [Ha Hd]] H. unfold select_active in H.
    destruct (latest (joined_on today d)) as [x|] eqn:L; [discriminate|].
    apply latest_nil in L.
    destruct (well_formed_joins d a W Ha) as [c [Hc J]].
    assert (I : In (a, c) (joined_on today d)).
    { unfold joined_on. apply in_flat_map. exists a. split.
      - apply filter_In. split; auto. apply String.eqb_eq, Hd.
      - unfold course_of_id in J. rewrite J. simpl. auto. }
    rewrite L in I. contradiction.
Qed.

(** ** Properties of [set_course] and [get_course] *)

(** X1: [set_course] is all or nothing.  Its status is 200, 400, 403 or
    500 under every fault plan, and whenever it is not 200 the committed
    database is the one before the call and no event was sent. *)
Theorem set_course_all_or_nothing
        (f : faults) (s : session) (info : course_request)
        (today utcnow : string) (d : db) :
  In (fst (reply (set_course f s info today utcnow d))) [200; 400; 403; 500]
  /\ (fst (reply (set_course f s info today utcnow d)) <> 200 ->
      final (set_course f s info today utcnow d) = d
      /\ events (set_course f s info today utcnow d) = []).
Proof.
  destruct (set_course_cases f s info today utcnow d)
    as [[S [E1 E2]]|[[S _]|[S _]]].
  - split; [simpl in *; tauto|auto].
  - rewrite S. split; [simpl; auto|congruence].
  - rewrite S. split; [simpl; auto|congruence].
Qed.

Lemma set_course_all_or_nothing_witness :
  final (set_course (fun o => match o with
                              | SC_commit => Some "database is locked"
                              | _ => None
                              end)
                    admin_session cs101_request day1 "t1" empty_db)
  = empty_db
  /\ events (set_course (fun o => match o with
                                  | SC_commit => Some "database is locked"
                                  | _ => None
                                  end)
                        admin_session cs101_request day1 "t1" empty_db)
     = [].
Proof.
  apply (set_course_all_or_nothing
           (fun o => match o with
                     | SC_commit => Some "database is locked"
                     | _ => None
                     end)
           admin_session cs101_request day1 "t1" empty_db).
  discriminate.
Defined.

(** X2: [set_course] keeps the store well formed under every fault
    plan: ids stay distinct and below their sequence, course names stay
    distinct, and every [active_course] row still has its course row. *)
Theorem set_course_preserves_well_formed
        (f : faults) (s : session) (info : course_request)
        (today utcnow : string) (d : db) :
  well_formed d -> well_formed (final (set_course f s info today utcnow d)).
Proof. apply set_course_keeps_well_formed. Qed.

Lemma set_course_preserves_well_formed_witness :
  well_formed (final (set_course no_faults admin_session cs101_request
                                 day1 "t1" empty_db)).
Proof.
  apply (set_course_preserves_well_formed
           no_faults admin_session cs101_request day1 "t1" empty_db).
  apply well_formed_empty.
Defined.

(** X3: on a well-formed store, with the query answered, [get_course]
    reports an active session exactly when some [active_course] row has
    the date: the join with [courses] hides no row. *)
Theorem get_course_active_iff_row
        (f : faults) (today : string) (d : db) :
  f GC_select = None ->
  well_formed d ->
  (active (snd (reply (get_course f today d))) = true
   <-> exists a, In a (rows (active_course d)) /\ active_date a = today).
Proof.
  intros Hf W. rewrite (get_course_unfold f today d Hf).
  rewrite <- (select_active_some_iff today d W).
  destruct (select_active today d) as [[i cn]|]; simpl; split; intro H;
    try discriminate; try reflexivity.
  exfalso. apply H. reflexivity.
Qed.

Lemma get_course_active_iff_row_witness :
  well_formed db_cs101
  /\ active (snd (reply (get_course no_faults day1 db_cs101))) = true.
Proof.
  assert (W : well_formed db_cs101)
    by exact (set_course_keeps_well_formed
                no_faults admin_session cs101_request day1 "t1" empty_db
                well_formed_empty).
  split; [exact W|].
  apply (get_course_active_iff_row no_faults day1 db_cs101 eq_refl W).
  exists {| active_id := 1; active_course_id := 1; active_date := day1 |}.
  split; [left; reflexivity|reflexivity].
Defined.

Lemma get_course_no_rows (g : faults) (today : string) (d : db) :
  (forall a, In a (rows (active_course d)) -> active_date a <> today) ->
  reply (get_course g today d) = (200, no_active).
Proof.
  intro H. destruct (g GC_select) as [e|] eqn:G.
  - unfold get_course, serve, bind, query. rewrite G. reflexivity.
  - rewrite (get_course_unfold g today d G),
      (select_active_none today d H). reflexivity.
Qed.

Lemma active_exists_no_rows (cid : nat) (today : string) (d : db) :
  (forall a, In a (rows (active_course d)) -> active_date a <> today) ->
  active_exists cid today d = false.
Proof.
  intro H. unfold active_exists.
  destruct (existsb _ (rows (active_course d))) eqn:X; auto.
  apply existsb_exists in X. destruct X as [a [Ha E]].
  apply andb_true_iff in E. destruct E as [_ E].
  apply String.eqb_eq in E. exfalso. apply (H a Ha E).
Qed.

(** X4: activating a course on a day that has no active row (a fresh
    day, or one cleared by general mode) makes [get_course] report that
    course: the reply carries the id the course was found or created
    under and the stored name, which normalises to the requested one.
    Stated for a well-formed store, no fault, and a course name without
    upper-case letters outside ASCII. *)
Theorem set_course_then_get_course
        (s : session) (info : course_request)
        (today utcnow : string) (d : db) :
  is_admin s = true ->
  mode_of info = "course" ->
  course_of info <> "" ->
  plain_case (course_of info) = true ->
  well_formed d ->
  (forall a, In a (rows (active_course d)) -> active_date a <> today) ->
  exists cid nm,
    reply (get_course no_faults today
                      (final (set_course no_faults s info today utcnow d)))
    = (200, {| active := true; course := nm; mode := "course";
               course_id := Some cid |})
    /\ select_course_id (course_key info)
                        (final (set_course no_faults s info today utcnow d))
       = Some cid
    /\ sql_norm nm = sql_norm (course_of info).
Proof.
  intros Ha Hm Hc P W Hno.
  assert (K : sql_norm (course_of info)
              = Text.py_strip (Text.py_lower (course_of info)))
    by (apply plain_case_key, P).
  destruct (set_course_activates s info today utcnow d Ha Hm Hc K)
    as [cid [_ [S1 [_ [A1 _]]]]].
  pose proof (set_course_keeps_well_formed no_faults s info today utcnow d W)
    as W'.
  set (d' := final (set_course no_faults s info today utcnow d)) in *.
  rewrite (active_exists_no_rows cid today d Hno) in A1.
  destruct (select_course_id_In _ _ _ S1) as [c [Hin [Hid Hk]]].
  exists cid, (course_name c).
  split; [|split; [exact S1|rewrite Hk, K; reflexivity]].
  rewrite (get_course_unfold no_faults today d' eq_refl).
  set (a := {| active_id := S (seq (active_course d));
               active_course_id := cid; active_date := today |}).
  rewrite (select_active_latest today d' a c); [reflexivity| | | |].
  - rewrite A1, insert_active_rows. apply in_or_app. right. simpl. auto.
  - reflexivity.
  - intros a' Ha' Hd. rewrite A1, insert_active_rows in Ha'.
    apply in_app_or in Ha'. destruct Ha' as [Ha'|[<-|[]]]; auto.
    exfalso. apply (Hno a' Ha' Hd).
  - unfold course_of_id. simpl. rewrite <- Hid.
    apply filter_unique_id; auto. apply W'.
Qed.

Lemma set_course_then_get_course_witness :
  exists cid nm,
    reply (get_course no_faults day1
                      (final (set_course no_faults admin_session
                                         cs101_request day1 "t1" empty_db)))
    = (200, {| active := true; course := nm; mode := "course";
               course_id := Some cid |})
    /\ select_course_id (course_key cs101_request)
                        (final (set_course no_faults admin_session
                                           cs101_request day1 "t1" empty_db))
       = Some cid
    /\ sql_norm nm = sql_norm (course_of cs101_request).
Proof.
  apply (set_course_then_get_course admin_session cs101_request day1 "t1"
                                    empty_db);
    try reflexivity.
  - discriminate.
  - apply well_formed_empty.
  - intros a [].
Defined.

(** X5: after a request that [set_course] runs as general mode and that
    succeeds, [get_course] reports no active session for that day,
    whatever was active before and whether or not its own query
    fails. *)
Theorem set_course_general_then_get_course
        (f g : faults) (s : session) (info : course_request)
        (today utcnow : string) (d : db) :
  is_admin s = true ->
  mode_of info <> "course" ->
  fst (reply (set_course f s info today utcnow d)) = 200 ->
  reply (get_course g today (final (set_course f s info today utcnow d)))
  = (200, no_active).
Proof.
  intros Ha Hm Hs.
  destruct (set_course_cases f s info today utcnow d)
    as [[S _]|[[_ [_ E]]|[_ [Hm' _]]]].
  - rewrite Hs in S. simpl in S. exfalso.
    destruct S as [S|[S|[S|[]]]]; discriminate.
  - rewrite E. apply get_course_no_rows.
    intros a Hin. apply (delete_active_clears today d a Hin).
  - contradiction.
Qed.

Lemma set_course_general_then_get_course_witness :
  reply (get_course no_faults day1
                    (final (set_course no_faults admin_session
                                       {| req_course := None;
                                          req_mode := Some "general" |}
                                       day1 "t1" db_cs101)))
  = (200, no_active).
Proof.
  apply (set_course_general_then_get_course
           no_faults no_faults admin_session
           {| req_course := None; req_mode := Some "general" |}
           day1 "t1" db_cs101);
    [reflexivity|discriminate|reflexivity].
Defined.

(** ** What [mark_attendance] keeps *)

Lemma scan_outcome_final (f : faults) (sid nm day tm : string) (d : db)
      (r : nat * mark_body) (d' : db) :
  scan_outcome f sid nm day tm d r d' ->
  exists d1,
    (d1 = d
     \/ (attendance_exists day (norm_id (Some sid)) "general" d = false
         /\ d1 = insert_attendance sid nm day tm "General" d))
    /\ (d' = d1
        \/ exists cid cn,
            select_active day d = Some (cid, cn)
            /\ attendance_exists day (norm_id (Some sid)) (Text.py_lower cn) d1
               = false
            /\ d' = insert_attendance sid nm day tm cn d1).
Proof.
  intro O.
  assert (G1 : forall o d1,
             general_outcome f sid nm day tm d o d1 ->
             d1 = d
             \/ (attendance_exists day (norm_id (Some sid)) "general" d = false
                 /\ d1 = insert_attendance sid nm day tm "General" d))
    by (intros o d1 G; inversion G; subst; auto).
  assert (C1 : forall cn msgs recs d1 o d2,
             course_outcome f sid nm day tm cn msgs recs d1 o d2 ->
             d2 = d1
             \/ (attendance_exists day (norm_id (Some sid)) (Text.py_lower cn)
                                   d1 = false
                 /\ d2 = insert_attendance sid nm day tm cn d1))
    by (intros cn msgs recs d1 o d2 C; inversion C; subst; auto).
  inversion O as [e F0 | e F0 G | msgs recs d1 F0 A G
                  | cid cn msgs recs d1 e F0 A G C
                  | cid cn msgs recs d1 msgs' recs' d2 F0 A G C]; subst.
  - eexists. split; left; reflexivity.
  - eexists. split; left; reflexivity.
  - eexists. split; [eapply G1; eauto|left; reflexivity].
  - eexists. split; [eapply G1; eauto|left; reflexivity].
  - exists d1. split; [eapply G1; eauto|].
    destruct (C1 _ _ _ _ _ _ C) as [E|[X E]]; auto.
    right. exists cid, cn. auto.
Qed.

Lemma mark_attendance_final (f : faults) (data : option string)
      (now : string * string) (d : db) :
  exists d1,
    (d1 = d
     \/ (attendance_exists (fst now) (norm_id (Some (scanned_id data)))
                           "general" d = false
         /\ d1 = insert_attendance (scanned_id data) (scanned_name data)
                                   (fst now) (snd now) "General" d))
    /\ (final (mark_attendance f data now d) = d1
        \/ exists cid cn,
            select_active (fst now) d = Some (cid, cn)
            /\ attendance_exists (fst now) (norm_id (Some (scanned_id data)))
                                 (Text.py_lower cn) d1 = false
            /\ final (mark_attendance f data now d)
               = insert_attendance (scanned_id data) (scanned_name data)
                                   (fst now) (snd now) cn d1).
Proof.
  destruct (Text.has_bar (Text.py_strip (Text.or_default data ""))) eqn:B.
  - apply (scan_outcome_final f _ _ _ _ d
             (reply (mark_attendance f data now d))).
    apply mark_attendance_outcome, B.
  - exists d. split; auto. left. unfold mark_attendance. rewrite B. simpl.
    destruct (f MA_emit_update); reflexivity.
Qed.

Lemma not_exists_no_match (day k c : string) (d : db) :
  attendance_exists day k c d = false ->
  filter (matches day k c) (rows (attendance d)) = [].
Proof.
  unfold attendance_exists.
  induction (rows (attendance d)) as [|x l IH]; simpl; auto.
  intro H. apply orb_false_iff in H. destruct H as [H1 H2].
  rewrite H1. auto.
Qed.

Lemma plain_text_stripped (s : string) :
  plain_text s = true -> Text.py_strip s = s /\ plain_case s = true.
Proof.
  unfold plain_text. intro H. apply andb_true_iff in H.
  destruct H as [H1 H2]. apply String.eqb_eq in H1. auto.
Qed.

Lemma plain_text_norm (s : string) :
  plain_text s = true -> sql_norm s = norm_id (Some s).
Proof.
  intro H. destruct (plain_text_stripped s H) as [E P].
  rewrite <- E. apply plain_case_norm. rewrite E. exact P.
Qed.

(** On a plain row the [WHERE] clause of the existence checks tests the
    key of the row. *)
Lemma matches_has_key (day k c : string) (r : attendance_row) :
  plain_text (student_id r) = true ->
  (exists c0, Store.course r = Some c0 /\ plain_text c0 = true) ->
  matches day k c r = has_key day k c r.
Proof.
  intros Hs [c0 [Ec Hc]]. unfold matches, has_key.
  rewrite Ec. cbn [sql_norm_null option_map null_eqb].
  rewrite (plain_text_norm _ Hs), (plain_text_norm _ Hc). reflexivity.
Qed.

Lemma ledger_unique_insert (sid nm day tm crs : string) (d : db) :
  ledger_plain d ->
  ledger_unique d ->
  attendance_exists day (norm_id (Some sid)) (norm_id (Some crs)) d = false ->
  ledger_unique (insert_attendance sid nm day tm crs d).
Proof.
  intros P U X day' k c. rewrite insert_attendance_rows, filter_app, length_app.
  cbn [filter].
  destruct (has_key day' k c _) eqn:M; cbn [List.length];
    [|specialize (U day' k c); lia].
  unfold has_key in M. cbn [date student_id Store.course] in M.
  apply andb_true_iff in M. destruct M as [M M3].
  apply andb_true_iff in M. destruct M as [M1 M2].
  apply String.eqb_eq in M1, M2, M3. subst day' k c.
  rewrite <- (filter_ext_in (matches day (norm_id (Some sid))
                                     (norm_id (Some crs)))).
  - rewrite (not_exists_no_match _ _ _ _ X). simpl. lia.
  - intros r Hr. destruct (P r Hr) as [Hs Hc].
    apply matches_has_key; assumption.
Qed.

Lemma ledger_plain_insert (sid nm day tm crs : string) (d : db) :
  ledger_plain d ->
  plain_text sid = true ->
  plain_text crs = true ->
  ledger_plain (insert_attendance sid nm day tm crs d).
Proof.
  intros P Hs Hc r Hr. rewrite insert_attendance_rows in Hr.
  apply in_app_or in Hr. destruct Hr as [Hr|[<-|[]]]; [apply P, Hr|].
  split; [exact Hs|]. exists crs. split; [reflexivity|exact Hc].
Qed.

(** X6: [mark_attendance] writes to the ledger only.  Under every fault
    plan and for every payload it leaves [courses] and [active_course]
    as they were, and a well-formed store stays well formed (the rows it
    adds get fresh ids). *)
Theorem mark_attendance_touches_ledger_only
        (f : faults) (data : option string) (now : string * string) (d : db) :
  courses (final (mark_attendance f data now d)) = courses d
  /\ active_course (final (mark_attendance f data now d)) = active_course d
  /\ (well_formed d -> well_formed (final (mark_attendance f data now d))).
Proof.
  destruct (mark_attendance_final f data now d) as [d1 [H1 H2]].
  assert (E1 : courses d1 = courses d /\ active_course d1 = active_course d
               /\ (well_formed d -> well_formed d1)).
  { destruct H1 as [->|[_ ->]].
    - split; [reflexivity|]. split; [reflexivity|auto].
    - split; [reflexivity|]. split; [reflexivity|].
      apply well_formed_insert_attendance. }
  destruct E1 as [Ec [Ea Ew]].
  destruct H2 as [->|[cid [cn [_ [_ ->]]]]].
  - split; [exact Ec|]. split; [exact Ea|exact Ew].
  - split; [exact Ec|]. split; [exact Ea|].
    intro W. apply well_formed_insert_attendance. auto.
Qed.

Lemma mark_attendance_touches_ledger_only_witness :
  well_formed (final (mark_attendance no_faults (Some "S100|Jane Doe")
                                      (day1, "09:00:00") empty_db)).
Proof.
  apply (mark_attendance_touches_ledger_only
           no_faults (Some "S100|Jane Doe") (day1, "09:00:00") empty_db).
  apply well_formed_empty.
Defined.

(** X7: [mark_attendance] keeps the ledger free of duplicates: if no
    date, student id normalised by [norm_id] and course normalised by
    [norm_id] has more than one row before the call, none has after it,
    under every fault plan.  Stated for a ledger, a scanned id and an
    active course name that are plain (stripped, without upper-case
    letters outside ASCII), where the normalisation of SQLite agrees
    with [norm_id]; the ledger stays plain as well, so the property
    carries over from scan to scan. *)
Theorem mark_attendance_preserves_uniqueness
        (f : faults) (data : option string) (now : string * string) (d : db) :
  plain_case (scanned_id data) = true ->
  (forall cid cn, select_active (fst now) d = Some (cid, cn) ->
                  plain_text cn = true) ->
  ledger_plain d ->
  ledger_unique d ->
  ledger_unique (final (mark_attendance f data now d))
  /\ ledger_plain (final (mark_attendance f data now d)).
Proof.
  intros Hs Hc P U.
  assert (Ps : plain_text (scanned_id data) = true).
  { unfold plain_text. rewrite Hs. unfold scanned_id at 1 2.
    rewrite py_strip_idem, String.eqb_refl. reflexivity. }
  destruct (mark_attendance_final f data now d) as [d1 [H1 H2]].
  assert (U1 : ledger_unique d1 /\ ledger_plain d1).
  { destruct H1 as [->|[X ->]]; [auto|]. split.
    - apply ledger_unique_insert; auto.
    - apply ledger_plain_insert; auto. }
  destruct U1 as [U1 P1].
  destruct H2 as [->|[cid [cn [A [X ->]]]]]; [auto|].
  pose proof (Hc cid cn A) as Pc.
  destruct (plain_text_stripped cn Pc) as [Ec _].
  split.
  - apply ledger_unique_insert; auto.
    unfold norm_id at 2. rewrite Ec. exact X.
  - apply ledger_plain_insert; auto.
Qed.

Lemma mark_attendance_preserves_uniqueness_witness :
  ledger_unique
    (final (mark_attendance no_faults (Some "s100|Jane Doe")
                            (day1, "10:00:00") db_scanned))
  /\ ledger_plain
       (final (mark_attendance no_faults (Some "s100|Jane Doe")
                               (day1, "10:00:00") db_scanned)).
Proof.
  assert (A : forall d cid cn,
             courses d = courses db_cs101 ->
             active_course d = active_course db_cs101 ->
             select_active (fst (day1, "10:00:00")) d = Some (cid, cn) ->
             plain_text cn = true).
  { intros d cid cn Ec Ea. unfold select_active, joined_on.
    rewrite Ec, Ea. intro H. vm_compute in H. inversion H. reflexivity. }
  apply (mark_attendance_preserves_uniqueness
           no_faults (Some "s100|Jane Doe") (day1, "10:00:00") db_scanned).
  - reflexivity.
  - intros cid cn. apply A; reflexivity.
  - apply (mark_attendance_preserves_uniqueness
             no_faults (Some "S100|Jane Doe") (day1, "09:00:00") db_cs101).
    + reflexivity.
    + intros cid cn. apply A; reflexivity.
    + intros r [].
    + intros day k c. simpl. lia.
  - apply (mark_attendance_preserves_uniqueness
             no_faults (Some "S100|Jane Doe") (day1, "09:00:00") db_cs101).
    + reflexivity.
    + intros cid cn. apply A; reflexivity.
    + intros r [].
    + intros day k c. simpl. lia.
Defined.

(** ** Events of a scan *)

Lemma mark_valid_events (sid nm day tm : string) (d : db) :
  exists msgs recs,
    reply (serve (mark_valid no_faults sid nm day tm) mark_failed d)
    = (200, Marked msgs recs)
    /\ events (serve (mark_valid no_faults sid nm day tm) mark_failed d)
       = map new_attendance recs
         ++ match select_active day d with
            | Some (_, cn) =>
                [attendance_count cn
                   (count_students day (Text.py_lower cn)
                      (final (serve (mark_valid no_faults sid nm day tm)
                                    mark_failed d)))
                   day]
            | None => []
            end.
Proof.
  remember (norm_id (Some sid)) as k eqn:Hk.
  remember (serve (mark_valid no_faults sid nm day tm) mark_failed d)
    as r eqn:Hr.
  revert Hr.
  unfold serve, mark_valid, general_check, course_check, notify, bind, catch,
    query, execute, commit, write, ret, connect, no_faults.
  cbn [view store sent]. rewrite <- Hk.
  destruct (select_active day d) as [[cid cn]|] eqn:A;
    destruct (attendance_exists day k "general" d) eqn:G;
    cbn [negb view store sent fst snd emit_new].
  all: try (destruct (attendance_exists day k (Text.py_lower cn) _) eqn:C;
            cbn [negb view store sent fst snd emit_new app]).
  all: unfold bind, emit, ret, query; cbn [view store sent fst snd app].
  all: intros ->; eexists _, _; split; reflexivity.
Qed.

Lemma mark_attendance_succeeds (data : option string)
      (now : string * string) (d : db) :
  Text.has_bar (Text.or_default data "") = true ->
  exists msgs recs,
    reply (mark_attendance no_faults data now d) = (200, Marked msgs recs).
Proof.
  intro H. unfold mark_attendance.
  rewrite (py_strip_keeps_bar _ H). simpl negb. cbv iota.
  destruct (mark_valid_events (scanned_id data) (scanned_name data)
                              (fst now) (snd now) d)
    as [msgs [recs [E _]]].
  exists msgs, recs. exact E.
Qed.

(** X8: a scan that meets no fault succeeds and sends one
    [new_attendance] event for every record it reports as inserted, in
    the same order, followed in course mode by one [attendance_count]
    event that carries the number of distinct student ids the final
    ledger holds for the day and the course; nothing else is sent. *)
Theorem mark_attendance_events
        (data : option string) (now : string * string) (d : db) :
  Text.has_bar (Text.or_default data "") = true ->
  exists msgs recs,
    reply (mark_attendance no_faults data now d) = (200, Marked msgs recs)
    /\ events (mark_attendance no_faults data now d)
       = map new_attendance recs
         ++ match select_active (fst now) d with
            | Some (_, cn) =>
                [attendance_count cn
                   (count_students (fst now) (Text.py_lower cn)
                      (final (mark_attendance no_faults data now d)))
                   (fst now)]
            | None => []
            end.
Proof.
  intro H. unfold mark_attendance.
  rewrite (py_strip_keeps_bar _ H). simpl negb. cbv iota.
  apply mark_valid_events.
Qed.

Lemma mark_attendance_events_witness :
  exists msgs recs,
    reply (mark_attendance no_faults (Some "S100|Jane Doe")
                           (day1, "09:00:00") db_cs101)
    = (200, Marked msgs recs)
    /\ events (mark_attendance no_faults (Some "S100|Jane Doe")
                               (day1, "09:00:00") db_cs101)
       = map new_attendance recs
         ++ match select_active (fst (day1, "09:00:00")) db_cs101 with
            | Some (_, cn) =>
                [attendance_count cn
                   (count_students (fst (day1, "09:00:00"))
                      (Text.py_lower cn)
                      (final (mark_attendance no_faults
                                (Some "S100|Jane Doe")
                                (day1, "09:00:00") db_cs101)))
                   (fst (day1, "09:00:00"))]
            | None => []
            end.
Proof.
  apply (mark_attendance_events (Some "S100|Jane Doe") (day1, "09:00:00")
                                db_cs101).
  reflexivity.
Defined.

Import Ledger.

(** ** Clearing the session and the ledger *)

Ltac declined :=
  intros ->; left; cbn; (split; [tauto|split; reflexivity]).

Lemma clear_course_cases (p : plan) (s : session) (today utcnow : string)
      (d : db) :
  (In (fst (reply (clear_course p s today utcnow d))) [403; 500]
   /\ final (clear_course p s today utcnow d) = d
   /\ events (clear_course p s today utcnow d) = [])
  \/ (fst (reply (clear_course p s today utcnow d)) = 200
      /\ final (clear_course p s today utcnow d) = delete_active today d
      /\ events (clear_course p s today utcnow d)
         = match p CC_emit with
           | Some _ => []
           | None => [course_changed "" "general" utcnow]
           end).
Proof.
  remember (clear_course p s today utcnow d) as r eqn:Hr. revert Hr.
  unfold clear_course.
  destruct (is_admin s); simpl negb; cbv iota; [|declined].
  unfold serve, bind, catch, run_write, run_commit, run_emit, guarded, ret,
    connect.
  destruct (p CC_delete); [declined|]. cbn [view store sent].
  destruct (p CC_commit); [declined|]. cbn [view store sent].
  destruct (p CC_emit); intros ->; right; cbn; auto.
Qed.

(** X9: [clear_course] is all or nothing.  Its status is 200, 403 or
    500; when it is not 200 nothing changed and nothing was sent; when
    it is 200 exactly the [active_course] rows of the day are gone, and
    [get_course] then reports no active session for the day. *)
Theorem clear_course_clears_the_day
        (p : plan) (s : session) (today utcnow : string) (d : db) :
  In (fst (reply (clear_course p s today utcnow d))) [200; 403; 500]
  /\ (fst (reply (clear_course p s today utcnow d)) <> 200 ->
      final (clear_course p s today utcnow d) = d
      /\ events (clear_course p s today utcnow d) = [])
  /\ (fst (reply (clear_course p s today utcnow d)) = 200 ->
      final (clear_course p s today utcnow d) = delete_active today d
      /\ forall g,
          reply (get_course g today (final (clear_course p s today utcnow d)))
          = (200, no_active)).
Proof.
  destruct (clear_course_cases p s today utcnow d)
    as [[S [E1 E2]]|[S [E1 E2]]].
  - split; [simpl in *; tauto|]. split; [auto|].
    intro H. rewrite H in S. simpl in S.
    destruct S as [S|[S|[]]]; discriminate.
  - rewrite S, E1. split; [simpl; auto|]. split; [congruence|].
    intros _. split; [reflexivity|].
    intro g. apply get_course_no_rows.
    intros a Hin. apply (delete_active_clears today d a Hin).
Qed.

Lemma clear_course_clears_the_day_witness :
  final (clear_course no_plan admin_session day1 "t1" db_cs101)
  = delete_active day1 db_cs101
  /\ forall g,
      reply (get_course g day1
               (final (clear_course no_plan admin_session day1 "t1"
                                    db_cs101)))
      = (200, no_active).
Proof.
  apply (clear_course_clears_the_day no_plan admin_session day1 "t1"
                                     db_cs101).
  reflexivity.
Defined.

(** X10: [clear_course] does what [set_course] does for the mode
    "general".  When the delete, the commit and the emit of the two
    handlers fail alike, both leave the same database, send the same
    events and answer with the same status, for every session. *)
Theorem clear_course_is_general_mode
        (p : plan) (f : faults) (s : session) (info : course_request)
        (today utcnow : string) (d : db) :
  mode_of info = "general" ->
  f SC_delete_active = p CC_delete ->
  f SC_commit = p CC_commit ->
  f SC_emit = p CC_emit ->
  final (clear_course p s today utcnow d)
  = final (set_course f s info today utcnow d)
  /\ events (clear_course p s today utcnow d)
     = events (set_course f s info today utcnow d)
  /\ fst (reply (clear_course p s today utcnow d))
     = fst (reply (set_course f s info today utcnow d)).
Proof.
  intros Hm F1 F2 F3.
  unfold clear_course, set_course, set_course_body. rewrite Hm.
  destruct (is_admin s); simpl negb; cbv iota; [|auto].
  change (String.eqb "general" "course") with false. cbv iota.
  unfold serve, publish, bind, catch, execute, commit, emit, write,
    run_write, run_commit, run_emit, guarded, ret, connect.
  rewrite F1, F2, F3.
  destruct (p CC_delete); [auto|]. cbn [view store sent].
  destruct (p CC_commit); [auto|]. cbn [view store sent].
  destruct (p CC_emit); cbn; auto.
Qed.

Lemma clear_course_is_general_mode_witness :
  final (clear_course no_plan admin_session day1 "t1" db_cs101)
  = final (set_course no_faults admin_session
                      {| req_course := Some "CS101";
                         req_mode := Some "general" |}
                      day1 "t1" db_cs101).
Proof.
  apply (clear_course_is_general_mode
           no_plan no_faults admin_session
           {| req_course := Some "CS101"; req_mode := Some "general" |}
           day1 "t1" db_cs101);
    reflexivity.
Defined.

Lemma delete_all_rows (d : db) :
  rows (attendance (delete_all_attendance d)) = [].
Proof.
  simpl. induction (rows (attendance d)) as [|r l IH]; simpl; auto.
Qed.

Lemma delete_history_cases (p : plan) (s : session) (d : db) :
  (In (fst (reply (delete_history p s d))) [403; 500]
   /\ final (delete_history p s d) = d)
  \/ (fst (reply (delete_history p s d)) = 200
      /\ final (delete_history p s d) = delete_all_attendance d).
Proof.
  remember (delete_history p s d) as r eqn:Hr. revert Hr.
  unfold delete_history.
  destruct (is_admin s); simpl negb; cbv iota;
    [|intros ->; left; cbn; split; [tauto|reflexivity]].
  unfold serve, bind, run_write, run_commit, guarded, ret, connect.
  destruct (p DH_delete);
    [intros ->; left; cbn; split; [tauto|reflexivity]|].
  cbn [view store sent].
  destruct (p DH_commit);
    [intros ->; left; cbn; split; [tauto|reflexivity]|].
  intros ->. right. cbn. auto.
Qed.

(** X11: [delete_history] is all or nothing, and a purge lets everyone
    be marked again.  When its status is not 200 the database is
    unchanged; when it is 200 the ledger is empty while [courses],
    [active_course] and the id sequence of the ledger are as before, and
    the next scan that meets no fault reports the general attendance as
    recorded and inserts at least one row. *)
Theorem delete_history_purges
        (p : plan) (s : session) (d : db) :
  (fst (reply (delete_history p s d)) <> 200 ->
   final (delete_history p s d) = d)
  /\ (fst (reply (delete_history p s d)) = 200 ->
      rows (attendance (final (delete_history p s d))) = []
      /\ seq (attendance (final (delete_history p s d))) = seq (attendance d)
      /\ courses (final (delete_history p s d)) = courses d
      /\ active_course (final (delete_history p s d)) = active_course d
      /\ forall data now,
          Text.has_bar (Text.or_default data "") = true ->
          exists cmsgs rec recs,
            reply (mark_attendance no_faults data now
                                   (final (delete_history p s d)))
            = (200, Marked (general_recorded :: cmsgs) (rec :: recs))).
Proof.
  destruct (delete_history_cases p s d) as [[S E]|[S E]].
  - split; [auto|]. intro H. rewrite H in S. simpl in S.
    destruct S as [S|[S|[]]]; discriminate.
  - rewrite S, E. split; [congruence|]. intros _.
    split; [apply delete_all_rows|]. split; [reflexivity|].
    split; [reflexivity|]. split; [reflexivity|].
    intros data now H.
    pose proof (mark_attendance_outcome no_faults data now
                  (delete_all_attendance d) (py_strip_keeps_bar _ H)) as O.
    destruct (scan_outcome_shape _ _ _ _ _ _ _ _ O)
      as [gs [cs [_ [_ [_ [_ [_ R]]]]]]].
    destruct (mark_attendance_succeeds data now (delete_all_attendance d) H)
      as [msgs [recs Er]].
    rewrite Er in *. destruct (R eq_refl) as [gmsg [cmsgs [Eb [G _]]]].
    simpl in Eb. inversion Eb; subst.
    destruct G as [[X _]|[_ [-> L]]].
    { unfold attendance_exists in X. rewrite delete_all_rows in X.
      discriminate X. }
    destruct gs as [|g gs]; [simpl in L; lia|].
    simpl. eauto.
Qed.

Lemma delete_history_purges_witness :
  List.length (rows (attendance db_two_students)) = 4
  /\ rows (attendance
             (final (delete_history no_plan admin_session db_two_students)))
     = []
  /\ exists cmsgs rec recs,
      reply (mark_attendance no_faults (Some "S100|Jane Doe")
               (day1, "10:00:00")
               (final (delete_history no_plan admin_session db_two_students)))
      = (200, Marked (general_recorded :: cmsgs) (rec :: recs)).
Proof.
  split; [reflexivity|].
  destruct (delete_history_purges no_plan admin_session db_two_students)
    as [_ K].
  destruct (K eq_refl) as [K1 [_ [_ [_ K5]]]].
  split; [exact K1|].
  apply (K5 (Some "S100|Jane Doe") (day1, "10:00:00")). reflexivity.
Defined.

(** ** Deleting one record *)

Lemma delete_record_cases (p : plan) (q : delete_request) (d : db) :
  (reply (delete_record p q d) = (200, Some false)
   /\ final (delete_record p q d) = d)
  \/ (reply (delete_record p q d) = (200, Some true)
      /\ final (delete_record p q d) = delete_matching q d).
Proof.
  remember (delete_record p q d) as r eqn:Hr. revert Hr.
  unfold delete_record, serve, guarded, bind, run_write, run_commit, guarded,
    ret, connect.
  destruct (p DR_connect); [intros ->; left; cbn; auto|].
  destruct (p DR_delete); [intros ->; left; cbn; auto|].
  cbn [view store sent].
  destruct (p DR_commit); intros ->; [left|right]; cbn; auto.
Qed.

Lemma record_matches_iff (q : delete_request) (r : attendance_row) :
  record_matches q r = true
  <-> del_ID q = Some (student_id r)
      /\ del_Date q = Some (date r)
      /\ del_Time q = Some (time r).
Proof.
  unfold record_matches, sql_eq.
  destruct (del_ID q) as [i|], (del_Date q) as [dt|], (del_Time q) as [t|];
    simpl; rewrite ?andb_false_r;
    try (split; [discriminate|intros [? [? ?]]; discriminate]).
  rewrite !andb_true_iff, !String.eqb_eq.
  split.
  - intros [[-> ->] ->]. auto.
  - intros [H1 [H2 H3]]. inversion H1; inversion H2; inversion H3. auto.
Qed.

(** X12: [delete_record] with a JSON body always answers with status
    200 and a success flag.  When the flag is false the database is
    unchanged.  When it is true, the rows that are gone are exactly
    those whose student id, date and time equal the three values of the
    body character for character, whatever their course; every other
    row stays, [courses] and [active_course] are untouched, and a body
    that lacks one of the keys deletes nothing. *)
Theorem delete_record_exact_match
        (p : plan) (q : delete_request) (d : db) :
  fst (reply (delete_record p q d)) = 200
  /\ (snd (reply (delete_record p q d)) = Some false
      \/ snd (reply (delete_record p q d)) = Some true)
  /\ (snd (reply (delete_record p q d)) = Some false ->
      final (delete_record p q d) = d)
  /\ (snd (reply (delete_record p q d)) = Some true ->
      courses (final (delete_record p q d)) = courses d
      /\ active_course (final (delete_record p q d))
         = active_course d
      /\ (forall r,
             In r (rows (attendance (final (delete_record p q d))))
             <-> In r (rows (attendance d))
                 /\ ~ (del_ID q = Some (student_id r)
                       /\ del_Date q = Some (date r)
                       /\ del_Time q = Some (time r)))).
Proof.
  destruct (delete_record_cases p q d) as [[R E]|[R E]]; rewrite R, E; simpl.
  - split; [reflexivity|]. split; [auto|]. split; [auto|discriminate].
  - split; [reflexivity|]. split; [auto|]. split; [discriminate|].
    intros _. split; [reflexivity|]. split; [reflexivity|].
    intro r. rewrite filter_In, <- record_matches_iff.
    destruct (record_matches q r); simpl; split; intros [H1 H2]; split;
      auto; try discriminate.
    all: exfalso; apply H2; reflexivity.
Qed.

Lemma delete_record_exact_match_witness :
  snd (reply (delete_record no_plan
                {| del_ID := Some "S100"; del_Date := Some day1;
                   del_Time := Some "09:00:00" |}
                db_two_students))
  = Some true
  /\ In {| attendance_id := 3; student_id := "S200"; name := "John Roe";
           date := day1; time := "09:05:00";
           Store.course := Some "General" |}
        (rows (attendance
                 (final (delete_record no_plan
                           {| del_ID := Some "S100"; del_Date := Some day1;
                              del_Time := Some "09:00:00" |}
                           db_two_students))))
  /\ ~ In {| attendance_id := 2; student_id := "S100"; name := "Jane Doe";
             date := day1; time := "09:00:00";
             Store.course := Some "CS101" |}
          (rows (attendance
                   (final (delete_record no_plan
                             {| del_ID := Some "S100"; del_Date := Some day1;
                                del_Time := Some "09:00:00" |}
                             db_two_students)))).
Proof.
  destruct (delete_record_exact_match
              no_plan
              {| del_ID := Some "S100"; del_Date := Some day1;
                 del_Time := Some "09:00:00" |}
              db_two_students) as [_ [_ [_ K]]].
  destruct (K eq_refl) as [_ [_ K3]].
  split; [reflexivity|]. split.
  - apply K3. split.
    + right. right. left. reflexivity.
    + intros [H _]. discriminate H.
  - intro H. apply K3 in H. destruct H as [_ N].
    apply N. repeat split.
Defined.

Lemma filter_keeps_all {A : Type} (f : A -> bool) (l : list A) :
  (forall x, In x l -> f x = true) -> filter f l = l.
Proof.
  induction l as [|x l IH]; simpl; auto.
  intro H. rewrite (H x (or_introl eq_refl)), IH; auto.
Qed.

Lemma filter_drops_all {A : Type} (f : A -> bool) (l : list A) :
  (forall x, In x l -> f x = false) -> filter f l = [].
Proof.
  induction l as [|x l IH]; simpl; auto.
  intro H. rewrite (H x (or_introl eq_refl)), IH; auto.
Qed.

(** X13: deleting what a scan just wrote brings the ledger back.  If no
    row of the ledger has the scanned student id together with the date
    and time of the scan, then after the scan (under any fault plan) a
    [delete_record] that succeeds with the id, date and time of the scan
    leaves the rows the ledger had before the scan: the General row and
    the course row of the scan go together. *)
Theorem delete_record_undoes_scan
        (f : faults) (data : option string) (now : string * string) (d : db) :
  Text.has_bar (Text.or_default data "") = true ->
  (forall r, In r (rows (attendance d)) ->
             ~ (student_id r = scanned_id data
                /\ date r = fst now /\ time r = snd now)) ->
  rows (attendance
          (final (delete_record no_plan
                    {| del_ID := Some (scanned_id data);
                       del_Date := Some (fst now);
                       del_Time := Some (snd now) |}
                    (final (mark_attendance f data now d)))))
  = rows (attendance d).
Proof.
  intros H Hfresh.
  pose proof (mark_attendance_outcome f data now d (py_strip_keeps_bar _ H))
    as O.
  destruct (scan_outcome_shape _ _ _ _ _ _ _ _ O)
    as [gs [cs [E [_ [_ [Hg [Hc _]]]]]]].
  set (q := {| del_ID := Some (scanned_id data); del_Date := Some (fst now);
               del_Time := Some (snd now) |}).
  change (rows (attendance (final (delete_record no_plan q
                                     (final (mark_attendance f data now d))))))
    with (filter (fun r => negb (record_matches q r))
                 (rows (attendance (final (mark_attendance f data now d))))).
  rewrite E, !filter_app.
  rewrite (filter_keeps_all _ (rows (attendance d))),
    (filter_drops_all _ gs), (filter_drops_all _ cs).
  - rewrite !app_nil_r. reflexivity.
  - intros r Hr. destruct (Hc r Hr) as [cid [cn [_ [R1 [_ [R3 [R4 _]]]]]]].
    apply negb_false_iff, record_matches_iff. simpl.
    rewrite R1, R3, R4. auto.
  - intros r Hr. destruct (Hg r Hr) as [R1 [_ [R3 [R4 _]]]].
    apply negb_false_iff, record_matches_iff. simpl.
    rewrite R1, R3, R4. auto.
  - intros r Hr. apply negb_true_iff.
    destruct (record_matches q r) eqn:M; auto.
    apply record_matches_iff in M. simpl in M. destruct M as [M1 [M2 M3]].
    inversion M1. inversion M2. inversion M3.
    exfalso. apply (Hfresh r Hr). auto.
Qed.

Lemma delete_record_undoes_scan_witness :
  rows (attendance
          (final (delete_record no_plan
                    {| del_ID := Some (scanned_id (Some "S100|Jane Doe"));
                       del_Date := Some (fst (day1, "09:00:00"));
                       del_Time := Some (snd (day1, "09:00:00")) |}
                    (final (mark_attendance no_faults (Some "S100|Jane Doe")
                                            (day1, "09:00:00") db_cs101)))))
  = rows (attendance db_cs101).
Proof.
  apply (delete_record_undoes_scan no_faults (Some "S100|Jane Doe")
                                   (day1, "09:00:00") db_cs101).
  - reflexivity.
  - intros r [].
Defined.

(** ** Reading the ledger *)

From Stdlib Require Import Sorted Permutation.

Lemma key_compare_antisym (x y : attendance_row) :
  key_compare x y = CompOpp (key_compare y x).
Proof.
  unfold key_compare.
  rewrite (String.compare_antisym (date x) (date y)).
  destruct (String.compare (date y) (date x)); simpl; auto.
  apply String.compare_antisym.
Qed.

Lemma not_before_total (x y : attendance_row) :
  not_before x y = false -> not_before y x = true.
Proof.
  unfold not_before. rewrite (key_compare_antisym x y).
  destruct (key_compare y x); simpl; auto; discriminate.
Qed.

Lemma insert_desc_perm (x : attendance_row) (l : list attendance_row) :
  Permutation (insert_desc x l) (x :: l).
Proof.
  induction l as [|y r IH]; simpl; auto.
  destruct (not_before x y); auto.
  apply perm_trans with (y :: x :: r); [|apply perm_swap].
  apply perm_skip, IH.
Qed.

Lemma order_desc_perm (l : list attendance_row) :
  Permutation (order_desc l) l.
Proof.
  induction l as [|x r IH]; simpl; auto.
  apply perm_trans with (x :: order_desc r); [apply insert_desc_perm|].
  apply perm_skip, IH.
Qed.

Lemma insert_desc_sorted (x : attendance_row) (l : list attendance_row) :
  Sorted (fun a b => not_before a b = true) l ->
  Sorted (fun a b => not_before a b = true) (insert_desc x l).
Proof.
  induction l as [|y r IH]; simpl; intro S.
  - repeat constructor.
  - destruct (not_before x y) eqn:N.
    + constructor; auto.
    + inversion S as [|a b Sr Hr]; subst. constructor; [apply IH, Sr|].
      destruct r as [|z r]; simpl.
      * constructor. apply not_before_total, N.
      * destruct (not_before x z); constructor.
        -- apply not_before_total, N.
        -- inversion Hr; auto.
Qed.

Lemma order_desc_sorted (l : list attendance_row) :
  Sorted (fun a b => not_before a b = true) (order_desc l).
Proof.
  induction l as [|x r IH]; simpl; [constructor|].
  apply insert_desc_sorted, IH.
Qed.

(** X14: what [history_by_date] returns.  Without a logged-in user the
    answer is 401 with an empty list.  With one, the status is 200, the
    database is untouched, and when the query does not fail the records
    are the stored rows that pass the filters, each exactly once (a
    filter left empty lets every row pass; the date must equal the
    parameter, the course is compared after normalisation), arranged so
    that no record is followed by one with a later date, or the same
    date and a later time.  When the query fails the list is empty. *)
Theorem history_by_date_lists_matching_rows
        (p : plan) (s : session) (qd qc : option string) (d : db) :
  (user s = None ->
   reply (history_by_date p s qd qc d) = (401, []))
  /\ (user s <> None ->
      fst (reply (history_by_date p s qd qc d)) = 200
      /\ final (history_by_date p s qd qc d) = d
      /\ (p HD_select <> None ->
          snd (reply (history_by_date p s qd qc d)) = [])
      /\ (p HD_select = None ->
          exists l,
            snd (reply (history_by_date p s qd qc d)) = map history_of l
            /\ Permutation l
                 (filter (history_filter
                            (Text.py_strip (Text.or_default qd ""))
                            (Text.py_lower
                               (Text.py_strip (Text.or_default qc ""))))
                         (rows (attendance d)))
            /\ Sorted (fun a b => not_before a b = true) l)).
Proof.
  unfold history_by_date. destruct (user s) as [u|].
  - split; [discriminate|]. intros _.
    unfold serve, bind, run_select, guarded, ret, connect.
    destruct (p HD_select) as [e|]; cbn.
    + split; [reflexivity|]. split; [reflexivity|].
      split; [reflexivity|discriminate].
    + split; [reflexivity|]. split; [reflexivity|].
      split; [intro H; exfalso; apply H; reflexivity|].
      intros _. unfold select_history. eexists. split; [reflexivity|].
      split; [apply order_desc_perm|apply order_desc_sorted].
  - split; [reflexivity|]. intro H. exfalso. apply H. reflexivity.
Qed.

Lemma history_by_date_lists_matching_rows_witness :
  List.length
    (snd (reply (history_by_date no_plan admin_session
                                 (Some day1) (Some " cs101 ")
                                 db_two_students)))
  = 2
  /\ exists l,
      snd (reply (history_by_date no_plan admin_session
                                  (Some day1) (Some " cs101 ")
                                  db_two_students))
      = map history_of l
      /\ Permutation l
           (filter (history_filter
                      (Text.py_strip (Text.or_default (Some day1) ""))
                      (Text.py_lower
                         (Text.py_strip
                            (Text.or_default (Some " cs101 ") ""))))
                   (rows (attendance db_two_students)))
      /\ Sorted (fun a b => not_before a b = true) l.
Proof.
  split; [reflexivity|].
  destruct (history_by_date_lists_matching_rows
              no_plan admin_session (Some day1) (Some " cs101 ")
              db_two_students) as [_ K].
  assert (U : user admin_session <> None) by discriminate.
  destruct (K U) as [_ [_ [_ K4]]].
  exact (K4 eq_refl).
Defined.

(** *** The order of the listings *)

Lemma ascii_compare_lt_trans (a b c : ascii) :
  Ascii.compare a b = Lt -> Ascii.compare b c = Lt -> Ascii.compare a c = Lt.
Proof.
  unfold Ascii.compare. rewrite !BinNat.N.compare_lt_iff.
  apply BinNat.N.lt_trans.
Qed.

Lemma string_compare_lt_trans (a : string) :
  forall b c,
    String.compare a b = Lt -> String.compare b c = Lt ->
    String.compare a c = Lt.
Proof.
  induction a as [|x a IH]; intros [|y b] [|z c]; simpl; try discriminate;
    auto.
  destruct (Ascii.compare x y) eqn:E1; try discriminate.
  - apply Ascii.compare_eq_iff in E1. subst y.
    destruct (Ascii.compare x z); auto. apply IH.
  - intros _. destruct (Ascii.compare y z) eqn:E2; try discriminate.
    + apply Ascii.compare_eq_iff in E2. subst z. rewrite E1. auto.
    + intros _. rewrite (ascii_compare_lt_trans _ _ _ E1 E2). auto.
Qed.

Lemma string_compare_refl (a : string) : String.compare a a = Eq.
Proof.
  induction a as [|x a IH]; simpl; auto.
  unfold Ascii.compare. rewrite BinNat.N.compare_refl. exact IH.
Qed.

(** If [a] is below [c], every [b] is above [a] or below [c]. *)
Lemma string_compare_between (a b c : string) :
  String.compare a c = Lt ->
  String.compare a b = Lt \/ String.compare b c = Lt.
Proof.
  intro H. destruct (String.compare a b) eqn:E; auto.
  - apply String.compare_eq_iff in E. subst b. auto.
  - right. rewrite String.compare_antisym in E.
    destruct (String.compare b a) eqn:E'; try discriminate.
    apply (string_compare_lt_trans _ _ _ E' H).
Qed.

Lemma key_compare_between (x y z : attendance_row) :
  key_compare x z = Lt -> key_compare x y = Lt \/ key_compare y z = Lt.
Proof.
  unfold key_compare.
  destruct (String.compare (date x) (date z)) eqn:D; try discriminate.
  - intro T. apply String.compare_eq_iff in D.
    destruct (String.compare (date x) (date y)) eqn:D1; auto.
    + apply String.compare_eq_iff in D1. rewrite <- D1, D, string_compare_refl.
      apply string_compare_between, T.
    + right. rewrite String.compare_antisym in D1. rewrite <- D.
      destruct (String.compare (date y) (date x)); try discriminate.
      reflexivity.
  - intros _. destruct (string_compare_between _ (date y) _ D) as [E|E];
      rewrite E; auto.
Qed.

Lemma not_before_trans (x y z : attendance_row) :
  not_before x y = true -> not_before y z = true -> not_before x z = true.
Proof.
  unfold not_before. intros H1 H2.
  destruct (key_compare x z) eqn:E; auto.
  destruct (key_compare_between x y z E) as [K|K]; rewrite K in *;
    discriminate.
Qed.

Lemma Permutation_filter {A : Type} (f : A -> bool) (l l' : list A) :
  Permutation l l' -> Permutation (filter f l) (filter f l').
Proof.
  induction 1 as [|x l l' _ IH|x y l|l l' l'' _ IH1 _ IH2]; simpl.
  - constructor.
  - destruct (f x); auto.
  - destruct (f x), (f y); auto. apply perm_swap.
  - apply (perm_trans IH1 IH2).
Qed.

Lemma filter_sorted (f : attendance_row -> bool) (l : list attendance_row) :
  Sorted (fun a b => not_before a b = true) l ->
  Sorted (fun a b => not_before a b = true) (filter f l).
Proof.
  intro S. apply StronglySorted_Sorted.
  apply Sorted_StronglySorted in S;
    [|intros x y z; apply not_before_trans].
  induction S as [|a l S IH F]; simpl; [constructor|].
  destruct (f a); auto. constructor; auto.
  apply Forall_forall. intros b Hb. apply filter_In in Hb.
  rewrite Forall_forall in F. apply F, Hb.
Qed.

(** ** The two normalisations compared *)

Section StripTwice.
Variable p : ascii -> bool.
Variable q : ascii -> bool.
Hypothesis q_le_p : forall c, q c = true -> p c = true.

Lemma lstrip_absorbs (s : string) :
  Text.lstrip_with p (Text.lstrip_with q s) = Text.lstrip_with p s.
Proof.
  induction s as [|c r IH]; simpl; auto.
  destruct (q c) eqn:Q; [rewrite (q_le_p c Q); exact IH|reflexivity].
Qed.

Lemma rstrip_absorbs (s : string) :
  Text.rstrip_with p (Text.rstrip_with q s) = Text.rstrip_with p s.
Proof.
  induction s as [|c r IH]; simpl; auto.
  destruct (Text.rstrip_with q r) as [|c' u] eqn:E.
  - simpl in IH. rewrite <- IH.
    destruct (q c) eqn:Q; simpl; [rewrite (q_le_p c Q)|]; reflexivity.
  - change (Text.rstrip_with p (String c (String c' u)))
      with (match Text.rstrip_with p (String c' u) with
            | EmptyString =>
                if p c then EmptyString else String c EmptyString
            | r'' => String c r''
            end).
    rewrite IH. reflexivity.
Qed.

Lemma rstrip_empty_lstrip (s : string) :
  Text.rstrip_with q s = EmptyString -> Text.lstrip_with p s = EmptyString.
Proof.
  induction s as [|c r IH]; simpl; auto.
  destruct (Text.rstrip_with q r) as [|c' u]; [|discriminate].
  destruct (q c) eqn:Q; [|discriminate].
  intros _. rewrite (q_le_p c Q). apply IH. reflexivity.
Qed.

Lemma lstrip_rstrip_commute (s : string) :
  Text.lstrip_with p (Text.rstrip_with q s)
  = Text.rstrip_with q (Text.lstrip_with p s).
Proof.
  induction s as [|c r IH]; auto.
  destruct (p c) eqn:P.
  - change (Text.lstrip_with p (String c r)) with
      (if p c then Text.lstrip_with p r else String c r).
    rewrite P, <- IH. simpl.
    destruct (Text.rstrip_with q r) as [|c' u] eqn:E.
    + destruct (q c); simpl; rewrite ?P; reflexivity.
    + simpl. rewrite P. reflexivity.
  - change (Text.lstrip_with p (String c r)) with
      (if p c then Text.lstrip_with p r else String c r).
    rewrite P.
    destruct (rstrip_head q c r) as [E|[u E]]; rewrite E; simpl; auto.
    rewrite P. reflexivity.
Qed.

Lemma strip_absorbs (s : string) :
  Text.strip_with p (Text.strip_with q s) = Text.strip_with p s.
Proof.
  unfold Text.strip_with.
  rewrite lstrip_rstrip_commute, rstrip_absorbs, lstrip_absorbs. reflexivity.
Qed.
End StripTwice.

Lemma py_strip_sql_trim (s : string) :
  Text.py_strip (Text.sql_trim s) = Text.py_strip s.
Proof.
  apply strip_absorbs. intros c H.
  unfold Text.sql_isspace in H. apply Nat.eqb_eq in H.
  unfold Text.py_isspace. rewrite H. reflexivity.
Qed.

Lemma map_chars_compose (g h k : ascii -> ascii) (s : string) :
  (forall c, g (h c) = k c) ->
  Text.map_chars g (Text.map_chars h s) = Text.map_chars k s.
Proof.
  intro H. induction s as [|c r IH]; simpl; auto. rewrite H, IH. reflexivity.
Qed.

Lemma py_lower_sql_lower (s : string) :
  Text.py_lower (Text.sql_lower s) = Text.py_lower s.
Proof.
  apply map_chars_compose.
  intro c. destruct c as [[] [] [] [] [] [] [] []]; reflexivity.
Qed.

Lemma py_lower_idem (s : string) :
  Text.py_lower (Text.py_lower s) = Text.py_lower s.
Proof.
  apply map_chars_compose.
  intro c. destruct c as [[] [] [] [] [] [] [] []]; reflexivity.
Qed.

Lemma py_strip_sql_lower (s : string) :
  Text.py_strip (Text.sql_lower s) = Text.sql_lower (Text.py_strip s).
Proof.
  apply strip_map.
  intro c. destruct c as [[] [] [] [] [] [] [] []]; reflexivity.
Qed.

Lemma norm_id_idem (s : string) :
  norm_id (Some (norm_id (Some s))) = norm_id (Some s).
Proof.
  unfold norm_id.
  rewrite py_strip_lower, py_strip_idem, py_lower_idem. reflexivity.
Qed.

Lemma norm_id_of_sql_norm (s : string) :
  norm_id (Some (sql_norm s)) = norm_id (Some s).
Proof.
  unfold norm_id, sql_norm.
  rewrite py_strip_sql_lower, py_lower_sql_lower, py_strip_sql_trim.
  reflexivity.
Qed.

Lemma sql_match_id_matches (stored scanned : string) :
  sql_norm stored = norm_id (Some scanned) ->
  id_matches (Some stored) (Some scanned) = true.
Proof.
  intro H. unfold id_matches. apply String.eqb_eq.
  rewrite <- (norm_id_of_sql_norm stored), H. apply norm_id_idem.
Qed.

(** X15: [norm_id] is idempotent, and stripping or lowering an id
    beforehand does not change what it normalises to: a normalised id
    can be stored or compared again without harm. *)
Theorem norm_id_stable (s : string) :
  norm_id (Some (norm_id (Some s))) = norm_id (Some s)
  /\ norm_id (Some (Text.py_strip s)) = norm_id (Some s)
  /\ norm_id (Some (Text.py_lower s)) = norm_id (Some s).
Proof.
  split; [apply norm_id_idem|]. unfold norm_id. split.
  - rewrite py_strip_idem. reflexivity.
  - rewrite py_strip_lower, py_lower_idem. reflexivity.
Qed.

(** X16: the existence check of [mark_attendance] is at least as strict
    as [id_matches]: whenever SQLite's [LOWER(TRIM(student_id))] of a
    stored id equals [norm_id] of a scanned id, [id_matches] relates the
    two ids. *)
Theorem existence_check_implies_id_matches (stored scanned : string) :
  sql_norm stored = norm_id (Some scanned) ->
  id_matches (Some stored) (Some scanned) = true.
Proof. apply sql_match_id_matches. Qed.

Lemma existence_check_implies_id_matches_witness :
  id_matches (Some " S100 ") (Some "s100") = true.
Proof.
  apply (existence_check_implies_id_matches " S100 " "s100").
  reflexivity.
Defined.

(** ** A student's own records *)

Lemma my_attendance_run (p : plan) (id : option string) (d : db) :
  Text.py_strip (Text.or_default id "") <> "" ->
  p MY_select = None ->
  my_attendance p true id d
  = {| reply := (select_mine (Text.py_strip (Text.or_default id "")) d,
                 Text.py_strip (Text.or_default id ""));
       final := d;
       events := [] |}.
Proof.
  intros H F. unfold my_attendance.
  apply String.eqb_neq in H. rewrite H.
  unfold serve, bind, run_select, guarded, ret, connect. rewrite F.
  reflexivity.
Qed.

Lemma select_mine_In (query_id : string) (d : db) (rec : History.record) :
  In rec (select_mine query_id d)
  <-> exists r, In r (rows (attendance d))
                /\ rec = history_of r
                /\ id_matches (Some (student_id r)) (Some query_id) = true.
Proof.
  unfold select_mine. rewrite in_map_iff. split.
  - intros [r [E Hr]]. apply filter_In in Hr. destruct Hr as [Hr M].
    exists r. split; [|auto].
    apply (Permutation_in _ (order_desc_perm _) Hr).
  - intros [r [Hr [E M]]]. exists r. split; [auto|].
    apply filter_In. split; [|exact M].
    apply (Permutation_in _ (Permutation_sym (order_desc_perm _)) Hr).
Qed.

(** X17: what [my_attendance] lists.  On a GET, or with an id that is
    empty or blank, it lists nothing and runs no query.  On a POST with
    any other id whose query does not fail, the records are exactly the
    stored rows whose student id [id_matches] the stripped query id, of
    every date and course, each exactly once, arranged so that no record
    is followed by one with a later date, or the same date and a later
    time; the database is never changed. *)
Theorem my_attendance_lists_matching_ids
        (p : plan) (post : bool) (id : option string) (d : db) :
  final (my_attendance p post id d) = d
  /\ (post = false \/ Text.py_strip (Text.or_default id "") = "" ->
      fst (reply (my_attendance p post id d)) = [])
  /\ (post = true ->
      Text.py_strip (Text.or_default id "") <> "" ->
      p MY_select = None ->
      (forall rec,
          In rec (fst (reply (my_attendance p post id d)))
          <-> exists r,
              In r (rows (attendance d))
              /\ rec = history_of r
              /\ id_matches (Some (student_id r))
                            (Some (Text.py_strip (Text.or_default id "")))
                 = true)
      /\ exists l,
          fst (reply (my_attendance p post id d)) = map history_of l
          /\ Permutation l
               (filter (fun r =>
                          id_matches
                            (Some (student_id r))
                            (Some (Text.py_strip (Text.or_default id ""))))
                       (rows (attendance d)))
          /\ Sorted (fun a b => not_before a b = true) l).
Proof.
  split; [|split].
  - unfold my_attendance.
    destruct (String.eqb _ ""); [reflexivity|].
    unfold serve, bind, run_select, guarded, ret, connect.
    destruct (p MY_select); reflexivity.
  - intros [->|H]; unfold my_attendance; [reflexivity|].
    destruct post; [rewrite H|]; reflexivity.
  - intros -> H F. rewrite (my_attendance_run p id d H F).
    cbn [reply fst]. split.
    + intro rec. apply select_mine_In.
    + unfold select_mine. eexists. split; [reflexivity|]. split.
      * apply Permutation_filter, order_desc_perm.
      * apply filter_sorted, order_desc_sorted.
Qed.

Lemma my_attendance_lists_matching_ids_witness :
  In {| History.ID := "S100"; History.Name := "Jane Doe";
        History.Date := day1; History.Time := "09:00:00";
        History.Course := Some "CS101" |}
     (fst (reply (my_attendance no_plan true (Some " s100 ")
                                db_two_students)))
  /\ ~ In {| History.ID := "S200"; History.Name := "John Roe";
             History.Date := day1; History.Time := "09:05:00";
             History.Course := Some "CS101" |}
          (fst (reply (my_attendance no_plan true (Some " s100 ")
                                     db_two_students))).
Proof.
  destruct (my_attendance_lists_matching_ids
              no_plan true (Some " s100 ") db_two_students) as [_ [_ K]].
  assert (N : Text.py_strip (Text.or_default (Some " s100 ") "") <> "")
    by discriminate.
  destruct (K eq_refl N eq_refl) as [K1 _].
  split.
  - apply K1.
    exists {| attendance_id := 2; student_id := "S100"; name := "Jane Doe";
              date := day1; time := "09:00:00";
              Store.course := Some "CS101" |}.
    split; [right; left; reflexivity|]. split; reflexivity.
  - intro H. apply K1 in H. destruct H as [r [_ [E M]]].
    injection E as E1 _ _ _ _. rewrite <- E1 in M. discriminate M.
Defined.

Lemma scan_general_row (sid nm day tm : string) (d : db)
      (r : nat * mark_body) (d' : db) :
  scan_outcome no_faults sid nm day tm d r d' ->
  exists x,
    In x (rows (attendance d'))
    /\ date x = day
    /\ sql_norm_null (Store.course x) = Some "general"
    /\ id_matches (Some (student_id x)) (Some sid) = true.
Proof.
  intro O.
  assert (G1 : forall o d1,
             general_outcome no_faults sid nm day tm d o d1 ->
             forall a, o = Done a ->
             exists x,
               In x (rows (attendance d1))
               /\ date x = day
               /\ sql_norm_null (Store.course x) = Some "general"
               /\ id_matches (Some (student_id x)) (Some sid) = true).
  { intros o d1 G a Ho. inversion G; subst; try discriminate.
    - match goal with
      | X : attendance_exists _ _ _ _ = true |- _ =>
          apply existsb_exists in X; destruct X as [x [Hx M]]
      end.
      unfold matches in M. apply andb_true_iff in M. destruct M as [M M3].
      apply andb_true_iff in M. destruct M as [M1 M2].
      apply String.eqb_eq in M1, M2.
      exists x. split; [exact Hx|]. split; [exact M1|]. split.
      + destruct (sql_norm_null (Store.course x)) as [c|]; simpl in M3;
          [|discriminate]. apply String.eqb_eq in M3. congruence.
      + apply sql_match_id_matches, M2.
    - eexists. split; [rewrite insert_attendance_rows; apply in_or_app;
                       right; simpl; left; reflexivity|].
      simpl. split; [reflexivity|]. split; [reflexivity|].
      unfold id_matches. apply String.eqb_refl. }
  assert (C1 : forall cn msgs recs d1 o d2,
             course_outcome no_faults sid nm day tm cn msgs recs d1 o d2 ->
             forall x, In x (rows (attendance d1)) ->
                       In x (rows (attendance d2))).
  { intros cn msgs recs d1 o d2 C x Hx. inversion C; subst; auto.
    rewrite insert_attendance_rows. apply in_or_app. auto. }
  inversion O as [e F0 | e F0 G | msgs recs d1 F0 A G
                  | cid cn msgs recs d1 e F0 A G C
                  | cid cn msgs recs d1 msgs' recs' d2 F0 A G C]; subst;
    try discriminate.
  - inversion G; discriminate.
  - apply (G1 _ _ G _ eq_refl).
  - inversion C; discriminate.
  - destruct (G1 _ _ G _ eq_refl) as [x [Hx R]].
    exists x. split; [apply (C1 _ _ _ _ _ _ C x Hx)|exact R].
Qed.

(** X18: a student who was scanned finds the scan under
    [my_attendance].  After a scan that met no fault, a POST with any
    non-blank id that [id_matches] the scanned one lists a record of the
    scan's date whose course normalises to "general" and whose id
    matches the query.  This holds for every scanned id, also those with
    letters outside ASCII, because here both sides go through
    [norm_id]. *)
Theorem my_attendance_finds_scan
        (data id : option string) (now : string * string) (d : db) :
  Text.has_bar (Text.or_default data "") = true ->
  Text.py_strip (Text.or_default id "") <> "" ->
  id_matches (Some (scanned_id data))
             (Some (Text.py_strip (Text.or_default id ""))) = true ->
  exists rec,
    In rec (fst (reply (my_attendance no_plan true id
                          (final (mark_attendance no_faults data now d)))))
    /\ History.Date rec = fst now
    /\ option_map sql_norm (History.Course rec) = Some "general"
    /\ id_matches (Some (History.ID rec))
                  (Some (Text.py_strip (Text.or_default id ""))) = true.
Proof.
  intros H Hid M.
  pose proof (mark_attendance_outcome no_faults data now d
                (py_strip_keeps_bar _ H)) as O.
  destruct (scan_general_row _ _ _ _ _ _ _ O) as [x [Hx [Hd [Hc Hm]]]].
  assert (Mx : id_matches (Some (student_id x))
                          (Some (Text.py_strip (Text.or_default id "")))
               = true).
  { unfold id_matches in *. apply String.eqb_eq in Hm, M.
    apply String.eqb_eq. congruence. }
  exists (history_of x).
  rewrite (my_attendance_run no_plan id _ Hid eq_refl). simpl.
  split; [apply select_mine_In; eauto|]. auto.
Qed.

Lemma my_attendance_finds_scan_witness :
  exists rec,
    In rec (fst (reply (my_attendance no_plan true
                          (Some (String e_acute "1"))
                          (final (mark_attendance no_faults scan_upper
                                    (day1, "09:00:00") empty_db)))))
    /\ History.Date rec = fst (day1, "09:00:00")
    /\ option_map sql_norm (History.Course rec) = Some "general"
    /\ id_matches (Some (History.ID rec))
                  (Some (Text.py_strip
                           (Text.or_default (Some (String e_acute "1")) "")))
       = true.
Proof.
  apply (my_attendance_finds_scan scan_upper (Some (String e_acute "1"))
                                  (day1, "09:00:00") empty_db).
  - reflexivity.
  - discriminate.
  - reflexivity.
Defined.

(** ** The QR generator *)

Lemma replace_char_gone (a b : ascii) (s : string) :
  a <> b -> Qr.has_char a (Qr.replace_char a b s) = false.
Proof.
  intro N. unfold Qr.replace_char.
  induction s as [|c r IH]; simpl; auto.
  rewrite IH, orb_false_r.
  destruct (Ascii.eqb_spec c a) as [E|E]; apply Ascii.eqb_neq; auto.
Qed.

Lemma replace_char_keeps_gone (x a b : ascii) (s : string) :
  x <> b -> Qr.has_char x s = false ->
  Qr.has_char x (Qr.replace_char a b s) = false.
Proof.
  intros N. unfold Qr.replace_char.
  induction s as [|c r IH]; simpl; auto.
  intro H. apply orb_false_iff in H. destruct H as [H1 H2].
  rewrite (IH H2), orb_false_r.
  destruct (Ascii.eqb c a); [apply Ascii.eqb_neq; auto|exact H1].
Qed.

Lemma replace_char_length (a b : ascii) (s : string) :
  String.length (Qr.replace_char a b s) = String.length s.
Proof.
  unfold Qr.replace_char. induction s as [|c r IH]; simpl; auto.
Qed.

Lemma replace_char_id (a b : ascii) (s : string) :
  Qr.has_char a s = false -> Qr.replace_char a b s = s.
Proof.
  unfold Qr.replace_char. induction s as [|c r IH]; simpl; auto.
  intro H. apply orb_false_iff in H. destruct H as [H1 H2].
  rewrite H1, (IH H2). reflexivity.
Qed.

Lemma safe_filename_clean (s : string) :
  Qr.has_char Qr.slash (Qr.safe_filename s) = false
  /\ Qr.has_char Qr.backslash (Qr.safe_filename s) = false
  /\ Qr.has_char Qr.space (Qr.safe_filename s) = false.
Proof.
  unfold Qr.safe_filename. split; [|split].
  - apply replace_char_keeps_gone; [discriminate|].
    apply replace_char_keeps_gone; [discriminate|].
    apply replace_char_gone. discriminate.
  - apply replace_char_keeps_gone; [discriminate|].
    apply replace_char_gone. discriminate.
  - apply replace_char_gone. discriminate.
Qed.

(** X19: [safe_filename] returns a text of the same length that holds
    no slash, no backslash and no space; a text that holds none of them
    comes back unchanged, so applying it twice changes nothing more. *)
Theorem safe_filename_is_safe (s : string) :
  Qr.has_char Qr.slash (Qr.safe_filename s) = false
  /\ Qr.has_char Qr.backslash (Qr.safe_filename s) = false
  /\ Qr.has_char Qr.space (Qr.safe_filename s) = false
  /\ String.length (Qr.safe_filename s) = String.length s
  /\ (Qr.has_char Qr.slash s = false ->
      Qr.has_char Qr.backslash s = false ->
      Qr.has_char Qr.space s = false ->
      Qr.safe_filename s = s)
  /\ Qr.safe_filename (Qr.safe_filename s) = Qr.safe_filename s.
Proof.
  assert (I : forall t,
             Qr.has_char Qr.slash t = false ->
             Qr.has_char Qr.backslash t = false ->
             Qr.has_char Qr.space t = false ->
             Qr.safe_filename t = t).
  { intros t H1 H2 H3. unfold Qr.safe_filename.
    rewrite (replace_char_id Qr.slash _ t H1),
      (replace_char_id Qr.backslash _ t H2),
      (replace_char_id Qr.space _ t H3).
    reflexivity. }
  destruct (safe_filename_clean s) as [C1 [C2 C3]].
  split; [exact C1|]. split; [exact C2|]. split; [exact C3|].
  split; [|split; [apply I|apply I; assumption]].
  unfold Qr.safe_filename. rewrite !replace_char_length. reflexivity.
Qed.

Lemma safe_filename_is_safe_witness :
  Qr.safe_filename "KASU_20_CSC_1001" = "KASU_20_CSC_1001".
Proof.
  apply (safe_filename_is_safe "KASU_20_CSC_1001"); reflexivity.
Defined.






Lemma or_default_some (s : string) : Text.or_default (Some s) "" = s.
Proof. destruct s; reflexivity. Qed.

Section BarInside.
Variable p : ascii -> bool.
Hypothesis bar_kept : p Text.bar = false.

Lemma lstrip_before_bar (a b : string) :
  Text.lstrip_with p a = a ->
  Text.lstrip_with p (a ++ String Text.bar b)%string
  = (a ++ String Text.bar b)%string.
Proof.
  destruct a as [|c r]; simpl.
  - intros _. rewrite bar_kept. reflexivity.
  - destruct (p c) eqn:P; auto.
    intro H. exfalso.
    assert (L : String.length (Text.lstrip_with p r) <= String.length r).
    { clear. induction r as [|c r IH]; simpl; auto.
      destruct (p c); simpl; lia. }
    rewrite H in L. simpl in L. lia.
Qed.

Lemma rstrip_after_bar (a b : string) :
  Text.rstrip_with p (a ++ String Text.bar b)%string
  = (a ++ String Text.bar (Text.rstrip_with p b))%string.
Proof.
  induction a as [|c r IH].
  - simpl. destruct (Text.rstrip_with p b); [rewrite bar_kept|]; reflexivity.
  - change (Text.rstrip_with p (String c r ++ String Text.bar b)%string)
      with (match Text.rstrip_with p (r ++ String Text.bar b)%string with
            | EmptyString =>
                if p c then EmptyString else String c EmptyString
            | r' => String c r'
            end).
    rewrite IH. destruct r; reflexivity.
Qed.
End BarInside.

Lemma split_bar_app (a b : string) :
  Text.has_bar a = false ->
  Text.split_bar (a ++ String Text.bar b)%string = (a, b).
Proof.
  induction a as [|c r IH]; simpl.
  - reflexivity.
  - intro H. apply orb_false_iff in H. destruct H as [H1 H2].
    rewrite H1, (IH H2). reflexivity.
Qed.

Lemma has_bar_app_bar (a b : string) :
  Text.has_bar (a ++ String Text.bar b)%string = true.
Proof.
  induction a as [|c r IH]; simpl; [reflexivity|].
  rewrite IH. apply orb_true_r.
Qed.

(** A payload built from a stripped id and a stripped name is read back
    as that id and that name, unless the id itself holds a bar. *)
Lemma qr_data_scans_back (x y : string) :
  Text.has_bar (Text.py_strip x) = false ->
  scanned_id (Some (Qr.qr_data (Text.py_strip x) (Text.py_strip y)))
  = Text.py_strip x
  /\ scanned_name (Some (Qr.qr_data (Text.py_strip x) (Text.py_strip y)))
     = Text.py_strip y.
Proof.
  intro H. unfold scanned_id, scanned_name. rewrite or_default_some.
  assert (E : Text.py_strip (Qr.qr_data (Text.py_strip x) (Text.py_strip y))
              = (Text.py_strip x ++ String Text.bar (Text.py_strip y))%string).
  { unfold Qr.qr_data.
    change ("|" ++ Text.py_strip y)%string
      with (String Text.bar (Text.py_strip y)).
    unfold Text.py_strip at 1. unfold Text.strip_with.
    rewrite lstrip_before_bar; [|reflexivity|].
    - rewrite rstrip_after_bar; [|reflexivity].
      unfold Text.py_strip at 2. unfold Text.strip_with.
      rewrite rstrip_idem. reflexivity.
    - unfold Text.py_strip, Text.strip_with.
      apply lstrip_rstrip, lstrip_idem. }
  rewrite E, (split_bar_app _ _ H). simpl fst. simpl snd.
  rewrite !py_strip_idem. auto.
Qed.

Lemma generate_qr_saved_file (p : Qr.qr_plan) (info : Qr.qr_request)
      (timestamp unique now : string) (w : Qr.world) :
  Qr.id_of info <> "" ->
  Qr.name_of info <> "" ->
  fst (fst (Qr.generate_qr p info timestamp unique now w)) = 200 ->
  Qr.files (snd (Qr.generate_qr p info timestamp unique now w))
  = Qr.files w
      ++ [(Qr.path_join Qr.QR_FOLDER
             (Qr.qr_filename (Qr.id_of info) timestamp unique),
           Qr.qr_data (Qr.id_of info) (Qr.name_of info))].
Proof.
  intros H1 H2. unfold Qr.generate_qr.
  apply String.eqb_neq in H1, H2. rewrite H1, H2. simpl orb. cbv iota.
  destruct (p Qr.QR_save); [simpl; discriminate|].
  destruct (p Qr.QR_insert); [simpl; discriminate|].
  destruct (p Qr.QR_commit); [simpl; discriminate|].
  simpl. auto.
Qed.

(** X21: a generated code scans back.  When [generate_qr] answers 200
    for an id that holds no bar, the text encoded in the image it wrote
    is accepted by [mark_attendance] (it holds the separator), and the
    student id and the name read from it are the id and the name stored
    in the [qr_codes] row. *)
Theorem generate_qr_scans_back
        (p : Qr.qr_plan) (info : Qr.qr_request)
        (timestamp unique now : string) (w : Qr.world) :
  fst (fst (Qr.generate_qr p info timestamp unique now w)) = 200 ->
  Text.has_bar (Qr.id_of info) = false ->
  exists path payload,
    Qr.files (snd (Qr.generate_qr p info timestamp unique now w))
    = Qr.files w ++ [(path, payload)]
    /\ Text.has_bar (Text.or_default (Some payload) "") = true
    /\ scanned_id (Some payload) = Qr.id_of info
    /\ scanned_name (Some payload) = Qr.name_of info.
Proof.
  intros S B.
  destruct (String.eqb_spec (Qr.id_of info) "") as [E1|N1].
  { unfold Qr.generate_qr in S. rewrite E1 in S. simpl in S. discriminate. }
  destruct (String.eqb_spec (Qr.name_of info) "") as [E2|N2].
  { unfold Qr.generate_qr in S. rewrite E2, orb_true_r in S. simpl in S.
    discriminate. }
  pose proof (generate_qr_saved_file p info timestamp unique now w N1 N2 S)
    as F.
  eexists _, _. split; [exact F|].
  rewrite or_default_some.
  split; [apply has_bar_app_bar|].
  apply qr_data_scans_back, B.
Qed.

Lemma generate_qr_scans_back_witness :
  exists path payload,
    Qr.files (snd (Qr.generate_qr
                     Qr.no_qr_faults
                     {| Qr.req_id := Some " S100 ";
                        Qr.req_name := Some "Jane Doe" |}
                     "20240301090000" "1a2b3c4d" "2024-03-01T09:00:00"
                     {| Qr.qr_codes := empty_table; Qr.files := [] |}))
    = Qr.files {| Qr.qr_codes := empty_table; Qr.files := [] |}
               ++ [(path, payload)]
    /\ Text.has_bar (Text.or_default (Some payload) "") = true
    /\ scanned_id (Some payload)
       = Qr.id_of {| Qr.req_id := Some " S100 ";
                     Qr.req_name := Some "Jane Doe" |}
    /\ scanned_name (Some payload)
       = Qr.name_of {| Qr.req_id := Some " S100 ";
                       Qr.req_name := Some "Jane Doe" |}.
Proof.
  apply (generate_qr_scans_back
           Qr.no_qr_faults
           {| Qr.req_id := Some " S100 "; Qr.req_name := Some "Jane Doe" |}
           "20240301090000" "1a2b3c4d" "2024-03-01T09:00:00"
           {| Qr.qr_codes := empty_table; Qr.files := [] |});
    reflexivity.
Defined.

(** ** Changing the course between two scans *)

Lemma set_course_keeps_attendance (f : faults) (s : session)
      (info : course_request) (today utcnow : string) (d : db) :
  attendance (final (set_course f s info today utcnow d)) = attendance d.
Proof.
  destruct (set_course_cases f s info today utcnow d)
    as [[_ [E _]]|[[_ [_ E]]|[_ [_ [cid [d1 [Hd1 E]]]]]]]; rewrite E; auto.
  assert (A : attendance d1 = attendance d).
  { destruct Hd1 as [[_ ->]|[_ I]]; auto.
    unfold insert_course in I.
    destruct (existsb _ (rows (courses d))); [discriminate|].
    inversion I. reflexivity. }
  destruct (active_exists cid today d1); simpl; exact A.
Qed.

(** X22: changing the active session between two scans never records
    the general attendance twice.  After a scan that met no fault, let
    [set_course] be called once, with any request and under any fault
    plan; a second scan of the same payload on the same day that meets
    no fault reports the general attendance as already recorded, and the
    database it leaves is the one it found, or that one plus one row for
    the course active by then, whose name does not lower to "general".
    Stated for a scanned id on which the normalisation of SQLite and the
    one of Python agree. *)
Theorem switching_course_keeps_general_row
        (f : faults) (s : session) (info : course_request)
        (today utcnow : string)
        (data : option string) (day tm tm' : string) (d : db) :
  Text.has_bar (Text.or_default data "") = true ->
  sql_norm (scanned_id data) = norm_id (Some (scanned_id data)) ->
  (exists cmsgs recs,
      reply (mark_attendance no_faults data (day, tm')
               (final (set_course f s info today utcnow
                         (final (mark_attendance no_faults data (day, tm)
                                                 d)))))
      = (200, Marked (general_already :: cmsgs) recs))
  /\ (final (mark_attendance no_faults data (day, tm')
               (final (set_course f s info today utcnow
                         (final (mark_attendance no_faults data (day, tm)
                                                 d)))))
      = final (set_course f s info today utcnow
                 (final (mark_attendance no_faults data (day, tm) d)))
      \/ exists cid cn,
          select_active day
            (final (set_course f s info today utcnow
                      (final (mark_attendance no_faults data (day, tm) d))))
          = Some (cid, cn)
          /\ Text.py_lower cn <> "general"
          /\ final (mark_attendance no_faults data (day, tm')
                      (final (set_course f s info today utcnow
                                (final (mark_attendance no_faults data
                                          (day, tm) d)))))
             = insert_attendance
                 (scanned_id data) (scanned_name data) day tm' cn
                 (final (set_course f s info today utcnow
                           (final (mark_attendance no_faults data (day, tm)
                                                   d))))).
Proof.
  intros H Hs.
  pose proof (mark_attendance_outcome no_faults data (day, tm) d
                (py_strip_keeps_bar _ H)) as O1.
  destruct (scan_leaves_records _ _ _ _ _ _ _ O1 Hs) as [_ [Xg _]].
  set (d1 := final (mark_attendance no_faults data (day, tm) d)) in *.
  set (d2 := final (set_course f s info today utcnow d1)).
  assert (A : attendance d2 = attendance d1)
    by apply set_course_keeps_attendance.
  assert (Xg2 : attendance_exists day (norm_id (Some (scanned_id data)))
                                  "general" d2 = true).
  { unfold attendance_exists in *. rewrite A. exact Xg. }
  pose proof (mark_attendance_outcome no_faults data (day, tm') d2
                (py_strip_keeps_bar _ H)) as O2.
  split.
  - destruct (scan_outcome_shape _ _ _ _ _ _ _ _ O2)
      as [gs [cs [_ [_ [_ [_ [_ R]]]]]]].
    destruct (mark_attendance_succeeds data (day, tm') d2 H)
      as [msgs [recs Er]].
    rewrite Er in *. destruct (R eq_refl) as [gmsg [cmsgs [Eb [G _]]]].
    cbn [fst snd] in *. rewrite Xg2 in G.
    destruct G as [[_ [-> _]]|[X _]]; [|discriminate X].
    simpl in Eb. inversion Eb; subst. eauto.
  - destruct (scan_outcome_final _ _ _ _ _ _ _ _ O2) as [d3 [G C]].
    cbn [fst snd] in *. rewrite Xg2 in G.
    destruct G as [->|[X _]]; [|discriminate X].
    destruct C as [C|[cid [cn [Sa [X C]]]]]; [left; exact C|].
    right. exists cid, cn. split; [exact Sa|]. split; [|exact C].
    intro E. rewrite E, Xg2 in X. discriminate.
Qed.

Lemma switching_course_keeps_general_row_witness :
  exists cmsgs recs,
    reply (mark_attendance no_faults (Some "S100|Jane Doe") (day1, "10:00:00")
             (final (set_course no_faults admin_session mth201_request
                       day1 "t2"
                       (final (mark_attendance no_faults
                                 (Some "S100|Jane Doe") (day1, "09:00:00")
                                 db_cs101)))))
    = (200, Marked (general_already :: cmsgs) recs).
Proof.
  apply (switching_course_keeps_general_row
           no_faults admin_session mth201_request day1 "t2"
           (Some "S100|Jane Doe") day1 "09:00:00" "10:00:00" db_cs101);
    reflexivity.
Defined.

(** ** User accounts *)

Lemma ensure_user_finds (gen : string -> string -> string)
      (name pw role salt : string) (t : table Users.user_row) :
  find (fun r => String.eqb (Users.username r) name)
       (rows (Users.ensure_user gen name pw role salt t))
  = match find (fun r => String.eqb (Users.username r) name) (rows t) with
    | Some u => Some u
    | None => Some {| Users.user_id := S (seq t); Users.username := name;
                      Users.password := gen salt pw;
                      Users.user_role := role |}
    end.
Proof.
  unfold Users.ensure_user.
  destruct (find _ (rows t)) as [u|] eqn:F; [exact F|].
  unfold insert_row, lastrowid. simpl. rewrite find_last, F. simpl.
  rewrite String.eqb_refl. reflexivity.
Qed.

Lemma ensure_user_keeps (gen : string -> string -> string)
      (name pw role salt other : string) (t : table Users.user_row)
      (u : Users.user_row) :
  find (fun r => String.eqb (Users.username r) other) (rows t) = Some u ->
  find (fun r => String.eqb (Users.username r) other)
       (rows (Users.ensure_user gen name pw role salt t)) = Some u.
Proof.
  intro H. unfold Users.ensure_user.
  destruct (find (fun r => String.eqb (Users.username r) name) (rows t));
    [exact H|].
  unfold insert_row. simpl. rewrite find_last, H. reflexivity.
Qed.

Lemma ensure_user_fixed (gen : string -> string -> string)
      (name pw role salt : string) (t : table Users.user_row)
      (u : Users.user_row) :
  find (fun r => String.eqb (Users.username r) name) (rows t) = Some u ->
  Users.ensure_user gen name pw role salt t = t.
Proof. intro H. unfold Users.ensure_user. rewrite H. reflexivity. Qed.

Lemma ensure_user_rows (gen : string -> string -> string)
      (name pw role salt : string) (t : table Users.user_row) :
  exists l,
    rows (Users.ensure_user gen name pw role salt t) = rows t ++ l
    /\ List.length l <= 1
    /\ (forall r, In r l ->
                  Users.username r = name
                  /\ ~ In name (map Users.username (rows t))).
Proof.
  unfold Users.ensure_user.
  destruct (find _ (rows t)) as [u|] eqn:F.
  - exists []. rewrite app_nil_r. simpl. repeat split; auto. contradiction.
  - eexists [_]. simpl. split; [reflexivity|]. split; [lia|].
    intros r [<-|[]]. simpl. split; [reflexivity|].
    intro Hin. apply in_map_iff in Hin. destruct Hin as [r [E Hr]].
    pose proof (find_none _ _ F r Hr) as N. simpl in N.
    rewrite E, String.eqb_refl in N. discriminate.
Qed.

(** X23: [initialize_db] can run at every start.  Whatever salts are
    drawn, running it again changes nothing; the accounts already
    stored stay as they are, in place, and at most two rows are added
    after them; afterwards the users "admin" and "student" both exist,
    an "admin" account it had to create carrying the role "admin" and
    the hash of the default password; and user names that were pairwise
    distinct stay so. *)
Theorem initialize_db_settles
        (gen : string -> string -> string)
        (sa ss sa' ss' : string) (t : table Users.user_row) :
  Users.initialize_db gen sa' ss' (Users.initialize_db gen sa ss t)
  = Users.initialize_db gen sa ss t
  /\ (exists l, rows (Users.initialize_db gen sa ss t) = rows t ++ l
                /\ List.length l <= 2)
  /\ (exists u, Users.get_user None (Some "admin")
                               (Users.initialize_db gen sa ss t)
                = Done (Some u))
  /\ (exists u, Users.get_user None (Some "student")
                               (Users.initialize_db gen sa ss t)
                = Done (Some u))
  /\ (Users.get_user None (Some "admin") t = Done None ->
      Users.get_user None (Some "admin") (Users.initialize_db gen sa ss t)
      = Done (Some {| Users.user_id := S (seq t);
                      Users.username := "admin";
                      Users.password := gen sa "admin123";
                      Users.user_role := "admin" |}))
  /\ (NoDup (map Users.username (rows t)) ->
      NoDup (map Users.username (rows (Users.initialize_db gen sa ss t)))).
Proof.
  unfold Users.initialize_db.
  set (t1 := Users.ensure_user gen "admin" "admin123" "admin" sa t).
  set (t2 := Users.ensure_user gen "student" "student123" "student" ss t1).
  assert (A1 : exists u, find (fun r => String.eqb (Users.username r) "admin")
                              (rows t1) = Some u).
  { unfold t1. rewrite ensure_user_finds.
    destruct (find _ (rows t)); eauto. }
  assert (A2 : exists u, find (fun r => String.eqb (Users.username r) "admin")
                              (rows t2) = Some u).
  { destruct A1 as [u A1]. exists u. apply ensure_user_keeps, A1. }
  assert (S2 : exists u,
             find (fun r => String.eqb (Users.username r) "student")
                  (rows t2) = Some u).
  { unfold t2. rewrite ensure_user_finds.
    destruct (find (fun r => String.eqb (Users.username r) "student")
                   (rows t1)) as [v|]; eexists; reflexivity. }
  split; [|split; [|split; [|split; [|split]]]].
  - destruct A2 as [u A2]. destruct S2 as [v S2].
    rewrite (ensure_user_fixed gen _ _ _ sa' t2 u A2).
    apply (ensure_user_fixed gen _ _ _ ss' t2 v S2).
  - destruct (ensure_user_rows gen "admin" "admin123" "admin" sa t)
      as [l1 [E1 [L1 _]]].
    destruct (ensure_user_rows gen "student" "student123" "student" ss t1)
      as [l2 [E2 [L2 _]]].
    exists (l1 ++ l2). fold t1 in E1. fold t2 in E2.
    rewrite E2, E1, app_assoc, length_app. split; [reflexivity|lia].
  - destruct A2 as [u A2]. exists u. simpl. rewrite A2. reflexivity.
  - destruct S2 as [u S2]. exists u. simpl. rewrite S2. reflexivity.
  - simpl. intro H. inversion H as [F]. f_equal.
    apply ensure_user_keeps. unfold t1. rewrite ensure_user_finds, F.
    reflexivity.
  - intro N.
    destruct (ensure_user_rows gen "admin" "admin123" "admin" sa t)
      as [l1 [E1 [L1 P1]]].
    destruct (ensure_user_rows gen "student" "student123" "student" ss t1)
      as [l2 [E2 [L2 P2]]].
    fold t1 in E1. fold t2 in E2.
    assert (N1 : NoDup (map Users.username (rows t1))).
    { rewrite E1, map_app. destruct l1 as [|r [|r' l1]]; simpl in *;
        [rewrite app_nil_r; exact N| |lia].
      destruct (P1 r (or_introl eq_refl)) as [En Hn].
      apply NoDup_app; [exact N|repeat constructor; simpl; tauto|].
      intros n Hin [<-|[]]. rewrite En in Hin. contradiction. }
    rewrite E2, map_app. destruct l2 as [|r [|r' l2]]; simpl in *;
      [rewrite app_nil_r; exact N1| |lia].
    destruct (P2 r (or_introl eq_refl)) as [En Hn].
    apply NoDup_app; [exact N1|repeat constructor; simpl; tauto|].
    intros n Hin [<-|[]]. rewrite En in Hin. contradiction.
Qed.

Lemma initialize_db_settles_witness :
  Users.get_user None (Some "admin")
                 (Users.initialize_db plain_hash "s1" "s2" empty_table)
  = Done (Some {| Users.user_id := S (seq (@empty_table Users.user_row));
                  Users.username := "admin";
                  Users.password := plain_hash "s1" "admin123";
                  Users.user_role := "admin" |}).
Proof.
  apply (initialize_db_settles plain_hash "s1" "s2" "s3" "s4" empty_table).
  reflexivity.
Defined.

Lemma get_user_found (x : option string) (name : option string)
      (t : table Users.user_row) (u : Users.user_row) :
  Users.get_user x name t = Done (Some u) ->
  exists n, name = Some n /\ n <> ""
            /\ find (fun r => String.eqb (Users.username r) n) (rows t)
               = Some u
            /\ In u (rows t) /\ Users.username u = n.
Proof.
  unfold Users.get_user. destruct name as [[|c n]|]; try discriminate.
  destruct x; [discriminate|]. intro H. injection H as F.
  exists (String c n). split; [reflexivity|]. split; [discriminate|].
  split; [exact F|]. apply find_some in F. destruct F as [Hin E].
  apply String.eqb_eq in E. auto.
Qed.

(** X24: [login] opens a session only for a stored account whose
    password checks.  Whenever it redirects to the home page, the
    stripped user name is not empty and names a stored row, the stripped
    password passes [check_password_hash] against that row's hash, and
    the session holds that name with the role of the row.  In every
    other answer the session is the one it was, and the call raises only
    when the query does. *)
Theorem login_needs_a_matching_account
        (check : string -> string -> bool) (x : option string) (post : bool)
        (fu fp : option string) (s : session) (t : table Users.user_row) :
  (forall pg s',
      Users.login check x post fu fp s t = Done (pg, s') ->
      (pg = Users.Redirect "home"
       /\ exists u,
           In u (rows t)
           /\ Users.username u = Text.py_strip (Text.or_default fu "")
           /\ Text.py_strip (Text.or_default fu "") <> ""
           /\ check (Users.password u)
                    (Text.py_strip (Text.or_default fp "")) = true
           /\ s' = {| user := Some (Text.py_strip (Text.or_default fu ""));
                      role := Some (Users.user_role u) |})
      \/ (s' = s /\ exists e, pg = Users.LoginPage e))
  /\ (forall e, Users.login check x post fu fp s t = Raised e ->
                x = Some e /\ post = true).
Proof.
  unfold Users.login. destruct post.
  - destruct (Users.get_user x (Some (Text.py_strip (Text.or_default fu "")))
                             t) as [e|[u|]] eqn:G.
    + split; [discriminate|]. intros e' H. inversion H; subst.
      unfold Users.get_user in G.
      destruct (Text.py_strip (Text.or_default fu "")); [discriminate|].
      destruct x; inversion G; auto.
    + destruct (get_user_found _ _ _ _ G) as [n [En [Nn [_ [Hin Eu]]]]].
      inversion En; subst n.
      destruct (check (Users.password u) _) eqn:C.
      * split; [|discriminate]. intros pg s' H. inversion H; subst.
        left. split; [reflexivity|]. exists u.
        split; [exact Hin|]. split; [congruence|]. split; [congruence|].
        split; [exact C|reflexivity].
      * split; [|discriminate]. intros pg s' H. inversion H; subst.
        right. eauto.
    + split; [|discriminate]. intros pg s' H. inversion H; subst.
      right. eauto.
  - split; [|discriminate]. intros pg s' H. inversion H; subst.
    right. eauto.
Qed.

Lemma login_needs_a_matching_account_witness :
  (Users.Redirect "home" = Users.Redirect "home"
   /\ exists u,
       In u (rows default_users)
       /\ Users.username u = Text.py_strip (Text.or_default (Some "admin") "")
       /\ Text.py_strip (Text.or_default (Some "admin") "") <> ""
       /\ plain_check (Users.password u)
                      (Text.py_strip (Text.or_default (Some " admin123 ") ""))
          = true
       /\ {| user := Some "admin"; role := Some "admin" |}
          = {| user := Some (Text.py_strip (Text.or_default (Some "admin") ""));
               role := Some (Users.user_role u) |})
  \/ ({| user := Some "admin"; role := Some "admin" |}
      = {| user := None; role := None |}
      /\ exists e, Users.Redirect "home" = Users.LoginPage e).
Proof.
  apply (proj1 (login_needs_a_matching_account
                  plain_check None true (Some "admin") (Some " admin123 ")
                  {| user := None; role := None |} default_users)).
  reflexivity.
Defined.

Lemma find_set_password (name hash n : string) (t : table Users.user_row) :
  find (fun r => String.eqb (Users.username r) n)
       (rows (Users.set_password name hash t))
  = option_map
      (fun r => if String.eqb (Users.username r) name
                then {| Users.user_id := Users.user_id r;
                        Users.username := Users.username r;
                        Users.password := hash;
                        Users.user_role := Users.user_role r |}
                else r)
      (find (fun r => String.eqb (Users.username r) n) (rows t)).
Proof.
  unfold Users.set_password. simpl.
  induction (rows t) as [|r l IH]; simpl; auto.
  destruct (String.eqb (Users.username r) name) eqn:E; simpl;
    destruct (String.eqb (Users.username r) n) eqn:F; simpl; auto;
    rewrite ?E; auto.
Qed.

Lemma change_password_cases
      (gen : string -> string -> string) (check : string -> string -> bool)
      (xg xu : option string) (cur new conf : option string)
      (salt : string) (s : session) (t : table Users.user_row)
      (pg : Users.page) (t' : table Users.user_row) :
  Users.change_password gen check xg xu true cur new conf salt s t
  = Done (pg, t') ->
  (pg <> Users.ChangePasswordPage Users.changed /\ t' = t)
  \/ (pg = Users.ChangePasswordPage Users.changed
      /\ exists name u,
          user s = Some name
          /\ name <> ""
          /\ find (fun r => String.eqb (Users.username r) name) (rows t)
             = Some u
          /\ check (Users.password u)
                   (Text.py_strip (Text.or_default cur "")) = true
          /\ Text.py_strip (Text.or_default new "") <> ""
          /\ Text.py_strip (Text.or_default new "")
             = Text.py_strip (Text.or_default conf "")
          /\ t' = Users.set_password
                    name
                    (gen salt (Text.py_strip (Text.or_default new ""))) t).
Proof.
  unfold Users.change_password.
  destruct (user s) as [name|];
    [|intro H; inversion H; subst; left; split; [discriminate|reflexivity]].
  destruct (Users.get_user xg (Some name) t) as [e|u] eqn:G; [discriminate|].
  destruct u as [u|];
    [|intro H; inversion H; subst; left; split; [discriminate|reflexivity]].
  destruct (check (Users.password u) _) eqn:C; simpl negb; cbv iota;
    [|intro H; inversion H; subst; left; split; [discriminate|reflexivity]].
  destruct (String.eqb_spec (Text.py_strip (Text.or_default new "")) "")
    as [E|E];
    [intro H; inversion H; subst; left; split; [discriminate|reflexivity]|].
  destruct (String.eqb_spec (Text.py_strip (Text.or_default new ""))
                            (Text.py_strip (Text.or_default conf "")))
    as [E'|E']; simpl negb; cbv iota;
    [|intro H; inversion H; subst; left; split; [discriminate|reflexivity]].
  unfold Users.update_password. destruct xu; [discriminate|].
  intro H. inversion H; subst. right. split; [reflexivity|].
  destruct (get_user_found _ _ _ _ G) as [n [En [Nn [F _]]]].
  inversion En; subst n. exists name, u. auto 10.
Qed.

(** X25: [change_password] changes a password only when everything
    checks, and the new password then works.  For a POST that returns a
    page: unless the message is the success message the [users] table is
    unchanged; with the success message, the current password passed
    [check_password_hash] against the stored hash of the session's user,
    the stripped new password is not empty and equals the stripped
    confirmation, and only that user's hash was replaced; and, provided
    a hash checks against the password it was generated from, a [login]
    with that user name and the new password then redirects to the home
    page with the user's role. *)
Theorem change_password_then_login
        (gen : string -> string -> string) (check : string -> string -> bool)
        (xg xu : option string) (cur new conf : option string)
        (salt : string) (s s0 : session) (t : table Users.user_row)
        (pg : Users.page) (t' : table Users.user_row) :
  (forall k pw, check (gen k pw) pw = true) ->
  Users.change_password gen check xg xu true cur new conf salt s t
  = Done (pg, t') ->
  (pg <> Users.ChangePasswordPage Users.changed -> t' = t)
  /\ (pg = Users.ChangePasswordPage Users.changed ->
      exists name u,
        user s = Some name
        /\ In u (rows t)
        /\ Users.username u = name
        /\ check (Users.password u) (Text.py_strip (Text.or_default cur ""))
           = true
        /\ Text.py_strip (Text.or_default new "") <> ""
        /\ Text.py_strip (Text.or_default new "")
           = Text.py_strip (Text.or_default conf "")
        /\ t' = Users.set_password
                  name (gen salt (Text.py_strip (Text.or_default new ""))) t
        /\ (Text.py_strip name = name ->
            Users.login check None true (Some name) new s0 t'
            = Done (Users.Redirect "home",
                    {| user := Some name;
                       role := Some (Users.user_role u) |}))).
Proof.
  intros Hc H.
  destruct (change_password_cases gen check xg xu cur new conf salt s t pg t' H)
    as [[N E]|[E [name [u [Hs [Nn [F [C [Ne [Ec Et]]]]]]]]]].
  - split; [auto|contradiction].
  - split; [contradiction|]. intros _. exists name, u.
    pose proof (find_some _ _ F) as [Hin Eu]. apply String.eqb_eq in Eu.
    split; [exact Hs|]. split; [exact Hin|]. split; [exact Eu|].
    split; [exact C|]. split; [exact Ne|]. split; [exact Ec|].
    split; [exact Et|].
    intro St. unfold Users.login. rewrite or_default_some, St.
    unfold Users.get_user.
    destruct name as [|c n]; [exfalso; apply Nn; reflexivity|].
    rewrite Et, find_set_password, F. simpl option_map.
    rewrite Eu, String.eqb_refl. simpl Users.password. rewrite Hc.
    reflexivity.
Qed.

Lemma change_password_then_login_witness :
  exists name u,
    user {| user := Some "admin"; role := Some "admin" |} = Some name
    /\ In u (rows default_users)
    /\ Users.set_password "admin" (plain_hash "s9" "s3cret") default_users
       = Users.set_password
           name
           (plain_hash "s9"
                       (Text.py_strip (Text.or_default (Some "s3cret") "")))
           default_users.
Proof.
  destruct (proj2 (change_password_then_login
                     plain_hash plain_check None None
                     (Some "admin123") (Some "s3cret") (Some " s3cret") "s9"
                     {| user := Some "admin"; role := Some "admin" |}
                     {| user := None; role := None |}
                     default_users
                     (Users.ChangePasswordPage Users.changed)
                     (Users.set_password "admin" (plain_hash "s9" "s3cret")
                                         default_users)
                     (fun k pw => String.eqb_refl pw) eq_refl)
                  eq_refl)
    as [name [u [Hs [Hin [_ [_ [_ [_ [Et _]]]]]]]]].
  exists name, u. auto.
Defined.

(** ** Every reachable database *)

Lemma well_formed_delete_attendance (p : attendance_row -> bool) (d : db) :
  well_formed d ->
  well_formed {| courses := courses d;
                 active_course := active_course d;
                 attendance := delete_where p (attendance d) |}.
Proof.
  intros [H1 [H2 [H3 [H4 H5]]]]. unfold well_formed. simpl.
  split; [exact H1|]. split; [exact H2|]. split; [exact H3|].
  split; [apply (keyed_delete attendance_id), H4|exact H5].
Qed.

Lemma reachable_is_well_formed (d : db) : reachable d -> well_formed d.
Proof.
  induction 1 as [|f s info today utcnow d _ IH
                  |p s today utcnow d _ IH
                  |f data now d _ IH
                  |p s d _ IH
                  |p q d _ IH].
  - apply well_formed_empty.
  - apply set_course_keeps_well_formed, IH.
  - destruct (clear_course_cases p s today utcnow d)
      as [[_ [E _]]|[_ [E _]]]; rewrite E; auto.
    apply well_formed_delete_active, IH.
  - destruct (mark_attendance_final f data now d) as [d1 [H1 H2]].
    assert (W1 : well_formed d1).
    { destruct H1 as [->|[_ ->]]; auto.
      apply well_formed_insert_attendance, IH. }
    destruct H2 as [->|[cid [cn [_ [_ ->]]]]]; auto.
    apply well_formed_insert_attendance, W1.
  - destruct (delete_history_cases p s d) as [[_ E]|[_ E]]; rewrite E; auto.
    apply well_formed_delete_attendance, IH.
  - destruct (delete_record_cases p q d) as [[_ E]|[_ E]]; rewrite E; auto.
    apply well_formed_delete_attendance, IH.
Qed.

(** X26: every database the writing handlers ([set_course],
    [clear_course], [mark_attendance], [delete_history],
    [delete_record]) can produce from empty tables, in any order, with
    any requests and under any faults, is well formed: row ids are
    pairwise distinct and below their sequence, course names are
    pairwise distinct, and every [active_course] row has its course.
    So on every such database [get_course], when its query is answered,
    reports a session exactly when a row of the day exists. *)
Theorem reachable_databases_are_well_formed (d : db) :
  reachable d ->
  well_formed d
  /\ forall f today,
      f GC_select = None ->
      (active (snd (reply (get_course f today d))) = true
       <-> exists a, In a (rows (active_course d))
                     /\ active_date a = today).
Proof.
  intro R. pose proof (reachable_is_well_formed d R) as W.
  split; [exact W|]. intros f today Hf.
  rewrite (get_course_unfold f today d Hf).
  rewrite <- (select_active_some_iff today d W).
  destruct (select_active today d) as [[i cn]|]; simpl; split; intro H;
    try discriminate; try reflexivity.
  exfalso. apply H. reflexivity.
Qed.

Lemma reachable_databases_are_well_formed_witness :
  well_formed
    (final (mark_attendance no_faults (Some "S100|Jane Doe")
              (day1, "09:00:00")
              (final (set_course no_faults admin_session cs101_request
                                 day1 "t1" empty_db)))).
Proof.
  apply (reachable_databases_are_well_formed
           (final (mark_attendance no_faults (Some "S100|Jane Doe")
                     (day1, "09:00:00")
                     (final (set_course no_faults admin_session cs101_request
                                        day1 "t1" empty_db))))).
  apply reach_mark_attendance, reach_set_course, reach_empty.
Defined.
